(** * paper-search-mcp: Sci-Hub and Semantic Scholar fetchers

    A shallow embedding of
      - [paper_search_mcp/academic_platforms/sci_hub.py]  (module [SciHub])
      - [paper_search_mcp/academic_platforms/semantic.py] (module [Semantic])
    together with the properties their specification states.

    Conventions of the embedding
      - a Python [str] / [bytes] value is a [string]; its characters are the
        code points below 256, which is the range in which the character
        classes used by the code ([str.isspace], [\s], [\w], [str.lower])
        are tabulated below;
      - a value decoded from JSON is a [pyval]; a JSON object is a [gmap];
      - [time.time()] and the arguments of [time.sleep] are exact rationals;
      - the network, the clock, the file system, [curl] and the PDF converter
        form the environment [Env]: every call to them is answered from the
        history of calls made so far and is recorded in the trace;
      - a Python exception is a value [exn]; a computation is a function
        from the world to an outcome ([Ret] or [Raise]) and a new world. *)

From Stdlib Require Import ZArith QArith Qround Qpower String Ascii List Bool Lia Lqa.
From stdpp Require Import base option list gmap strings pretty.
From Equations Require Import Equations.
Import ListNotations.

Local Open Scope string_scope.
Local Open Scope Z_scope.

Set Warnings "-register-all".

#[local] Arguments Ascii.eqb : simpl never.
#[local] Arguments N_of_ascii : simpl never.

(** ** Python strings *)

Module Py.

(** [str.isspace] on one character, for code points below 256. *)
Definition isspace (c : ascii) : bool :=
  let n := N_of_ascii c in
  ((9 <=? n) && (n <=? 13) || (28 <=? n) && (n <=? 32)
   || (n =? 133) || (n =? 160))%N.

(** [str.isalnum] on one character, for code points below 256. *)
Definition isalnum (c : ascii) : bool :=
  let n := N_of_ascii c in
  ((48 <=? n) && (n <=? 57) || (65 <=? n) && (n <=? 90)
   || (97 <=? n) && (n <=? 122)
   || (n =? 170) || (n =? 178) || (n =? 179) || (n =? 181)
   || (n =? 185) || (n =? 186) || (188 <=? n) && (n <=? 190)
   || (192 <=? n) && (n <=? 214) || (216 <=? n) && (n <=? 246)
   || (248 <=? n))%N.

(** [str.lower] on one character: A-Z and the upper-case letters of the
    Latin-1 supplement move up by 32. *)
Definition lower_char (c : ascii) : ascii :=
  let n := N_of_ascii c in
  if ((65 <=? n) && (n <=? 90)
      || (192 <=? n) && (n <=? 222) && negb (n =? 215))%N
  then ascii_of_N (n + 32) else c.

Fixpoint lower (s : string) : string :=
  match s with
  | EmptyString => EmptyString
  | String c s' => String (lower_char c) (lower s')
  end.

(** Truth value of a [str]: non-empty. *)
Definition nonempty (s : string) : bool :=
  match s with EmptyString => false | String _ _ => true end.

Fixpoint lstrip (s : string) : string :=
  match s with
  | EmptyString => EmptyString
  | String c s' => if isspace c then lstrip s' else s
  end.

Fixpoint rstrip (s : string) : string :=
  match s with
  | EmptyString => EmptyString
  | String c s' =>
      let r := rstrip s' in
      if negb (nonempty r) && isspace c then EmptyString else String c r
  end.

(** [s.strip()] *)
Definition strip (s : string) : string := lstrip (rstrip s).

(** [s.rstrip(chars)] for a one-character [chars]. *)
Fixpoint rstrip_char (x : ascii) (s : string) : string :=
  match s with
  | EmptyString => EmptyString
  | String c s' =>
      let r := rstrip_char x s' in
      if negb (nonempty r) && Ascii.eqb c x then EmptyString else String c r
  end.

(** [s.startswith(p)] *)
Fixpoint startswith (p s : string) : bool :=
  match p, s with
  | EmptyString, _ => true
  | String a p', String b s' => Ascii.eqb a b && startswith p' s'
  | String _ _, EmptyString => false
  end.

(** [sub in s] *)
Fixpoint contains (sub s : string) : bool :=
  startswith sub s ||
  match s with
  | EmptyString => false
  | String _ s' => contains sub s'
  end.

Fixpoint string_rev_onto (acc s : string) : string :=
  match s with
  | EmptyString => acc
  | String c s' => string_rev_onto (String c acc) s'
  end.

(** [s.endswith(p)] *)
Definition endswith (p s : string) : bool :=
  startswith (string_rev_onto EmptyString p) (string_rev_onto EmptyString s).

(** [s[:n]] for [n >= 0]. *)
Definition take (n : nat) (s : string) : string := String.substring 0 n s.

(** [s.replace(old, new)] for a non-empty [old]: every occurrence, leftmost
    first, occurrences do not overlap.  [skip] counts the characters of the
    occurrence just replaced that are still to be passed over. *)
Fixpoint replace_from (skip : nat) (old new s : string) : string :=
  match s with
  | EmptyString => EmptyString
  | String c s' =>
      match skip with
      | S k => replace_from k old new s'
      | O =>
          if startswith old s
          then new ++ replace_from (String.length old - 1) old new s'
          else String c (replace_from O old new s')
      end
  end.

Definition replace (old new s : string) : string := replace_from O old new s.

(** [sep.join(l)] for a list of [str]. *)
Definition join (sep : string) (l : list string) : string := String.concat sep l.

(** The longest prefix of [s] whose characters satisfy [p], and the rest. *)
Fixpoint span (p : ascii -> bool) (s : string) : string * string :=
  match s with
  | EmptyString => (EmptyString, EmptyString)
  | String c s' =>
      if p c then let '(a, b) := span p s' in (String c a, b)
      else (EmptyString, s)
  end.

(** [s] without the prefix [p], when it starts with [p]. *)
Fixpoint strip_prefix (p s : string) : option string :=
  match p, s with
  | EmptyString, _ => Some s
  | String a p', String b s' => if Ascii.eqb a b then strip_prefix p' s' else None
  | String _ _, EmptyString => None
  end.

End Py.

(** ** The regular expressions of the source *)

Module Re.

(** A character of the URL class: anything but white space, a comma, a
    closing parenthesis and the double quote (code 34). *)
Definition url_char (c : ascii) : bool :=
  negb (Py.isspace c || Ascii.eqb c "," || Ascii.eqb c ")" || Ascii.eqb c "034").

(** A match of the URL pattern ([http], an optional [s], [://], then one or
    more characters of the URL class) anchored at the start of [s]. *)
Definition url_at (s : string) : option string :=
  let body rest :=
    let '(run, _) := Py.span url_char rest in
    if Py.nonempty run then Some run else None in
  match Py.strip_prefix "https://" s with
  | Some rest =>
      match body rest with
      | Some run => Some ("https://" ++ run)
      | None => None
      end
  | None =>
      match Py.strip_prefix "http://" s with
      | Some rest =>
          match body rest with
          | Some run => Some ("http://" ++ run)
          | None => None
          end
      | None => None
      end
  end.

(** [re.findall(url_pattern, s)]: the matches from left to right, the search
    resuming after the end of each match. *)
Fixpoint findall_url_from (skip : nat) (s : string) : list string :=
  match s with
  | EmptyString => []
  | String _ s' =>
      match skip with
      | S k => findall_url_from k s'
      | O =>
          match url_at s with
          | Some u => u :: findall_url_from (String.length u - 1) s'
          | None => findall_url_from O s'
          end
      end
  end.

Definition findall_url (s : string) : list string := findall_url_from O s.

(** A match of [location\.href='([^']+)'] anchored at the start of [s]:
    group 1. *)
Definition location_href_at (s : string) : option string :=
  match Py.strip_prefix "location.href='" s with
  | Some rest =>
      match Py.span (fun c => negb (Ascii.eqb c "'")) rest with
      | (String c g, String _ _) => Some (String c g)
      | _ => None
      end
  | None => None
  end.

(** [re.search(r"location\.href='([^']+)'", s)], reduced to group 1 of the
    leftmost match. *)
Fixpoint search_location_href (s : string) : option string :=
  match location_href_at s with
  | Some g => Some g
  | None =>
      match s with
      | EmptyString => None
      | String _ s' => search_location_href s'
      end
  end.

(** A character of the class [[^\w\-_.]]. *)
Definition unsafe_filename_char (c : ascii) : bool :=
  negb (Py.isalnum c || Ascii.eqb c "_" || Ascii.eqb c "-" || Ascii.eqb c ".").

(** [re.sub(r'[^\w\-_.]', '_', s)] *)
Fixpoint sub_unsafe_filename (s : string) : string :=
  match s with
  | EmptyString => EmptyString
  | String c s' =>
      String (if unsafe_filename_char c then "_"%char else c)
             (sub_unsafe_filename s')
  end.

End Re.


(** ** Values decoded from JSON *)

(** What [json.loads] builds.  JSON numbers are integers here: the fields the
    code reads ([citationCount], [year]) are counts. *)
Inductive pyval : Type :=
| PNone
| PBool (b : bool)
| PInt (z : Z)
| PStr (s : string)
| PList (l : list pyval)
| PDict (d : gmap string pyval).

(** Python's truth value of an object, as tested by [if x], [not x], [x or y]. *)
Definition truthy (v : pyval) : bool :=
  match v with
  | PNone => false
  | PBool b => b
  | PInt z => negb (z =? 0)
  | PStr s => Py.nonempty s
  | PList l => negb (Nat.eqb (length l) 0)
  | PDict d => negb (Nat.eqb (size d) 0)
  end.

(** [x or y] *)
Definition py_or (x y : pyval) : pyval := if truthy x then x else y.

(** ** Exceptions and outcomes *)

Inductive exn_class : Type :=
| RequestException   (* requests.exceptions.RequestException, other subclasses *)
| Timeout            (* requests.exceptions.Timeout *)
| HTTPError          (* requests.exceptions.HTTPError *)
| ConnectionError    (* requests.exceptions.ConnectionError *)
| TimeoutExpired     (* subprocess.TimeoutExpired *)
| OSError
| TypeError
| AttributeError
| KeyError
| ValueError
| RecursionError
| OverflowError.

Record exn : Type := Exn { exn_cls : exn_class; exn_msg : string }.

(** [except requests.exceptions.RequestException] *)
Definition is_RequestException (e : exn) : bool :=
  match exn_cls e with
  | RequestException | Timeout | HTTPError | ConnectionError => true
  | _ => false
  end.

(** [except requests.exceptions.Timeout] *)
Definition is_Timeout (e : exn) : bool :=
  match exn_cls e with Timeout => true | _ => false end.

(** [except subprocess.TimeoutExpired] *)
Definition is_TimeoutExpired (e : exn) : bool :=
  match exn_cls e with TimeoutExpired => true | _ => false end.

(** [except Exception]: every class above derives from [Exception]. *)
Definition is_Exception (e : exn) : bool := true.

Inductive outcome (A : Type) : Type :=
| Ret (a : A)
| Raise (e : exn).
Arguments Ret {A} a.
Arguments Raise {A} e.

Definition obind {A B} (o : outcome A) (k : A -> outcome B) : outcome B :=
  match o with
  | Ret a => k a
  | Raise e => Raise e
  end.

Declare Scope py_scope.
Delimit Scope py_scope with py.
Notation "'let?' x ':=' o 'in' k" := (obind o (fun x => k))
  (at level 10, x name, o at level 100, k at level 200, only parsing) : py_scope.

(** ** Dynamic operations on values *)

(** [v.get(key, default)]: a method of [dict] only. *)
Definition py_get (v : pyval) (key : string) (default : pyval) : outcome pyval :=
  match v with
  | PDict d => Ret (match d !! key with Some x => x | None => default end)
  | _ => Raise (Exn AttributeError "object has no attribute 'get'")
  end.

(** [v[key]] *)
Definition py_getitem (v : pyval) (key : string) : outcome pyval :=
  match v with
  | PDict d =>
      match d !! key with
      | Some x => Ret x
      | None => Raise (Exn KeyError key)
      end
  | _ => Raise (Exn TypeError "object is not subscriptable")
  end.

Fixpoint chars (s : string) : list pyval :=
  match s with
  | EmptyString => []
  | String c s' => PStr (String c EmptyString) :: chars s'
  end.

(** [for x in v]: the items the iteration yields. *)
Definition py_iter (v : pyval) : outcome (list pyval) :=
  match v with
  | PList l => Ret l
  | PStr s => Ret (chars s)
  | PDict d => Ret (PStr <$> (map_to_list d).*1)
  | _ => Raise (Exn TypeError "object is not iterable")
  end.

(** [l[:n]] on a list: a negative [n] counts from the end. *)
Definition slice_to {A} (n : Z) (l : list A) : list A :=
  if 0 <=? n then take (Z.to_nat n) l
  else take (Z.to_nat (Z.of_nat (length l) + n)) l.

(** [v[:n]]: lists and strings can be sliced. *)
Definition py_slice_to (n : Z) (v : pyval) : outcome pyval :=
  match v with
  | PList l => Ret (PList (slice_to n l))
  | PStr s => Ret (PStr (string_of_list_ascii (slice_to n (list_ascii_of_string s))))
  | _ => Raise (Exn TypeError "object is not subscriptable")
  end.

(** ** The parsed page *)

Record tag : Type := Tag { tag_name : string; tag_attrs : gmap string string }.

Inductive node : Type :=
| Element (t : tag) (children : list node)
| NavigableString (s : string).

(** The tags of a tree in document order. *)
Fixpoint descendants (n : node) : list tag :=
  match n with
  | Element t children => t :: concat (List.map descendants children)
  | NavigableString _ => []
  end.

Definition soup : Type := list node.

Definition soup_tags (s : soup) : list tag := concat (List.map descendants s).

(** [tag.get(key)]: the attribute, [None] when absent. *)
Definition tag_get (t : tag) (key : string) : option string := tag_attrs t !! key.

(** [soup.find_all(name)] *)
Definition find_all (s : soup) (name : string) : list tag :=
  List.filter (fun t => String.eqb (tag_name t) name) (soup_tags s).

(** [soup.find(name)] *)
Definition find (s : soup) (name : string) : option tag := head (find_all s name).

(** [soup.find(name, {key: value})] *)
Definition find_attr (s : soup) (name key value : string) : option tag :=
  head (List.filter
          (fun t => match tag_get t key with
                    | Some v => String.eqb v value
                    | None => false
                    end)
          (find_all s name)).

(** [soup.find_all(name, key=True)]: the tags that have the attribute. *)
Definition find_all_having (s : soup) (name key : string) : list tag :=
  List.filter (fun t => match tag_get t key with Some _ => true | None => false end)
              (find_all s name).

(** ** Dates *)

Record datetime : Type := Datetime { year : Z; month : Z; day : Z }.

(** ** HTTP responses *)

(** [headers] is keyed by lower-case header names ([requests] looks headers up
    without regard to case).  [json_body] is [None] when [response.json()]
    raises.  [stream_error] is what [iter_content] raises after it has
    delivered [content], if the transfer breaks. *)
Record response : Type := Response {
  status_code : Z;
  headers : gmap string string;
  content : string;
  text : string;
  json_body : option pyval;
  stream_error : option exn
}.

(** [response.ok], which is also the truth value of a response. *)
Definition response_ok (r : response) : bool :=
  negb ((400 <=? status_code r) && (status_code r <? 600)).

(** ** The environment *)

(** Which [time.sleep] of the source an event comes from. *)
Inductive sleep_site : Type :=
| RateLimit        (* _rate_limit_wait *)
| Backoff429       (* _make_request, status 429 *)
| BackoffError     (* _make_request, RequestException *)
| BackoffDownload. (* download_pdf, fallback loop *)

Inductive event : Type :=
| EvGet (url : string) (params : list (string * pyval))
| EvTime (t : Q)
| EvSleep (site : sleep_site) (d : Q)
| EvCurl (url path : string)
| EvMkdir (path : string)
| EvWrite (path : string)
| EvRemove (path : string)
| EvToMarkdown (path : string).

(** What [subprocess.run(['curl', ...])] does: it exits with a return code,
    having possibly written the output file, or the call raises. *)
Inductive curl_result : Type :=
| CurlExit (returncode : Z) (stderr : string) (written : option string)
| CurlRaise (e : exn).

(** The outside world and the libraries the code treats as black boxes.  The
    first argument of an effectful entry is the trace of the calls made so
    far, newest first. *)
Record Env : Type := {
  env_get : list event -> string -> list (string * pyval) -> outcome response;
  env_time : list event -> Q;
  env_which_curl : list event -> bool;
  env_curl : list event -> string -> string -> curl_result;
  env_mkdir : list event -> string -> option exn;
  env_write : list event -> string -> option exn;
  env_to_markdown : list event -> string -> outcome string;
  (* BeautifulSoup(content, 'html.parser') *)
  env_parse_html : string -> outcome soup;
  (* hashlib.md5(content).hexdigest() *)
  env_md5_hexdigest : string -> string;
  (* str(Path.home()), str(Path(s)), str(Path(a) / b) *)
  env_home : string;
  env_Path : string -> string;
  env_path_div : string -> string -> string;
  (* datetime.strptime(s, format): None when it raises ValueError *)
  env_strptime : string -> string -> option datetime;
  (* str(d) for a datetime, str(v) for a list or a dict *)
  env_datetime_str : datetime -> string;
  env_container_str : pyval -> string;
  (* how many times a function can still call itself before the interpreter
     refuses the call with RecursionError: what sys.getrecursionlimit()
     leaves after the frames of the caller and of the calls made inside *)
  env_stack_room : Z
}.

(** The state a call runs in: the trace of events (newest first), the files
    with their contents, and [_last_request_time] of the searcher. *)
Record world : Type := World {
  trace : list event;
  files : gmap string string;
  last_request_time : Q
}.

Definition log (ev : event) (w : world) : world :=
  World (ev :: trace w) (files w) (last_request_time w).

(** ** Computations *)

Definition M (A : Type) : Type := world -> outcome A * world.

Definition ret {A} (a : A) : M A := fun w => (Ret a, w).

Definition raise {A} (e : exn) : M A := fun w => (Raise e, w).

Definition bind {A B} (m : M A) (k : A -> M B) : M B :=
  fun w =>
    match m w with
    | (Ret a, w') => k a w'
    | (Raise e, w') => (Raise e, w')
    end.

(** [try: m  except ...]: [h e] is [Some] handler when a clause catches [e]. *)
Definition try_catch {A} (m : M A) (h : exn -> option (M A)) : M A :=
  fun w =>
    match m w with
    | (Ret a, w') => (Ret a, w')
    | (Raise e, w') =>
        match h e with
        | Some handler => handler w'
        | None => (Raise e, w')
        end
    end.

Definition lift {A} (o : outcome A) : M A := fun w => (o, w).

Notation "x <- m ;; k" := (bind m (fun x => k))
  (at level 100, m at next level, right associativity) : py_scope.
Notation "m ;; k" := (bind m (fun _ => k))
  (at level 100, right associativity) : py_scope.

Local Open Scope py_scope.

(** ** Floating-point numbers *)

(** Python's [float] is the binary64 format.  Times and durations are
    rationals here; the sum of two floats is their exact sum rounded to the
    nearest binary64 value, the one with the even significand when two are
    equally near.  [round] does this for magnitudes in the normal range of
    the format (53 significant bits). *)
Module Float.

(** [floor (log2 x)] for a positive [x]. *)
Definition ilog2 (x : Q) : Z :=
  if Qle_bool 1 x then Z.log2 (Qfloor x)
  else - Z.log2_up (Qceiling (/ x)).

(** The nearest integer; of two that are equally near, the even one. *)
Definition nearest_even (q : Q) : Z :=
  let f := Qfloor q in
  match (q - inject_Z f ?= 1 # 2)%Q with
  | Lt => f
  | Gt => f + 1
  | Eq => if Z.even f then f else f + 1
  end.

Definition round_positive (x : Q) : Q :=
  let ulp := (2 ^ (ilog2 x - 52))%Q in
  Qred (inject_Z (nearest_even (x / ulp)) * ulp).

Definition round (x : Q) : Q :=
  match (x ?= 0)%Q with
  | Eq => 0%Q
  | Gt => round_positive x
  | Lt => (- round_positive (- x))%Q
  end.

(** [a + b] on floats; an [int] operand is converted first, which is exact
    for the powers of two the code adds: the retries, counted from 0, end
    long before [2 ^ 1024], where the conversion fails. *)
Definition add (a b : Q) : Q := round (a + b).

End Float.

(** The longest duration [time.sleep] accepts, in whole seconds: the
    interpreter counts in nanoseconds with 63 bits and raises [OverflowError]
    beyond. *)
Definition TIME_SLEEP_MAX : Q := 9223372036.

(** ** Calls to the environment *)

Section Primitives.
Context (E : Env).

(** [time.time()] *)
Definition time_time : M Q :=
  fun w => let t := env_time E (trace w) in (Ret t, log (EvTime t) w).

(** [time.sleep(d)] *)
Definition time_sleep (site : sleep_site) (d : Q) : M unit :=
  fun w => (Ret tt, log (EvSleep site d) w).

(** [time.sleep(d)] with the wait of a retry of [_make_request], which
    doubles with every retry.  [time.sleep] keeps the duration as a count of
    nanoseconds in 64 bits and raises [OverflowError], without sleeping, for a
    duration that does not fit: one of more than [TIME_SLEEP_MAX] seconds,
    among the waits of the retries, which are below [2 ^ 33 + 1] seconds or at
    least [2 ^ 34]. *)
Definition time_sleep_backoff (site : sleep_site) (d : Q) : M unit :=
  if Qle_bool d TIME_SLEEP_MAX then time_sleep site d
  else raise (Exn OverflowError "timestamp too large to convert to C _PyTime_t").

(** A call of the running function to itself, [depth] calls deep: it needs
    a new frame, and the interpreter refuses it with [RecursionError] when
    that many nested calls do not fit the stack.  The frames of the calls
    made inside the function are counted in [env_stack_room], so that the
    refusal is placed at the nested call itself. *)
Definition nested_call {A} (depth : Z) (m : M A) : M A :=
  if depth <=? env_stack_room E then m
  else raise (Exn RecursionError "maximum recursion depth exceeded").

(** [session.get(url, params=params, ...)] *)
Definition session_get (url : string) (params : list (string * pyval)) : M response :=
  fun w => (env_get E (trace w) url params, log (EvGet url params) w).

(** [os.makedirs(path, exist_ok=True)], [Path.mkdir(parents=True, exist_ok=True)] *)
Definition mkdir (path : string) : M unit :=
  fun w =>
    (match env_mkdir E (trace w) path with
     | Some e => Raise e
     | None => Ret tt
     end, log (EvMkdir path) w).

(** [with open(path, 'wb') as f: f.write(data)] *)
Definition write_file (path data : string) : M unit :=
  fun w =>
    match env_write E (trace w) path with
    | Some e => (Raise e, log (EvWrite path) w)
    | None =>
        (Ret tt, World (EvWrite path :: trace w) (<[path := data]> (files w))
                       (last_request_time w))
    end.

(** [os.path.exists(path)] *)
Definition path_exists (path : string) : M bool :=
  fun w => (Ret (match files w !! path with Some _ => true | None => false end), w).

(** [os.path.getsize(path)] *)
Definition getsize (path : string) : M Z :=
  fun w =>
    (match files w !! path with
     | Some data => Ret (Z.of_nat (String.length data))
     | None => Raise (Exn OSError path)
     end, w).

(** [os.remove(path)] *)
Definition remove (path : string) : M unit :=
  fun w =>
    match files w !! path with
    | Some _ =>
        (Ret tt, World (EvRemove path :: trace w) (delete path (files w))
                       (last_request_time w))
    | None => (Raise (Exn OSError path), w)
    end.

(** [shutil.which('curl')], as a truth value *)
Definition which_curl : M bool :=
  fun w => (Ret (env_which_curl E (trace w)), w).

(** [subprocess.run(['curl', '-L', '-o', path, ..., url], ...)]: the return
    code and the captured standard error. *)
Definition run_curl (url path : string) : M (Z * string) :=
  fun w =>
    match env_curl E (trace w) url path with
    | CurlExit rc err written =>
        (Ret (rc, err),
         World (EvCurl url path :: trace w)
               (match written with
                | Some data => <[path := data]> (files w)
                | None => files w
                end)
               (last_request_time w))
    | CurlRaise e => (Raise e, log (EvCurl url path) w)
    end.

(** [pymupdf4llm.to_markdown(path, show_progress=False)] *)
Definition to_markdown (path : string) : M string :=
  fun w => (env_to_markdown E (trace w) path, log (EvToMarkdown path) w).

(** [str(v)], as an f-string formats a value. *)
Definition py_str (v : pyval) : string :=
  match v with
  | PNone => "None"
  | PBool true => "True"
  | PBool false => "False"
  | PInt z => pretty z
  | PStr s => s
  | PList _ | PDict _ => env_container_str E v
  end.

(** [str(e)] for an exception. *)
Definition exn_str (e : exn) : string := exn_msg e.

End Primitives.

(** [x.startswith("Error")] *)
Definition is_error (x : string) : bool := Py.startswith "Error" x.

(** The events that are calls over the network. *)
Definition is_network (ev : event) : bool :=
  match ev with
  | EvGet _ _ | EvCurl _ _ => true
  | _ => false
  end.

Definition network_calls (w : world) : list event := List.filter is_network (trace w).

(** ** Sci-Hub *)

Module SciHub.

Definition SCIHUB_MIRRORS : list string :=
  ["https://sci-hub.se"; "https://sci-hub.st"; "https://sci-hub.ru"].

Record fetcher : Type := Fetcher { base_url : string; timeout : Z }.

(** [SciHubFetcher.__init__]: [environ] is the value of the environment
    variable [SCIHUB_MIRROR], if set. *)
Definition init (base : option string) (environ : option string) (timeout : Z)
  : fetcher :=
  let nonempty o := match o with
                    | Some s => if Py.nonempty s then Some s else None
                    | None => None
                    end in
  let chosen :=
    match nonempty base with
    | Some s => s
    | None =>
        match nonempty environ with
        | Some s => s
        | None => List.nth 0 SCIHUB_MIRRORS ""
        end
    end in
  Fetcher (Py.rstrip_char "/" chosen) timeout.

Section Fetcher.
Context (E : Env) (self : fetcher).

Definition _normalize_url (url : string) : string :=
  if Py.startswith "//" url then "https:" ++ url
  else if Py.startswith "/" url then base_url self ++ url
  else url.

(** The loop over [soup.find_all('button')] of [_get_pdf_url]: the value
    returned from inside the loop, if any. *)
Fixpoint button_loop (buttons : list tag) : option string :=
  match buttons with
  | [] => None
  | button :: rest =>
      let onclick := default "" (tag_get button "onclick") in
      if Py.contains "pdf" (Py.lower onclick) then
        match Re.search_location_href onclick with
        | Some g => Some (_normalize_url g)
        | None => button_loop rest
        end
      else button_loop rest
  end.

(** The loop over [soup.find_all('a', href=True)] of [_get_pdf_url]. *)
Fixpoint link_loop (links : list tag) : option string :=
  match links with
  | [] => None
  | link :: rest =>
      let href := default "" (tag_get link "href") in
      if Py.contains "pdf" (Py.lower href) || Py.endswith ".pdf" href
      then Some (_normalize_url href)
      else link_loop rest
  end.

(** [tag and tag.get('src')], as a truth value with the attribute. *)
Definition src_of (t : option tag) : option string :=
  match t with
  | Some t =>
      match tag_get t "src" with
      | Some src => if Py.nonempty src then Some src else None
      | None => None
      end
  | None => None
  end.

(** The search of [_get_pdf_url] in the parsed page. *)
Definition pdf_url_in (page : soup) : option string :=
  match src_of (find_attr page "embed" "type" "application/pdf") with
  | Some src => Some (_normalize_url src)
  | None =>
      match src_of (find page "iframe") with
      | Some src => Some (_normalize_url src)
      | None =>
          match button_loop (find_all page "button") with
          | Some url => Some url
          | None => link_loop (find_all_having page "a" "href")
          end
      end
  end.

Definition _get_pdf_url (doi : string) : M (option string) :=
  try_catch
    (let search_url := base_url self ++ "/" ++ doi in
     response <- session_get E search_url [] ;;
     if negb (status_code response =? 200) then ret None
     else if Py.contains "article not found" (Py.lower (text response)) then ret None
     else
       page <- lift (env_parse_html E (content response)) ;;
       ret (pdf_url_in page))
    (fun e => if is_Exception e then Some (ret None) else None).

Definition _generate_filename (doi : string) (r : response) : string :=
  let clean_doi := Re.sub_unsafe_filename doi in
  let content_hash := Py.take 6 (env_md5_hexdigest E (content r)) in
  "scihub_" ++ clean_doi ++ "_" ++ content_hash ++ ".pdf".

Definition download_pdf (doi : string) (save_path : option string) : M string :=
  if negb (Py.nonempty doi) || negb (Py.nonempty (Py.strip doi))
  then ret "Error: DOI is empty"
  else
    let doi := Py.strip doi in
    let output_dir :=
      match save_path with
      | Some p => if Py.nonempty p then env_Path E p
                  else env_path_div E (env_home E) "paper_downloads"
      | None => env_path_div E (env_home E) "paper_downloads"
      end in
    mkdir E output_dir ;;
    try_catch
      (pdf_url <- _get_pdf_url doi ;;
       match pdf_url with
       | None => ret ("Error: Could not find PDF for DOI " ++ doi ++ " on Sci-Hub")
       | Some pdf_url =>
           if negb (Py.nonempty pdf_url)
           then ret ("Error: Could not find PDF for DOI " ++ doi ++ " on Sci-Hub")
           else
             response <- session_get E pdf_url [] ;;
             if negb (status_code response =? 200)
             then ret ("Error: Download failed with status "
                       ++ pretty (status_code response))
             else
               let content_type := default "" (headers response !! "content-type") in
               if negb (Py.contains "pdf" (Py.lower content_type))
                  && negb (String.eqb (Py.take 4 (content response)) "%PDF")
               then ret ("Error: Response is not a PDF (Content-Type: "
                         ++ content_type ++ ")")
               else
                 let filename := _generate_filename doi response in
                 let file_path := env_path_div E output_dir filename in
                 write_file E file_path (content response) ;;
                 ret file_path
       end)
      (fun e => if is_Exception e
                then Some (ret ("Error downloading PDF: " ++ exn_str e))
                else None).

(** The metadata block [read_paper] puts before the text. *)
Definition metadata (doi pdf_path : string) : string :=
  "# Paper: " ++ doi ++ "

" ++ "**DOI**: https://doi.org/" ++ doi ++ "
" ++ "**PDF**: " ++ pdf_path ++ "
" ++ "**Source**: Sci-Hub

" ++ "---

".

Definition read_paper (doi : string) (save_path : option string) : M string :=
  result <- download_pdf doi save_path ;;
  if is_error result then ret result
  else
    let pdf_path := result in
    try_catch
      (text <- to_markdown E pdf_path ;;
       if negb (Py.nonempty (Py.strip text))
       then ret ("PDF downloaded to " ++ pdf_path
                 ++ ", but no text could be extracted.")
       else ret (metadata doi pdf_path ++ text))
      (fun e => if is_Exception e
                then Some (ret ("Error extracting text: " ++ exn_str e))
                else None).

End Fetcher.

(** [check_paper_year(published_date, cutoff_year)] *)
Definition check_paper_year (published_date : option datetime) (cutoff_year : Z) : bool :=
  match published_date with
  | None => false
  | Some d => year d <? cutoff_year
  end.

End SciHub.

(** ** The Paper record *)

(** Modelled from the spec: the [Paper] class of [paper_search_mcp/paper.py],
    which the sources import but do not contain.  The spec describes a flat
    record (identifier, title, ordered author names, abstract, canonical URL,
    PDF URL, optional publication date, source tag, category tags, DOI,
    citation count) that is built fresh from each response.  The fields are
    the keyword arguments [_parse_paper] passes; they hold whatever values the
    response had, so all but the date and the source tag are [pyval]. *)
Record Paper : Type := mkPaper {
  paper_id : pyval;
  title : pyval;
  authors : list pyval;
  abstract : pyval;
  url : pyval;
  pdf_url : pyval;
  published_date : option datetime;
  source : string;
  categories : pyval;
  doi : pyval;
  citations : pyval
}.

(** ** Semantic Scholar *)

Module Semantic.

Definition BASE_URL : string := "https://api.semanticscholar.org/graph/v1".

Definition DEFAULT_FIELDS : list string :=
  ["title"; "abstract"; "year"; "citationCount";
   "authors"; "url"; "publicationDate";
   "externalIds"; "fieldsOfStudy"; "openAccessPdf"].

Record searcher : Type := Searcher {
  api_key : string;
  timeout : Z;
  max_retries : Z;
  min_request_interval : Q
}.

(** [SemanticSearcher.__init__]: [environ] is the value of the environment
    variable [SEMANTIC_SCHOLAR_API_KEY], if set.  The searcher starts in a
    world whose [last_request_time] is 0. *)
Definition init (key : option string) (environ : option string)
    (timeout max_retries : Z) : searcher :=
  let api_key :=
    match key with
    | Some k => if Py.nonempty k then k else default "" environ
    | None => default "" environ
    end in
  Searcher api_key timeout max_retries (if Py.nonempty api_key then 1 else 1 # 2)%Q.

(** [t % 1] for a float [t]: the fractional part, in [0, 1). *)
Definition mod1 (t : Q) : Q := (t - inject_Z (Qfloor t))%Q.

(** [response.raise_for_status()] *)
Definition raise_for_status (r : response) : M unit :=
  if (400 <=? status_code r) && (status_code r <? 600)
  then raise (Exn HTTPError ("HTTP status " ++ pretty (status_code r)))
  else ret tt.

(** [range(n)] *)
Definition range (n : Z) : list Z := List.map Z.of_nat (seq 0 (Z.to_nat n)).

(** [os.path.join(a, b)] on a POSIX system. *)
Definition os_path_join (a b : string) : string :=
  if Py.startswith "/" b then b
  else if negb (Py.nonempty a) || Py.endswith "/" a then a ++ b
  else a ++ "/" ++ b.

(** [v.strip()]: a method of [str]. *)
Definition py_strip (v : pyval) : outcome string :=
  match v with
  | PStr s => Ret (Py.strip s)
  | _ => Raise (Exn AttributeError "object has no attribute 'strip'")
  end.

(** [re.findall(url_pattern, v)]: the argument must be a string. *)
Definition re_findall_url (v : pyval) : outcome (list string) :=
  match v with
  | PStr s => Ret (Re.findall_url s)
  | _ => Raise (Exn TypeError "expected string or bytes-like object")
  end.

(** [type(v).__name__] *)
Definition py_type_name (v : pyval) : string :=
  match v with
  | PNone => "NoneType"
  | PBool _ => "bool"
  | PInt _ => "int"
  | PStr _ => "str"
  | PList _ => "list"
  | PDict _ => "dict"
  end.

(** The items of the argument of [str.join], from position [i] on: every
    item must be a [str]; the first one that is not is named in the
    [TypeError], with its position and its type. *)
Fixpoint str_items_from (i : nat) (l : list pyval) : outcome (list string) :=
  match l with
  | [] => Ret []
  | PStr s :: rest => let? ss := str_items_from (S i) rest in Ret (s :: ss)
  | v :: _ =>
      Raise (Exn TypeError ("sequence item " ++ pretty i ++ ": expected str instance, "
                            ++ py_type_name v ++ " found"))
  end.

(** [', '.join(l)]: the items to join. *)
Definition str_items (l : list pyval) : outcome (list string) := str_items_from 0 l.

Section Searcher.
Context (E : Env) (self : searcher).

Definition _rate_limit_wait : M unit :=
  now <- time_time E ;;
  (fun w =>
     let elapsed := (now - last_request_time w)%Q in
     (if Qlt_le_dec elapsed (min_request_interval self)
      then time_sleep RateLimit (min_request_interval self - elapsed)%Q
      else ret tt) w) ;;
  now <- time_time E ;;
  (fun w => (Ret tt, World (trace w) (files w) now)).

(** [_make_request].  The retry is a call of the method to itself.  The
    wait after a 429 is a sum of an [int] and a [float], rounded as floats
    are; the wait after an exception is an [int]. *)
Equations? _make_request (endpoint : string) (params : list (string * pyval))
    (retry_count : Z) : M (option response)
    by wf (Z.to_nat (max_retries self - retry_count)) lt :=
  _make_request endpoint params retry_count :=
    _rate_limit_wait ;;
    let url := BASE_URL ++ "/" ++ endpoint in
    try_catch
      (response <- session_get E url params ;;
       if status_code response =? 429 then
         match Z_lt_dec retry_count (max_retries self) with
         | left _ =>
             now <- time_time E ;;
             let wait_time := Float.add (Qpower 2 retry_count) (mod1 now) in
             time_sleep_backoff Backoff429 wait_time ;;
             nested_call E (retry_count + 1)
               (_make_request endpoint params (retry_count + 1))
         | right _ => ret None
         end
       else
         raise_for_status response ;;
         ret (Some response))
      (fun e =>
         if is_RequestException e then
           Some
             match Z_lt_dec retry_count (max_retries self) with
             | left _ =>
                 let wait_time := Qpower 2 retry_count in
                 time_sleep_backoff BackoffError wait_time ;;
                 nested_call E (retry_count + 1)
                   (_make_request endpoint params (retry_count + 1))
             | right _ => ret None
             end
         else None).
Proof. all: lia. Qed.

Definition _parse_date (date_str : pyval) : outcome (option datetime) :=
  if negb (truthy date_str) then Ret None
  else
    let? s := py_strip date_str in
    match env_strptime E s "%Y-%m-%d" with
    | Some d => Ret (Some d)
    | None =>
        let? s := py_strip date_str in
        match env_strptime E (Py.take 4 s) "%Y" with
        | Some d => Ret (Some d)
        | None => Ret None
        end
    end.

(** The loop over [matches] of [_extract_pdf_url]: the value returned from
    inside the loop, if any. *)
Fixpoint preferred_url (matches : list string) : option string :=
  match matches with
  | [] => None
  | url :: rest =>
      if Py.contains "doi.org" url || Py.contains "arxiv.org" url then
        if Py.contains "arxiv.org/abs/" url
        then Some (Py.replace "/abs/" "/pdf/" url ++ ".pdf")
        else Some url
      else preferred_url rest
  end.

Definition _extract_pdf_url (open_access_pdf : pyval) : outcome pyval :=
  if negb (truthy open_access_pdf) then Ret (PStr "")
  else
    let? direct := py_get open_access_pdf "url" PNone in
    if truthy direct then py_getitem open_access_pdf "url"
    else
      let? disclaimer := py_get open_access_pdf "disclaimer" (PStr "") in
      if truthy disclaimer then
        let? matches := re_findall_url disclaimer in
        match matches with
        | first :: _ =>
            match preferred_url matches with
            | Some url => Ret (PStr url)
            | None => Ret (PStr first)
            end
        | [] => Ret (PStr "")
        end
      else Ret (PStr "").

(** The list comprehension over the authors of [_parse_paper]. *)
Fixpoint author_names (items : list pyval) : outcome (list pyval) :=
  match items with
  | [] => Ret []
  | author :: rest =>
      let? cond := py_get author "name" PNone in
      if truthy cond then
        let? name := py_get author "name" (PStr "") in
        let? names := author_names rest in
        Ret (name :: names)
      else author_names rest
  end.

Definition _parse_paper (data : pyval) : option Paper :=
  let parsed :=
    let? paper_id := py_get data "paperId" (PStr "") in
    if negb (truthy paper_id) then Ret None
    else
      let? authors_field := py_get data "authors" (PList []) in
      let? items := py_iter authors_field in
      let? authors := author_names items in
      let? ids := py_get data "externalIds" (PDict ∅) in
      let external_ids := py_or ids (PDict ∅) in
      let? doi := py_get external_ids "DOI" (PStr "") in
      let? open_access_pdf := py_get data "openAccessPdf" PNone in
      let? pdf_url := _extract_pdf_url open_access_pdf in
      let? title := py_get data "title" (PStr "Untitled") in
      let? abstract := py_get data "abstract" (PStr "") in
      let? url := py_get data "url" (PStr "") in
      let? publication_date := py_get data "publicationDate" (PStr "") in
      let? published_date := _parse_date publication_date in
      let? fields := py_get data "fieldsOfStudy" (PList []) in
      let? count := py_get data "citationCount" (PInt 0) in
      Ret (Some (mkPaper paper_id title authors abstract url pdf_url
                         published_date "semantic" (py_or fields (PList []))
                         doi (py_or count (PInt 0)))) in
  match parsed with
  | Ret p => p
  | Raise _ => None
  end.

(** The loop of [search] over the sliced results. *)
Fixpoint parse_all (items : list pyval) : list Paper :=
  match items with
  | [] => []
  | item :: rest =>
      match _parse_paper item with
      | Some paper => paper :: parse_all rest
      | None => parse_all rest
      end
  end.

(** [response.json()] *)
Definition response_json (r : response) : outcome pyval :=
  match json_body r with
  | Some v => Ret v
  | None => Raise (Exn ValueError "Expecting value")
  end.

(** The request parameters [search] builds. *)
Definition search_params (query : string) (year : option string) (max_results : Z)
  : list (string * pyval) :=
  ([("query", PStr query);
    ("limit", PInt (Z.min max_results 100));
    ("fields", PStr (Py.join "," DEFAULT_FIELDS))]
   ++ match year with
      | Some y => if Py.nonempty y then [("year", PStr y)] else []
      | None => []
      end)%list.

Definition search (query : string) (year : option string) (max_results : Z)
  : M (list Paper) :=
  let params := search_params query year max_results in
  response <- _make_request "paper/search" params 0 ;;
  match response with
  | None => ret []
  | Some response =>
      if negb (response_ok response) then ret []
      else
        match (let? data := response_json response in
               py_get data "data" (PList [])) with
        | Raise _ => ret []
        | Ret results =>
            sliced <- lift (py_slice_to max_results results) ;;
            items <- lift (py_iter sliced) ;;
            ret (parse_all items)
        end
  end.

Definition get_paper_details (paper_id : string) : M (option Paper) :=
  let params := [("fields", PStr (Py.join "," DEFAULT_FIELDS))] in
  response <- _make_request ("paper/" ++ paper_id) params 0 ;;
  match response with
  | None => ret None
  | Some response =>
      if negb (response_ok response) then ret None
      else
        match response_json response with
        | Ret data => ret (_parse_paper data)
        | Raise _ => ret None
        end
  end.

Definition _download_with_curl (url : pyval) (pdf_path : string) : M bool :=
  has_curl <- which_curl E ;;
  if negb has_curl then ret false
  else
    try_catch
      (result <- match url with
                 | PStr u => run_curl E u pdf_path
                 | _ => raise (Exn TypeError "expected str, bytes or os.PathLike object")
                 end ;;
       let '(returncode, stderr) := result in
       exists_ <- path_exists pdf_path ;;
       if (returncode =? 0) && exists_ then
         file_size <- getsize pdf_path ;;
         if file_size >? 1000 then ret true
         else
           remove pdf_path ;;
           ret false
       else ret false)
      (fun e =>
         if is_TimeoutExpired e then Some (ret false)
         else if is_Exception e then Some (ret false)
         else None).

(** [with open(pdf_path, 'wb') as f: for chunk in response.iter_content(...):
    if chunk: f.write(chunk)] *)
Definition write_stream (pdf_path : string) (r : response) : M unit :=
  write_file E pdf_path (content r) ;;
  match stream_error r with
  | Some e => raise e
  | None => ret tt
  end.

(** The loop [for attempt in range(self.max_retries)] of [download_pdf]: the
    value returned from inside the loop, if any. *)
Fixpoint download_attempts (pdf_url : pyval) (pdf_path : string)
    (attempts : list Z) : M (option string) :=
  match attempts with
  | [] => ret None
  | attempt :: rest =>
      let backoff : M (option string) :=
        (if attempt <? max_retries self - 1
         then time_sleep BackoffDownload (Qpower 2 attempt)
         else ret tt) ;;
        ret None in
      returned <-
        try_catch
          (response <- session_get E (py_str E pdf_url) [] ;;
           raise_for_status response ;;
           write_stream pdf_path response ;;
           ret (Some pdf_path))
          (fun e =>
             if is_Timeout e then Some backoff
             else if is_RequestException e then Some backoff
             else None) ;;
      match returned with
      | Some path => ret (Some path)
      | None => download_attempts pdf_url pdf_path rest
      end
  end.

Definition download_pdf (paper_id : string) (save_path : string) : M string :=
  paper <- get_paper_details paper_id ;;
  match paper with
  | None => ret ("Error: Could not find paper " ++ paper_id)
  | Some paper =>
      if negb (truthy (pdf_url paper))
      then ret ("Error: No PDF URL available for paper " ++ paper_id)
      else
        mkdir E save_path ;;
        let safe_id := Py.replace ":" "_" (Py.replace "/" "_" paper_id) in
        let filename := "semantic_" ++ safe_id ++ ".pdf" in
        let pdf_path := os_path_join save_path filename in
        downloaded <- _download_with_curl (pdf_url paper) pdf_path ;;
        if downloaded then ret pdf_path
        else
          returned <- download_attempts (pdf_url paper) pdf_path
                        (range (max_retries self)) ;;
          match returned with
          | Some path => ret path
          | None => ret ("Error downloading PDF: All methods failed for "
                         ++ py_str E (pdf_url paper))
          end
  end.

(** The metadata block [read_paper] builds from the paper. *)
Definition metadata (paper : Paper) (pdf_path : string) : outcome string :=
  let? names := str_items (authors paper) in
  Ret ("# " ++ py_str E (title paper) ++ "

" ++ "**Authors**: " ++ Py.join ", " names ++ "
" ++ "**Published**: "
     ++ match published_date paper with
        | Some d => env_datetime_str E d
        | None => "None"
        end ++ "
" ++ "**URL**: " ++ py_str E (url paper) ++ "
" ++ "**PDF**: " ++ pdf_path ++ "

" ++ "---

").

Definition read_paper (paper_id : string) (save_path : string) : M string :=
  pdf_path <- download_pdf paper_id save_path ;;
  if is_error pdf_path then ret pdf_path
  else
    paper <- get_paper_details paper_id ;;
    try_catch
      (text <- to_markdown E pdf_path ;;
       if negb (Py.nonempty (Py.strip text))
       then ret ("PDF downloaded to " ++ pdf_path
                 ++ ", but no text could be extracted.")
       else
         metadata <- lift (match paper with
                           | Some paper => metadata paper pdf_path
                           | None => Ret ""
                           end) ;;
         ret (metadata ++ text))
      (fun e => if is_Exception e
                then Some (ret ("Error extracting text: " ++ exn_str e))
                else None).

End Searcher.
End Semantic.

(** * Vocabulary of the properties *)

(** What the specification asks of [_normalize_url], in its own words:
    protocol-relative and root-relative URLs are resolved against the
    mirror's base.  A protocol-relative URL takes the scheme of the base; a
    root-relative URL replaces the path of the base, so that it follows the
    origin (scheme and authority) of the base. *)
Module NormalizeSpec.

(** The scheme of an absolute URL: the characters before the first colon. *)
Fixpoint scheme_of (base : string) : string :=
  match base with
  | EmptyString => EmptyString
  | String c rest => if Ascii.eqb c ":" then EmptyString else String c (scheme_of rest)
  end.

(** The origin of an absolute URL: the scheme, [://] and the authority, up
    to the path, the query or the fragment. *)
Definition origin_of (base : string) : string :=
  let scheme := scheme_of base in
  match Py.strip_prefix (scheme ++ "://") base with
  | Some rest =>
      scheme ++ "://"
      ++ fst (Py.span (fun c => negb (Ascii.eqb c "/" || Ascii.eqb c "?"
                                      || Ascii.eqb c "#")) rest)
  | None => base
  end.

Definition resolve_against_base (base url : string) : string :=
  if Py.startswith "//" url then scheme_of base ++ ":" ++ url
  else if Py.startswith "/" url then origin_of base ++ url
  else url.

End NormalizeSpec.

(** The places a Sci-Hub page can name its PDF, in the words of the
    properties: stated on the tags of the page in document order, without
    the search functions of the parser and without the regular expression of
    the code. *)
Module Resolver.

(** The value of an attribute, when the tag has it and it is not empty. *)
Definition attribute (key : string) (t : tag) : option string :=
  match tag_attrs t !! key with
  | Some v => if String.eqb v "" then None else Some v
  | None => None
  end.

(** An embedded PDF element: an [embed] tag of type [application/pdf]. *)
Definition is_pdf_embed (t : tag) : bool :=
  String.eqb (tag_name t) "embed"
  && bool_decide (tag_attrs t !! "type" = Some "application/pdf").

Definition is_iframe (t : tag) : bool := String.eqb (tag_name t) "iframe".

(** The source of the first tag of a kind, if that tag has one. *)
Definition first_src (kind : tag -> bool) (page : soup) : option string :=
  match List.find kind (soup_tags page) with
  | Some t => attribute "src" t
  | None => None
  end.

(** [script] holds, after [before], the assignment of [target] to
    [location.href] in single quotes; the target is not empty and holds no
    quote. *)
Definition assignment (script before target after : string) : Prop :=
  script = before ++ "location.href='" ++ target ++ "'" ++ after
  /\ target <> ""
  /\ ~ In "'"%char (list_ascii_of_string target).

(** [script] navigates to [target]: its first such assignment is that of
    [target]. *)
Definition navigates (script target : string) : Prop :=
  exists before after,
    assignment script before target after
    /\ forall before' target' after',
         assignment script before' target' after' ->
         (String.length before <= String.length before')%nat.

(** A download button: a [button] whose [onclick] script mentions [pdf], in
    any letter case, and navigates. *)
Definition download_button (t : tag) (target : string) : Prop :=
  tag_name t = "button"
  /\ Py.contains "pdf" (Py.lower (default "" (tag_attrs t !! "onclick"))) = true
  /\ navigates (default "" (tag_attrs t !! "onclick")) target.

(** The first download button of the page navigates to [target]. *)
Definition first_download (page : soup) (target : string) : Prop :=
  exists before t after,
    soup_tags page = (before ++ t :: after)%list
    /\ download_button t target
    /\ forall t' target', In t' before -> ~ download_button t' target'.

(** The page has no download button. *)
Definition no_download (page : soup) : Prop :=
  forall t target, In t (soup_tags page) -> ~ download_button t target.

(** An anchor whose [href] suggests a PDF. *)
Definition is_pdf_anchor (t : tag) : bool :=
  String.eqb (tag_name t) "a"
  && match tag_attrs t !! "href" with
     | Some href => Py.contains "pdf" (Py.lower href) || Py.endswith ".pdf" href
     | None => false
     end.

(** The target of the first such anchor. *)
Definition first_pdf_anchor (page : soup) : option string :=
  match List.find is_pdf_anchor (soup_tags page) with
  | Some t => tag_attrs t !! "href"
  | None => None
  end.

(** The page of [doi] was served: status 200, no not-found marker, parsed. *)
Definition served (E : Env) (self : SciHub.fetcher) (doi : string) (w : world)
    (r : response) (page : soup) : Prop :=
  env_get E (trace w) (SciHub.base_url self ++ "/" ++ doi) [] = Ret r
  /\ status_code r = 200
  /\ Py.contains "article not found" (Py.lower (text r)) = false
  /\ env_parse_html E (content r) = Ret page.

End Resolver.

(** The choice [_extract_pdf_url] makes among the URLs of a disclaimer. *)
Module OpenAccess.

(** A URL on a DOI or arXiv domain. *)
Definition preferred (url : string) : bool :=
  Py.contains "doi.org" url || Py.contains "arxiv.org" url.

(** The PDF form of a link: an arXiv abstract link becomes the PDF link. *)
Definition pdf_form (url : string) : string :=
  if Py.contains "arxiv.org/abs/" url
  then Py.replace "/abs/" "/pdf/" url ++ ".pdf"
  else url.

(** The first preferred match in PDF form, else the first match, else the
    empty string. *)
Definition chosen (matches : list string) : string :=
  match List.find preferred matches with
  | Some url => pdf_form url
  | None => List.hd "" matches
  end.

(** The record has no usable [url] field: absent, or present with a false
    truth value (null, empty string). *)
Definition no_direct_url (d : gmap string pyval) : Prop :=
  match d !! "url" with
  | Some v => truthy v = false
  | None => True
  end.

Definition no_disclaimer (d : gmap string pyval) : Prop :=
  match d !! "disclaimer" with
  | Some v => truthy v = false
  | None => True
  end.

End OpenAccess.

(** * Concrete environments

    Small worlds in which the code can be run: they give the inputs of the
    examples below. *)

Module Scenario.

(** A clock that advances by one second with every recorded event. *)
Definition clock (tr : list event) : Q := inject_Z (Z.of_nat (length tr)).

(** No network, no [curl], a file system that accepts every write. *)
Definition offline : Env := {|
  env_get := fun _ _ _ => Raise (Exn ConnectionError "connection refused");
  env_time := clock;
  env_which_curl := fun _ => false;
  env_curl := fun _ _ _ => CurlExit 6 "could not resolve host" None;
  env_mkdir := fun _ _ => None;
  env_write := fun _ _ => None;
  env_to_markdown := fun _ _ => Ret "";
  env_parse_html := fun _ => Ret [];
  env_md5_hexdigest := fun _ => "d41d8cd98f00b204e9800998ecf8427e";
  env_home := "/home/reader";
  env_Path := fun p => p;
  env_path_div := fun a b => a ++ "/" ++ b;
  env_strptime := fun _ _ => None;
  env_datetime_str := fun _ => "2013-08-01 00:00:00";
  env_container_str := fun _ => "[]";
  env_stack_room := 900
|}.

Definition with_get (get : list event -> string -> list (string * pyval) -> outcome response)
    (E : Env) : Env := {|
  env_get := get;
  env_time := env_time E;
  env_which_curl := env_which_curl E;
  env_curl := env_curl E;
  env_mkdir := env_mkdir E;
  env_write := env_write E;
  env_to_markdown := env_to_markdown E;
  env_parse_html := env_parse_html E;
  env_md5_hexdigest := env_md5_hexdigest E;
  env_home := env_home E;
  env_Path := env_Path E;
  env_path_div := env_path_div E;
  env_strptime := env_strptime E;
  env_datetime_str := env_datetime_str E;
  env_container_str := env_container_str E;
  env_stack_room := env_stack_room E
|}.


Definition with_mkdir (mkdir : string -> option exn) (E : Env) : Env := {|
  env_get := env_get E;
  env_time := env_time E;
  env_which_curl := env_which_curl E;
  env_curl := env_curl E;
  env_mkdir := fun _ => mkdir;
  env_write := env_write E;
  env_to_markdown := env_to_markdown E;
  env_parse_html := env_parse_html E;
  env_md5_hexdigest := env_md5_hexdigest E;
  env_home := env_home E;
  env_Path := env_Path E;
  env_path_div := env_path_div E;
  env_strptime := env_strptime E;
  env_datetime_str := env_datetime_str E;
  env_container_str := env_container_str E;
  env_stack_room := env_stack_room E
|}.

Definition with_to_markdown (convert : string -> outcome string) (E : Env) : Env := {|
  env_get := env_get E;
  env_time := env_time E;
  env_which_curl := env_which_curl E;
  env_curl := env_curl E;
  env_mkdir := env_mkdir E;
  env_write := env_write E;
  env_to_markdown := fun _ => convert;
  env_parse_html := env_parse_html E;
  env_md5_hexdigest := env_md5_hexdigest E;
  env_home := env_home E;
  env_Path := env_Path E;
  env_path_div := env_path_div E;
  env_strptime := env_strptime E;
  env_datetime_str := env_datetime_str E;
  env_container_str := env_container_str E;
  env_stack_room := env_stack_room E
|}.

Definition with_parse_html (parse : string -> outcome soup) (E : Env) : Env := {|
  env_get := env_get E;
  env_time := env_time E;
  env_which_curl := env_which_curl E;
  env_curl := env_curl E;
  env_mkdir := env_mkdir E;
  env_write := env_write E;
  env_to_markdown := env_to_markdown E;
  env_parse_html := parse;
  env_md5_hexdigest := env_md5_hexdigest E;
  env_home := env_home E;
  env_Path := env_Path E;
  env_path_div := env_path_div E;
  env_strptime := env_strptime E;
  env_datetime_str := env_datetime_str E;
  env_container_str := env_container_str E;
  env_stack_room := env_stack_room E
|}.

(** The world before the first call. *)
Definition start : world := World [] ∅ 0.

(** A plain response with a status and a body. *)
Definition plain (status : Z) (body : string) : response :=
  Response status ∅ body body None None.

(** A response that carries JSON. *)
Definition json (v : pyval) : response :=
  Response 200 {[ "content-type" := "application/json" ]} "" "" (Some v) None.


(** A server that answers every request with status 429; its clock gives a
    jitter of three eighths of a second. *)
Definition rate_limited : Env := {|
  env_get := fun _ _ _ => Ret (plain 429 "Too Many Requests");
  env_time := fun tr => (clock tr + (3 # 8))%Q;
  env_which_curl := env_which_curl offline;
  env_curl := env_curl offline;
  env_mkdir := env_mkdir offline;
  env_write := env_write offline;
  env_to_markdown := env_to_markdown offline;
  env_parse_html := env_parse_html offline;
  env_md5_hexdigest := env_md5_hexdigest offline;
  env_home := env_home offline;
  env_Path := env_Path offline;
  env_path_div := env_path_div offline;
  env_strptime := env_strptime offline;
  env_datetime_str := env_datetime_str offline;
  env_container_str := env_container_str offline;
  env_stack_room := env_stack_room offline
|}.

(** A search answer with two papers. *)
Definition two_papers : pyval :=
  PDict {[ "total" := PInt 2;
           "data" := PList [ PDict {[ "paperId" := PStr "a1"; "title" := PStr "First" ]};
                             PDict {[ "paperId" := PStr "b2"; "title" := PStr "Second" ]} ] ]}.

Definition serving (v : pyval) : Env := with_get (fun _ _ _ => Ret (json v)) offline.

(** The record of one paper, as the API answers [paper/ARXIV:1805.02262]. *)
Definition paper_record : pyval :=
  PDict {[ "paperId" := PStr "649def34f8be52c8b66281af98ae884c09aef38b";
           "title" := PStr "Construction of the Literature Graph in Semantic Scholar";
           "authors" := PList [ PDict {[ "authorId" := PStr "145585097";
                                         "name" := PStr "Waleed Ammar" ]};
                                PDict {[ "name" := PStr "Dirk Groeneveld" ]} ];
           "url" := PStr "https://www.semanticscholar.org/paper/649def34f8be52c8b66281af98ae884c09aef38b";
           "publicationDate" := PStr "2018-05-06";
           "openAccessPdf" := PDict {[ "url" := PStr "https://arxiv.org/pdf/1805.02262.pdf" ]} ]}.

(** The API serves [paper_record] for every request, the PDF host serves a
    PDF, there is no [curl], and the converter extracts a line of text. *)
Definition library : Env := {|
  env_get := fun _ _ _ =>
    Ret (Response 200 {[ "content-type" := "application/pdf" ]}
                  "%PDF-1.5 stub" "%PDF-1.5 stub" (Some paper_record) None);
  env_time := clock;
  env_which_curl := fun _ => false;
  env_curl := env_curl offline;
  env_mkdir := fun _ _ => None;
  env_write := fun _ _ => None;
  env_to_markdown := fun _ _ => Ret "## Abstract

We describe a deployed scalable system.";
  env_parse_html := env_parse_html offline;
  env_md5_hexdigest := env_md5_hexdigest offline;
  env_home := env_home offline;
  env_Path := env_Path offline;
  env_path_div := env_path_div offline;
  env_strptime := fun s _ => if String.eqb s "2018-05-06"
                             then Some (Datetime 2018 5 6) else None;
  env_datetime_str := fun _ => "2018-05-06 00:00:00";
  env_container_str := env_container_str offline;
  env_stack_room := env_stack_room offline
|}.

(** The same world, with a save directory that cannot be created: the path
    names an existing regular file. *)
Definition library_bad_directory : Env :=
  with_mkdir (fun path => Some (Exn OSError ("[Errno 17] File exists: " ++ path)))
             library.

(** A Sci-Hub page with an iframe before the embedded PDF element. *)
Definition scihub_page : soup :=
  [ Element (Tag "html" ∅)
      [ Element (Tag "body" ∅)
          [ Element (Tag "iframe" {[ "src" := "/ads/banner.html" ]}) [];
            Element (Tag "div" {[ "id" := "article" ]})
              [ Element (Tag "embed" {[ "type" := "application/pdf";
                                        "src" := "//moscow.sci-hub.se/2013/nature12373.pdf#view=FitH" ]}) [] ];
            Element (Tag "a" {[ "href" := "/downloads/nature12373.pdf" ]})
              [ NavigableString "download" ] ] ] ].

(** Sci-Hub serves that page for every DOI and a PDF for every other URL. *)
Definition scihub : Env := {|
  env_get := fun _ u _ =>
    if Py.startswith "https://sci-hub.se/" u
    then Ret (Response 200 {[ "content-type" := "text/html" ]}
                       "<html>...</html>" "<html>...</html>" None None)
    else Ret (Response 200 {[ "content-type" := "application/pdf" ]}
                       "%PDF-1.4 stub" "%PDF-1.4 stub" None None);
  env_time := clock;
  env_which_curl := fun _ => false;
  env_curl := env_curl offline;
  env_mkdir := fun _ _ => None;
  env_write := fun _ _ => None;
  env_to_markdown := fun _ _ => Ret "Nanometre-scale thermometry in a living cell";
  env_parse_html := fun _ => Ret scihub_page;
  env_md5_hexdigest := env_md5_hexdigest offline;
  env_home := env_home offline;
  env_Path := env_Path offline;
  env_path_div := env_path_div offline;
  env_strptime := env_strptime offline;
  env_datetime_str := env_datetime_str offline;
  env_container_str := env_container_str offline;
  env_stack_room := env_stack_room offline
|}.

End Scenario.

(** Reading the retries of [_make_request] off a trace. *)
Module Backoff.

(** The requests sent, in a list of events. *)
Definition attempts (evs : list event) : nat :=
  length (List.filter (fun ev => match ev with EvGet _ _ => true | _ => false end) evs).

(** A retry is a request after the first one. *)
Definition retries (evs : list event) : nat := attempts evs - 1.

(** The waits before the retries after a 429, oldest first (a trace is kept
    newest first). *)
Definition waits_429 (evs : list event) : list Q :=
  rev (omap (fun ev => match ev with
                       | EvSleep Backoff429 d => Some d
                       | _ => None
                       end) evs).

(** The events of [_rate_limit_wait]: clock readings and its own sleep. *)
Definition pacing (ev : event) : Prop :=
  match ev with
  | EvTime _ | EvSleep RateLimit _ => True
  | _ => False
  end.

(** The waits are the floating-point sums of [2^k] and a jitter, of
    [2^(k+1)] and a jitter, ... with every jitter in [0, 1). *)
Inductive exponential : Z -> list Q -> Prop :=
| exponential_nil k : exponential k []
| exponential_cons k jitter rest :
    (0 <= jitter)%Q -> (jitter < 1)%Q ->
    exponential (k + 1) rest ->
    exponential k (Float.add (2 ^ k) jitter :: rest).


End Backoff.

(** What a computation does to the trace, and what it returns. *)
Module Trace.

(** Every value the computation returns satisfies [P]. *)
Definition ensures {A} (m : M A) (P : A -> Prop) : Prop :=
  forall w a w', m w = (Ret a, w') -> P a.

(** An identifier that is empty or made of white space only. *)
Fixpoint blank (s : string) : bool :=
  match s with
  | EmptyString => true
  | String c s' => Py.isspace c && blank s'
  end.

(** The computation only adds events: the trace before is a suffix of the
    trace after. *)
Definition monotone {A} (m : M A) : Prop :=
  forall w, exists evs, trace (snd (m w)) = (evs ++ trace w)%list.

(** The computation records the event [ev], whatever the world. *)
Definition sends {A} (ev : event) (m : M A) : Prop :=
  forall w, exists evs, trace (snd (m w)) = (evs ++ trace w)%list /\ In ev evs.

End Trace.

(** Reading the attempts of [_make_request] off a trace, whatever the
    answers are. *)
Module Retry.

(** The events [_make_request] may record for one request: the request
    itself, clock readings and sleeps. *)
Definition request_event (u : string) (p : list (string * pyval)) (ev : event) : Prop :=
  match ev with
  | EvGet u' p' => u' = u /\ p' = p
  | EvTime _ | EvSleep _ _ => True
  | _ => False
  end.

(** The waits before the retries after a failed request, oldest first. *)
Definition waits_error (evs : list event) : list Q :=
  rev (omap (fun ev => match ev with
                       | EvSleep BackoffError d => Some d
                       | _ => None
                       end) evs).

(** The time slept by [_rate_limit_wait], in a list of events. *)
Definition paced (evs : list event) : Q :=
  fold_right Qplus 0%Q
    (omap (fun ev => match ev with
                     | EvSleep RateLimit d => Some d
                     | _ => None
                     end) evs).

(** [2^k], [2^(k+1)], ..., [n] of them. *)
Fixpoint powers_of_two (k : Z) (n : nat) : list Q :=
  match n with
  | O => []
  | S n' => (2 ^ k)%Q :: powers_of_two (k + 1) n'
  end.

(** Every request fails: the call raises an exception of [requests], or the
    answer has an error status other than 429. *)
Definition always_failing (E : Env) : Prop :=
  forall tr u p,
    (exists e, env_get E tr u p = Raise e /\ is_RequestException e = true)
    \/ (exists r, env_get E tr u p = Ret r /\ response_ok r = false
                  /\ status_code r <> 429).

(** The network raises nothing but exceptions of [requests]. *)
Definition requests_errors_only (E : Env) : Prop :=
  forall tr u p e, env_get E tr u p = Raise e -> is_RequestException e = true.

(** Every exception the computation raises satisfies [P]. *)
Definition raises_only {A} (m : M A) (P : exn -> Prop) : Prop :=
  forall w e w', m w = (Raise e, w') -> P e.

(** The retries of [_make_request] stay within what the interpreter allows:
    the nested calls fit the stack, and the waits, which stay below
    [2 ^ max_retries], are durations that [time.sleep] accepts. *)
Definition within_limits (E : Env) (self : Semantic.searcher) : Prop :=
  Semantic.max_retries self <= env_stack_room E
  /\ (2 ^ Semantic.max_retries self <= TIME_SLEEP_MAX)%Q.



End Retry.

(** More concrete environments. *)
Module Scenario2.

(** The API is busy for the first two requests and then serves the paper. *)
Definition busy_then_ready : Env :=
  Scenario.with_get
    (fun tr _ _ =>
       if (Backoff.attempts tr <? 2)%nat
       then Ret (Scenario.plain 429 "Too Many Requests")
       else Ret (Scenario.json Scenario.paper_record))
    Scenario.offline.


(** The same server, reached from a call so deep in the stack that only two
    nested calls still fit. *)
Definition rate_limited_shallow : Env := {|
  env_get := env_get Scenario.rate_limited;
  env_time := env_time Scenario.rate_limited;
  env_which_curl := env_which_curl Scenario.offline;
  env_curl := env_curl Scenario.offline;
  env_mkdir := env_mkdir Scenario.offline;
  env_write := env_write Scenario.offline;
  env_to_markdown := env_to_markdown Scenario.offline;
  env_parse_html := env_parse_html Scenario.offline;
  env_md5_hexdigest := env_md5_hexdigest Scenario.offline;
  env_home := env_home Scenario.offline;
  env_Path := env_Path Scenario.offline;
  env_path_div := env_path_div Scenario.offline;
  env_strptime := env_strptime Scenario.offline;
  env_datetime_str := env_datetime_str Scenario.offline;
  env_container_str := env_container_str Scenario.offline;
  env_stack_room := 2
|}.

(** The library, serving a record whose second author has a number for a
    name. *)
Definition library_numbered_author : Env :=
  Scenario.with_get
    (fun _ _ _ =>
       Ret (Response 200 {[ "content-type" := "application/pdf" ]}
                     "%PDF-1.5 stub" "%PDF-1.5 stub"
                     (Some (PDict {[ "paperId" := PStr "649def34f8be52c8b66281af98ae884c09aef38b";
                                     "title" := PStr "Construction of the Literature Graph in Semantic Scholar";
                                     "authors" := PList [ PDict {[ "name" := PStr "Waleed Ammar" ]};
                                                          PDict {[ "name" := PInt 7 ]} ];
                                     "openAccessPdf" := PDict {[ "url" := PStr "https://arxiv.org/pdf/1805.02262.pdf" ]} ]}))
                     None))
    Scenario.library.

(** Sci-Hub, serving [page] for every DOI. *)
Definition serving (page : soup) : Env :=
  Scenario.with_parse_html (fun _ => Ret page) Scenario.scihub.

(** A page whose embedded PDF element has no source; the first iframe has
    one. *)
Definition iframe_page : soup :=
  [ Element (Tag "body" ∅)
      [ Element (Tag "embed" {[ "type" := "application/pdf" ]}) [];
        Element (Tag "embed" {[ "type" := "application/pdf";
                                "src" := "/second/embed.pdf" ]}) [];
        Element (Tag "iframe" {[ "src" := "/viewer/nature12373" ]}) [];
        Element (Tag "a" {[ "href" := "/downloads/nature12373.pdf" ]}) [] ] ].

(** A page whose first iframe has an empty source, with two buttons: the
    first opens a menu, the second saves the PDF. *)
Definition button_page : soup :=
  [ Element (Tag "body" ∅)
      [ Element (Tag "iframe" {[ "src" := "" ]}) [];
        Element (Tag "iframe" {[ "src" := "/second/frame" ]}) [];
        Element (Tag "div" {[ "id" := "buttons" ]})
          [ Element (Tag "button" {[ "onclick" := "location.href='/menu'" ]})
              [ NavigableString "menu" ];
            Element (Tag "button"
                       {[ "onclick" := "savePDF(); location.href='//dl.sci-hub.se/nature12373?download=true'; return false" ]})
              [ NavigableString "save" ] ];
        Element (Tag "a" {[ "href" := "/downloads/nature12373.pdf" ]}) [] ] ].

(** A page with anchors only: one without a target, one to another page, one
    to a PDF. *)
Definition anchor_page : soup :=
  [ Element (Tag "body" ∅)
      [ Element (Tag "a" {[ "name" := "top.pdf" ]}) [];
        Element (Tag "a" {[ "href" := "/about" ]}) [ NavigableString "pdf" ];
        Element (Tag "a" {[ "href" := "/files/Nature12373.PDF" ]}) [];
        Element (Tag "a" {[ "href" := "/files/other.pdf" ]}) [] ] ].

(** A page that names no PDF. *)
Definition bare_page : soup :=
  [ Element (Tag "body" ∅)
      [ Element (Tag "p" ∅) [ NavigableString "pdf: location.href='/x.pdf'" ];
        Element (Tag "a" {[ "href" := "/about" ]}) [] ] ].

(** A page whose button navigates to the download without naming a PDF in
    its script, before an anchor to a PDF. *)
Definition plain_button_page : soup :=
  [ Element (Tag "body" ∅)
      [ Element (Tag "button" {[ "onclick" := "location.href='/downloads/nature12373'" ]})
          [ NavigableString "download" ];
        Element (Tag "a" {[ "href" := "/about/nature12373.pdf" ]}) [] ] ].

End Scenario2.

(** Reading the fields of a paper record. *)
Module Record.

(** The name an author entry contributes to the list of authors: its [name]
    field when that is present and not empty. *)
Definition name_of (author : gmap string pyval) : option pyval :=
  match author !! "name" with
  | Some v => if truthy v then Some v else None
  | None => None
  end.

End Record.

(** * Properties *)

(** ** The regular expressions *)

Example findall_url_ex :
  Re.findall_url "x https://a.b/c, http://d) httpss://x https:// http://https://q"
  = ["https://a.b/c"; "http://d"; "http://https://q"].
Proof. vm_compute. reflexivity. Qed.

(** ** The year cutoff *)

(** C7. [check_paper_year] answers true exactly when the date is present and
    its year is strictly below the cutoff.  In particular a date in 2022 is
    before the cutoff 2023, a date in 2023 is not, and an absent date never
    is. *)
Theorem check_paper_year_strict :
  (forall (published_date : option datetime) (cutoff_year : Z),
      SciHub.check_paper_year published_date cutoff_year = true
      <-> exists d, published_date = Some d /\ year d < cutoff_year)
  /\ (forall m d, SciHub.check_paper_year (Some (Datetime 2022 m d)) 2023 = true)
  /\ (forall m d, SciHub.check_paper_year (Some (Datetime 2023 m d)) 2023 = false)
  /\ (forall cutoff_year, SciHub.check_paper_year None cutoff_year = false).
Proof.
  split; [|repeat split].
  intros published_date cutoff_year. split.
  - destruct published_date as [d|]; simpl; intros H; [|discriminate].
    exists d. split; [reflexivity|]. apply Z.ltb_lt, H.
  - intros (d & -> & H). simpl. apply Z.ltb_lt, H.
Qed.

(** ** URL normalisation *)

Lemma startswith_app (p rest : string) : Py.startswith p (p ++ rest) = true.
Proof.
  induction p as [|c p IH]; [reflexivity|].
  change (Ascii.eqb c c && Py.startswith p (p ++ rest) = true).
  rewrite Ascii.eqb_refl. exact IH.
Qed.


(** A mirror whose base has a path: the code puts the whole base in front of
    a root-relative URL, where resolution against the base replaces the
    path.  A mirror without a path: the two agree. *)
Example normalize_url_keeps_base_path :
  let deep := SciHub.init (Some "https://example.org/scihub") None 30 in
  let flat := SciHub.init (Some "https://sci-hub.se/") None 30 in
  let url := "/downloads/nature12373.pdf" in
  SciHub._normalize_url deep url = "https://example.org/scihub/downloads/nature12373.pdf"
  /\ NormalizeSpec.resolve_against_base (SciHub.base_url deep) url
     = "https://example.org/downloads/nature12373.pdf"
  /\ NormalizeSpec.origin_of (SciHub.base_url flat) = SciHub.base_url flat
  /\ SciHub._normalize_url flat url = "https://sci-hub.se/downloads/nature12373.pdf"
  /\ NormalizeSpec.resolve_against_base (SciHub.base_url flat) url
     = "https://sci-hub.se/downloads/nature12373.pdf".
Proof. vm_compute. repeat split. Qed.


(** ** Resolving the PDF URL on a Sci-Hub page *)

Lemma span_app (p : ascii -> bool) (s a b : string) :
  Py.span p s = (a, b) -> s = a ++ b.
Proof.
  revert a b. induction s as [|c s IH]; intros a b H; simpl in H.
  - injection H as <- <-. reflexivity.
  - destruct (p c).
    + destruct (Py.span p s) as [a' b'] eqn:Hs. injection H as <- <-.
      rewrite (IH a' b' eq_refl) at 1. reflexivity.
    + injection H as <- <-. reflexivity.
Qed.

Lemma strip_prefix_app (p s rest : string) :
  Py.strip_prefix p s = Some rest -> s = p ++ rest.
Proof.
  revert s. induction p as [|a p IH]; intros s H; simpl in H.
  - injection H as <-. reflexivity.
  - destruct s as [|b s]; [discriminate|].
    destruct (Ascii.eqb_spec a b) as [<-|]; [|discriminate].
    rewrite (IH s H) at 1. reflexivity.
Qed.

Lemma string_app_assoc (a b c : string) : (a ++ b) ++ c = a ++ (b ++ c).
Proof.
  induction a as [|x a IH]; [reflexivity|].
  change (String x ((a ++ b) ++ c) = String x (a ++ (b ++ c))). f_equal. exact IH.
Qed.

Lemma app_cons (c : ascii) (a b : string) : String c a ++ b = String c (a ++ b).
Proof. reflexivity. Qed.

Lemma app_empty_l (b : string) : "" ++ b = b.
Proof. reflexivity. Qed.

Lemma strip_prefix_of_app (p rest : string) : Py.strip_prefix p (p ++ rest) = Some rest.
Proof.
  induction p as [|a p IH]; [reflexivity|].
  rewrite app_cons. cbn [Py.strip_prefix]. rewrite Ascii.eqb_refl. exact IH.
Qed.

(** What [span] splits off: the longest prefix of characters that satisfy
    the test. *)
Lemma span_prefix (p : ascii -> bool) (s a b : string) :
  Py.span p s = (a, b) ->
  Forall (fun c => p c = true) (list_ascii_of_string a)
  /\ match b with
     | EmptyString => True
     | String c _ => p c = false
     end.
Proof.
  revert a b. induction s as [|c s IH]; intros a b H; cbn [Py.span] in H.
  - injection H as <- <-. split; [constructor | exact I].
  - destruct (p c) eqn:Hc.
    + destruct (Py.span p s) as [a' b'] eqn:Hs. injection H as <- <-.
      destruct (IH a' b' eq_refl) as [Ha Hb].
      split; [constructor; assumption | exact Hb].
    + injection H as <- <-. split; [constructor | exact Hc].
Qed.

Lemma span_of_app (p : ascii -> bool) (a b : string) :
  Forall (fun c => p c = true) (list_ascii_of_string a) ->
  match b with
  | EmptyString => True
  | String c _ => p c = false
  end ->
  Py.span p (a ++ b) = (a, b).
Proof.
  intros Ha Hb. induction a as [|c a IH].
  - rewrite app_empty_l. destruct b as [|c b]; [reflexivity|].
    cbn [Py.span]. rewrite Hb. reflexivity.
  - cbn [list_ascii_of_string] in Ha. inversion Ha as [|? ? Hc Ha']; subst.
    rewrite app_cons. cbn [Py.span]. rewrite Hc, (IH Ha'). reflexivity.
Qed.

Lemma not_quote_iff (c : ascii) :
  negb (Ascii.eqb c "'") = true <-> c <> "'"%char.
Proof.
  destruct (Ascii.eqb_spec c "'") as [->|Hne]; cbn [negb]; split; intros H.
  - discriminate H.
  - exfalso. exact (H eq_refl).
  - exact Hne.
  - reflexivity.
Qed.

Lemma quote_free (g : string) :
  Forall (fun c => negb (Ascii.eqb c "'") = true) (list_ascii_of_string g)
  <-> ~ In "'"%char (list_ascii_of_string g).
Proof.
  rewrite List.Forall_forall. split.
  - intros H Hin. specialize (H _ Hin). rewrite Ascii.eqb_refl in H. discriminate H.
  - intros H c Hc. apply not_quote_iff. intros ->. exact (H Hc).
Qed.

(** A match of the pattern at the start of the script is an assignment with
    nothing before it. *)
Lemma location_href_at_assignment (s g : string) :
  Re.location_href_at s = Some g <-> exists after, Resolver.assignment s "" g after.
Proof.
  unfold Re.location_href_at, Resolver.assignment. split.
  - destruct (Py.strip_prefix "location.href='" s) as [rest|] eqn:Hstrip; [|discriminate].
    destruct (Py.span (fun c => negb (Ascii.eqb c "'")) rest) as [a b] eqn:Hspan.
    destruct a as [|c a]; [discriminate|]. destruct b as [|q b]; [discriminate|].
    intros H. injection H as <-.
    destruct (span_prefix _ _ _ _ Hspan) as [Ha Hq]. cbn beta in Hq.
    apply negb_false_iff, Ascii.eqb_eq in Hq. subst q.
    exists b. split; [|split].
    + rewrite app_empty_l, (strip_prefix_app _ _ _ Hstrip), (span_app _ _ _ _ Hspan).
      reflexivity.
    + discriminate.
    + apply quote_free, Ha.
  - intros (after & Hs & Hne & Hfree). rewrite app_empty_l in Hs. subst s.
    rewrite strip_prefix_of_app.
    rewrite (span_of_app (fun c => negb (Ascii.eqb c "'")) g ("'" ++ after)).
    + destruct g as [|c g]; [contradiction|]. reflexivity.
    + apply quote_free, Hfree.
    + reflexivity.
Qed.

Lemma assignment_cons (c : ascii) (s before g after : string) :
  Resolver.assignment (String c s) (String c before) g after
  <-> Resolver.assignment s before g after.
Proof.
  unfold Resolver.assignment. rewrite app_cons. split.
  - intros (H & ? & ?). injection H as H. auto.
  - intros (-> & ? & ?). auto.
Qed.

Lemma assignment_head (c : ascii) (s before g after : string) :
  Resolver.assignment (String c s) before g after ->
  before = "" \/ exists before', before = String c before'.
Proof.
  intros (H & _). destruct before as [|c' before]; [left; reflexivity|].
  rewrite app_cons in H. injection H as <- _. right. eauto.
Qed.

(** The search of the pattern finds the target the script navigates to. *)
Lemma navigates_search (s g : string) :
  Resolver.navigates s g -> Re.search_location_href s = Some g.
Proof.
  intros (before & after & Hassign & Hfirst). revert s Hassign Hfirst.
  induction before as [|c before IH]; intros s Hassign Hfirst.
  - destruct s as [|c s]; cbn [Re.search_location_href];
      rewrite (proj2 (location_href_at_assignment _ g) (ex_intro _ after Hassign));
      reflexivity.
  - destruct s as [|c' s].
    { destruct Hassign as (H & _). rewrite app_cons in H. discriminate H. }
    assert (c' = c) as ->.
    { destruct Hassign as (H & _). rewrite app_cons in H. injection H as -> _.
      reflexivity. }
    cbn [Re.search_location_href].
    destruct (Re.location_href_at (String c s)) as [g0|] eqn:Hat.
    + apply location_href_at_assignment in Hat as (after0 & Hat).
      specialize (Hfirst _ _ _ Hat). cbn [String.length] in Hfirst. lia.
    + apply IH.
      * exact (proj1 (assignment_cons c s before g after) Hassign).
      * intros before' g' after' H'.
        pose proof (Hfirst _ _ _ (proj2 (assignment_cons c s before' g' after') H')) as Hle.
        cbn [String.length] in Hle. lia.
Qed.

Lemma search_navigates (s g : string) :
  Re.search_location_href s = Some g -> Resolver.navigates s g.
Proof.
  induction s as [|c s IH]; cbn [Re.search_location_href].
  - destruct (Re.location_href_at "") as [g0|] eqn:Hat; [|discriminate].
    intros H. injection H as <-.
    apply location_href_at_assignment in Hat as (after & Hat).
    exists "", after. split; [exact Hat|]. intros; cbn [String.length]; lia.
  - destruct (Re.location_href_at (String c s)) as [g0|] eqn:Hat.
    + intros H. injection H as <-.
      apply location_href_at_assignment in Hat as (after & Hat).
      exists "", after. split; [exact Hat|]. intros; cbn [String.length]; lia.
    + intros H. destruct (IH H) as (before & after & Hassign & Hfirst).
      exists (String c before), after.
      split; [exact (proj2 (assignment_cons c s before g after) Hassign)|].
      intros before' g' after' H'.
      destruct (assignment_head _ _ _ _ _ H') as [->|(b & ->)].
      * exfalso. assert (Hsome : Re.location_href_at (String c s) = Some g').
        { apply location_href_at_assignment. eauto. }
        rewrite Hat in Hsome. discriminate Hsome.
      * pose proof (Hfirst _ _ _ (proj1 (assignment_cons c s b g' after') H')).
        cbn [String.length]. lia.
Qed.

(** ** The tags of the page *)

Lemma head_filter_find {A} (P : A -> bool) (l : list A) :
  head (List.filter P l) = List.find P l.
Proof.
  induction l as [|x l IH]; [reflexivity|].
  cbn [List.filter List.find]. destruct (P x); [reflexivity | exact IH].
Qed.

Lemma filter_filter_and {A} (P Q : A -> bool) (l : list A) :
  List.filter Q (List.filter P l) = List.filter (fun x => P x && Q x) l.
Proof.
  induction l as [|x l IH]; [reflexivity|].
  cbn [List.filter]. destruct (P x); cbn [List.filter andb].
  - destruct (Q x); [rewrite IH|]; auto.
  - exact IH.
Qed.

Lemma find_ext {A} (P Q : A -> bool) (l : list A) :
  (forall x, P x = Q x) -> List.find P l = List.find Q l.
Proof.
  intros H. induction l as [|x l IH]; [reflexivity|].
  cbn [List.find]. rewrite H, IH. reflexivity.
Qed.

Lemma src_of_attribute (t : option tag) :
  SciHub.src_of t = match t with
                    | Some t => Resolver.attribute "src" t
                    | None => None
                    end.
Proof.
  destruct t as [t|]; [|reflexivity].
  unfold SciHub.src_of, Resolver.attribute, tag_get.
  destruct (tag_attrs t !! "src") as [[|c v]|]; reflexivity.
Qed.

(** The embedded PDF element the code looks at is the first one of the
    page. *)
Lemma embed_src_first (page : soup) :
  SciHub.src_of (find_attr page "embed" "type" "application/pdf")
  = Resolver.first_src Resolver.is_pdf_embed page.
Proof.
  rewrite src_of_attribute. unfold Resolver.first_src, find_attr, find_all.
  rewrite filter_filter_and, head_filter_find.
  rewrite (find_ext _ Resolver.is_pdf_embed); [reflexivity|].
  intros t. unfold Resolver.is_pdf_embed, tag_get. f_equal.
  destruct (tag_attrs t !! "type") as [v|].
  - destruct (String.eqb_spec v "application/pdf") as [->|Hne].
    + symmetry. apply bool_decide_eq_true. reflexivity.
    + symmetry. apply bool_decide_eq_false. intros H. injection H as H. contradiction.
  - symmetry. apply bool_decide_eq_false. discriminate.
Qed.

Lemma iframe_src_first (page : soup) :
  SciHub.src_of (find page "iframe") = Resolver.first_src Resolver.is_iframe page.
Proof.
  rewrite src_of_attribute. unfold Resolver.first_src, find, find_all.
  rewrite head_filter_find. reflexivity.
Qed.

(** ** Download buttons *)

Lemma download_button_search (t : tag) (target : string) :
  Resolver.download_button t target
  <-> String.eqb (tag_name t) "button" = true
      /\ Py.contains "pdf" (Py.lower (default "" (tag_get t "onclick"))) = true
      /\ Re.search_location_href (default "" (tag_get t "onclick")) = Some target.
Proof.
  unfold Resolver.download_button, tag_get. rewrite String.eqb_eq. split.
  - intros (Hname & Hpdf & Hnav). auto using navigates_search.
  - intros (Hname & Hpdf & Hsearch). auto using search_navigates.
Qed.

(** The loop over the buttons stops at the first download button. *)
Lemma button_loop_first (self : SciHub.fetcher) (target : string) (after : list tag) :
  forall (before : list tag) (t : tag),
    Resolver.download_button t target ->
    (forall t' target', In t' before -> ~ Resolver.download_button t' target') ->
    SciHub.button_loop self
      (List.filter (fun t => String.eqb (tag_name t) "button") (before ++ t :: after)%list)
    = Some (SciHub._normalize_url self target).
Proof.
  induction before as [|t0 before IH]; intros t Ht Hbefore.
  - apply download_button_search in Ht as (Hname & Hpdf & Hsearch).
    cbn [app List.filter]. rewrite Hname. cbn [SciHub.button_loop].
    rewrite Hpdf, Hsearch. reflexivity.
  - cbn [app List.filter].
    assert (Hrest : SciHub.button_loop self
                      (List.filter (fun t => String.eqb (tag_name t) "button")
                         (before ++ t :: after)%list)
                    = Some (SciHub._normalize_url self target)).
    { apply IH; [exact Ht|]. intros t' target' Hin. apply Hbefore. right. exact Hin. }
    destruct (String.eqb (tag_name t0) "button") eqn:Hname; [|exact Hrest].
    cbn [SciHub.button_loop].
    destruct (Py.contains "pdf" (Py.lower (default "" (tag_get t0 "onclick")))) eqn:Hpdf;
      [|exact Hrest].
    destruct (Re.search_location_href (default "" (tag_get t0 "onclick")))
      as [g|] eqn:Hsearch; [|exact Hrest].
    exfalso. apply (Hbefore t0 g); [left; reflexivity|].
    apply download_button_search. auto.
Qed.

(** The loop over the buttons finds a download button, the first one, or the
    page has none. *)
Lemma button_loop_cases (self : SciHub.fetcher) (tags : list tag) :
  match SciHub.button_loop self
          (List.filter (fun t => String.eqb (tag_name t) "button") tags) with
  | Some url =>
      exists before t after target,
        tags = (before ++ t :: after)%list
        /\ Resolver.download_button t target
        /\ (forall t' target', In t' before -> ~ Resolver.download_button t' target')
        /\ url = SciHub._normalize_url self target
  | None => forall t target, In t tags -> ~ Resolver.download_button t target
  end.
Proof.
  induction tags as [|t0 tags IH]; [intros t target []|].
  assert (Hskip : (forall target, ~ Resolver.download_button t0 target) ->
            match SciHub.button_loop self
                    (List.filter (fun t => String.eqb (tag_name t) "button") tags) with
            | Some url =>
                exists before t after target,
                  t0 :: tags = (before ++ t :: after)%list
                  /\ Resolver.download_button t target
                  /\ (forall t' target', In t' before ->
                        ~ Resolver.download_button t' target')
                  /\ url = SciHub._normalize_url self target
            | None => forall t target, In t (t0 :: tags) ->
                        ~ Resolver.download_button t target
            end).
  { intros Hnot.
    destruct (SciHub.button_loop self
                (List.filter (fun t => String.eqb (tag_name t) "button") tags))
      as [url|].
    - destruct IH as (before & t & after & target & -> & Ht & Hbefore & ->).
      exists (t0 :: before), t, after, target. split; [reflexivity|].
      split; [exact Ht|]. split; [|reflexivity].
      intros t' target' [<-|Hin]; [apply Hnot | apply Hbefore, Hin].
    - intros t target [<-|Hin]; [apply Hnot | apply IH, Hin]. }
  cbn [List.filter].
  destruct (String.eqb (tag_name t0) "button") eqn:Hname.
  2: { apply Hskip. intros target H. apply download_button_search in H as (H & _).
       rewrite Hname in H. discriminate H. }
  cbn [SciHub.button_loop].
  destruct (Py.contains "pdf" (Py.lower (default "" (tag_get t0 "onclick")))) eqn:Hpdf.
  2: { apply Hskip. intros target H. apply download_button_search in H as (_ & H & _).
       rewrite Hpdf in H. discriminate H. }
  destruct (Re.search_location_href (default "" (tag_get t0 "onclick")))
    as [g|] eqn:Hsearch.
  2: { apply Hskip. intros target H. apply download_button_search in H as (_ & _ & H).
       rewrite Hsearch in H. discriminate H. }
  exists [], t0, tags, g. split; [reflexivity|].
  split; [apply download_button_search; auto|].
  split; [intros t' target' []|reflexivity].
Qed.

(** ** Anchors *)

Lemma link_loop_first (self : SciHub.fetcher) (tags : list tag) :
  SciHub.link_loop self
    (List.filter (fun t => match tag_get t "href" with Some _ => true | None => false end)
       (List.filter (fun t => String.eqb (tag_name t) "a") tags))
  = SciHub._normalize_url self
      <$> match List.find Resolver.is_pdf_anchor tags with
          | Some t => tag_attrs t !! "href"
          | None => None
          end.
Proof.
  unfold tag_get. induction tags as [|t tags IH]; [reflexivity|].
  cbn [List.filter List.find]. unfold Resolver.is_pdf_anchor at 1.
  destruct (String.eqb (tag_name t) "a"); cbn [andb List.filter]; [|exact IH].
  destruct (tag_attrs t !! "href") as [href|] eqn:Hhref; [|exact IH].
  cbn [SciHub.link_loop]. unfold tag_get. rewrite Hhref.
  cbn [default from_option id].
  destruct (Py.contains "pdf" (Py.lower href) || Py.endswith ".pdf" href);
    [rewrite Hhref; reflexivity | exact IH].
Qed.

(** ** The order of the search *)

Lemma pdf_url_in_priority (self : SciHub.fetcher) (page : soup) :
  match Resolver.first_src Resolver.is_pdf_embed page with
  | Some src => SciHub.pdf_url_in self page = Some (SciHub._normalize_url self src)
  | None =>
      match Resolver.first_src Resolver.is_iframe page with
      | Some src => SciHub.pdf_url_in self page = Some (SciHub._normalize_url self src)
      | None =>
          (forall target, Resolver.first_download page target ->
             SciHub.pdf_url_in self page = Some (SciHub._normalize_url self target))
          /\ (Resolver.no_download page ->
                SciHub.pdf_url_in self page
                = SciHub._normalize_url self <$> Resolver.first_pdf_anchor page)
          /\ ((exists target, Resolver.first_download page target)
              \/ Resolver.no_download page)
      end
  end.
Proof.
  unfold SciHub.pdf_url_in. rewrite embed_src_first, iframe_src_first.
  destruct (Resolver.first_src Resolver.is_pdf_embed page); [reflexivity|].
  destruct (Resolver.first_src Resolver.is_iframe page); [reflexivity|].
  unfold find_all_having, find_all, Resolver.first_download, Resolver.no_download,
    Resolver.first_pdf_anchor.
  pose proof (button_loop_cases self (soup_tags page)) as Hcases.
  split; [|split].
  - intros target (before & t & after & Htags & Ht & Hbefore).
    rewrite Htags, (button_loop_first self target after before t Ht Hbefore).
    reflexivity.
  - intros Hno.
    destruct (SciHub.button_loop self _) as [url|]; [|apply link_loop_first].
    destruct Hcases as (before & t & after & target & Htags & Ht & _).
    exfalso. apply (Hno t target); [|exact Ht].
    rewrite Htags. apply in_or_app. right. left. reflexivity.
  - destruct (SciHub.button_loop self _) as [url|]; [left | right; exact Hcases].
    destruct Hcases as (before & t & after & target & Htags & Ht & Hbefore & _).
    exists target, before, t, after. auto.
Qed.

(** C6. [_get_pdf_url] never raises.  On a page that was served it returns,
    normalised against the mirror: the source of the first embedded PDF
    element, if it has one; else the source of the first iframe, if it has
    one; else the target of the first download button, a button whose script
    mentions pdf and navigates; else, when the page has no download button,
    the target of the first anchor whose target suggests a PDF, and [None]
    when there is no such anchor either.  A page has a first download button
    or none. *)
Theorem get_pdf_url_priority (E : Env) (self : SciHub.fetcher) (doi : string)
    (w : world) :
  (exists found, fst (SciHub._get_pdf_url E self doi w) = Ret found)
  /\ (forall r page, Resolver.served E self doi w r page ->
        let result := fst (SciHub._get_pdf_url E self doi w) in
        match Resolver.first_src Resolver.is_pdf_embed page with
        | Some src => result = Ret (Some (SciHub._normalize_url self src))
        | None =>
            match Resolver.first_src Resolver.is_iframe page with
            | Some src => result = Ret (Some (SciHub._normalize_url self src))
            | None =>
                (forall target, Resolver.first_download page target ->
                   result = Ret (Some (SciHub._normalize_url self target)))
                /\ (Resolver.no_download page ->
                      result = Ret (SciHub._normalize_url self
                                      <$> Resolver.first_pdf_anchor page))
                /\ ((exists target, Resolver.first_download page target)
                    \/ Resolver.no_download page)
            end
        end).
Proof.
  split.
  - unfold SciHub._get_pdf_url, try_catch, bind, session_get, lift, ret.
    destruct (env_get E _ _ _) as [r|e]; cbn; [|eauto].
    destruct (negb (status_code r =? 200)); cbn; [eauto|].
    destruct (Py.contains _ _); cbn; [eauto|].
    destruct (env_parse_html E _); cbn; eauto.
  - intros r page (Hget & Hstatus & Hmarker & Hparse) result.
    assert (Hresult : result = Ret (SciHub.pdf_url_in self page)).
    { unfold result, SciHub._get_pdf_url, try_catch, bind, session_get, lift, ret.
      rewrite Hget, Hstatus, Hmarker. cbn. rewrite Hparse. reflexivity. }
    rewrite Hresult. clear Hresult result.
    pose proof (pdf_url_in_priority self page) as H.
    destruct (Resolver.first_src Resolver.is_pdf_embed page); [rewrite H; reflexivity|].
    destruct (Resolver.first_src Resolver.is_iframe page); [rewrite H; reflexivity|].
    destruct H as (Hfirst & Hnone & Hcases).
    split; [|split; [|exact Hcases]].
    + intros target Ht. rewrite (Hfirst target Ht). reflexivity.
    + intros Hno. rewrite (Hnone Hno). reflexivity.
Qed.

(** ** The open-access PDF URL *)

(** A match of the URL pattern is a prefix of the text it is anchored in and
    begins with the scheme. *)
Lemma url_at_prefix (s u : string) :
  Re.url_at s = Some u ->
  Py.startswith u s = true
  /\ (Py.startswith "http://" u || Py.startswith "https://" u) = true.
Proof.
  unfold Re.url_at. intros H.
  destruct (Py.strip_prefix "https://" s) as [rest|] eqn:Hp.
  - destruct (Py.span Re.url_char rest) as [run tl] eqn:Hs.
    destruct (Py.nonempty run); [|discriminate]. injection H as <-.
    apply strip_prefix_app in Hp. apply span_app in Hs. subst s rest.
    split; [|reflexivity].
    rewrite <- string_app_assoc. apply startswith_app.
  - destruct (Py.strip_prefix "http://" s) as [rest|] eqn:Hq; [|discriminate].
    destruct (Py.span Re.url_char rest) as [run tl] eqn:Hs.
    destruct (Py.nonempty run); [|discriminate]. injection H as <-.
    apply strip_prefix_app in Hq. apply span_app in Hs. subst s rest.
    split; [|reflexivity].
    rewrite <- string_app_assoc. apply startswith_app.
Qed.

Lemma contains_cons (sub : string) (c : ascii) (s : string) :
  Py.contains sub s = true -> Py.contains sub (String c s) = true.
Proof. intros H. cbn [Py.contains]. rewrite H. apply orb_true_r. Qed.

Lemma startswith_contains (sub s : string) :
  Py.startswith sub s = true -> Py.contains sub s = true.
Proof. intros H. destruct s; cbn [Py.contains]; rewrite H; reflexivity. Qed.

(** Every URL [re.findall] reports occurs in the text and begins with the
    scheme. *)
Lemma findall_url_sound (text : string) :
  Forall (fun u => Py.contains u text = true
                   /\ (Py.startswith "http://" u || Py.startswith "https://" u) = true)
         (Re.findall_url text).
Proof.
  unfold Re.findall_url. generalize O as skip.
  induction text as [|c s IH]; intros skip; [constructor|].
  cbn [Re.findall_url_from]. destruct skip as [|k].
  - destruct (Re.url_at (String c s)) as [u|] eqn:Hu.
    + constructor.
      * destruct (url_at_prefix _ _ Hu) as [Hp Hs].
        split; [apply startswith_contains, Hp | exact Hs].
      * eapply Forall_impl; [apply IH|].
        intros v [Hv ?]. split; [apply contains_cons, Hv | assumption].
    + eapply Forall_impl; [apply IH|].
      intros v [Hv ?]. split; [apply contains_cons, Hv | assumption].
  - eapply Forall_impl; [apply IH|].
    intros v [Hv ?]. split; [apply contains_cons, Hv | assumption].
Qed.

Example findall_url_disclaimer :
  Re.findall_url
    "Notice: the paper is available at https://arxiv.org/abs/2106.15928, which is subject to the license by the author (see https://example.org/license)."
  = ["https://arxiv.org/abs/2106.15928"; "https://example.org/license"].
Proof. vm_compute. reflexivity. Qed.

Lemma preferred_url_find (matches : list string) :
  Semantic.preferred_url matches
  = OpenAccess.pdf_form <$> List.find OpenAccess.preferred matches.
Proof.
  induction matches as [|u rest IH]; [reflexivity|].
  cbn [Semantic.preferred_url List.find]. unfold OpenAccess.preferred at 1.
  destruct (_ || _); [|exact IH].
  cbn [fmap option_fmap option_map]. unfold OpenAccess.pdf_form.
  destruct (Py.contains "arxiv.org/abs/" u); reflexivity.
Qed.

Lemma dict_with_key_truthy (d : gmap string pyval) (k : string) (v : pyval) :
  d !! k = Some v -> truthy (PDict d) = true.
Proof.
  intros H. cbn [truthy]. destruct (size d) eqn:Hsize; [|reflexivity].
  apply map_size_empty_iff in Hsize. subst d. rewrite lookup_empty in H.
  discriminate.
Qed.

(** C8. [_extract_pdf_url] on an [openAccessPdf] record: a [url] field that
    is present and non-empty is returned as it is; otherwise the URLs found
    in the disclaimer text decide: the first one on a DOI or arXiv domain,
    an arXiv abstract link being turned into its PDF link, else the first
    match; with no match, or with no disclaimer, the result is the empty
    string. *)
Theorem extract_pdf_url_cases (d : gmap string pyval) :
  (forall v, d !! "url" = Some v -> truthy v = true ->
     Semantic._extract_pdf_url (PDict d) = Ret v)
  /\ (forall text, OpenAccess.no_direct_url d ->
        d !! "disclaimer" = Some (PStr text) ->
        Semantic._extract_pdf_url (PDict d)
        = Ret (PStr (OpenAccess.chosen (Re.findall_url text))))
  /\ (OpenAccess.no_direct_url d -> OpenAccess.no_disclaimer d ->
        Semantic._extract_pdf_url (PDict d) = Ret (PStr ""))
  /\ OpenAccess.chosen [] = "".
Proof.
  split; [|split; [|split]]; [| | |reflexivity].
  - intros v Hv Ht. unfold Semantic._extract_pdf_url.
    rewrite (dict_with_key_truthy d _ _ Hv).
    cbn [negb obind py_get py_getitem]. rewrite Hv, Ht. reflexivity.
  - intros text Hno Hd. unfold Semantic._extract_pdf_url.
    rewrite (dict_with_key_truthy d _ _ Hd).
    cbn [negb obind py_get py_getitem].
    assert (Hdirect : truthy (match d !! "url" with Some x => x | None => PNone end) = false).
    { unfold OpenAccess.no_direct_url in Hno. destruct (d !! "url"); [exact Hno | reflexivity]. }
    rewrite Hdirect, Hd.
    destruct text as [|c text]; [reflexivity|].
    cbn [truthy Py.nonempty Semantic.re_findall_url obind].
    unfold OpenAccess.chosen.
    destruct (Re.findall_url (String c text)) as [|first rest]; [reflexivity|].
    rewrite preferred_url_find.
    destruct (List.find OpenAccess.preferred (first :: rest)); reflexivity.
  - intros Hno Hnd. unfold Semantic._extract_pdf_url.
    destruct (truthy (PDict d)); [|reflexivity].
    cbn [negb obind py_get py_getitem].
    assert (Hdirect : truthy (match d !! "url" with Some x => x | None => PNone end) = false).
    { unfold OpenAccess.no_direct_url in Hno. destruct (d !! "url"); [exact Hno | reflexivity]. }
    rewrite Hdirect.
    unfold OpenAccess.no_disclaimer in Hnd.
    destruct (d !! "disclaimer") as [v|]; [rewrite Hnd|]; reflexivity.
Qed.

Example extract_pdf_url_arxiv :
  Semantic._extract_pdf_url
    (PDict {[ "url" := PStr "";
              "status" := PStr "GREEN";
              "disclaimer" := PStr "Notice: see https://example.org/terms or https://arxiv.org/abs/2106.15928, for details" ]})
  = Ret (PStr "https://arxiv.org/pdf/2106.15928.pdf").
Proof. vm_compute. reflexivity. Qed.

(** ** The curl attempt *)

Lemma curl_success_needs_large_file (E : Env) (url : pyval) (pdf_path : string)
    (w : world) :
  let out := Semantic._download_with_curl E url pdf_path w in
  fst out = Ret true ->
  exists data, files (snd out) !! pdf_path = Some data
               /\ 1000 < Z.of_nat (String.length data).
Proof.
  unfold Semantic._download_with_curl, bind, which_curl, try_catch, run_curl,
    path_exists, getsize, remove, ret, raise.
  destruct (env_which_curl E (trace w)); cbn [negb fst snd]; [|discriminate].
  destruct url as [| | |u| |]; cbn [fst snd is_TimeoutExpired is_Exception exn_cls];
    try discriminate.
  destruct (env_curl E (trace w) u pdf_path) as [rc err written|e].
  - cbn [files trace last_request_time].
    set (fs := match written with
               | Some d => <[pdf_path := d]> (files w)
               | None => files w
               end).
    destruct (fs !! pdf_path) as [data|] eqn:Hfs.
    + destruct (rc =? 0); cbn [andb fst snd files]; [|discriminate].
      rewrite Hfs.
      destruct (Z.gtb_spec (Z.of_nat (String.length data)) 1000) as [Hbig|Hsmall].
      * cbn [fst snd files]. intros _. exists data. split; [exact Hfs | lia].
      * cbn [files trace last_request_time]. rewrite Hfs. cbn [fst]. discriminate.
    + rewrite andb_false_r. cbn [fst]. discriminate.
  - destruct (is_TimeoutExpired e); cbn [fst]; discriminate.
Qed.



(** ** Retries on rate limiting *)

Lemma mod1_bounds (t : Q) : (0 <= Semantic.mod1 t)%Q /\ (Semantic.mod1 t < 1)%Q.
Proof.
  unfold Semantic.mod1.
  pose proof (Qfloor_le t) as Hlo. pose proof (Qlt_floor t) as Hhi.
  rewrite inject_Z_plus in Hhi. change (inject_Z 1) with 1%Q in Hhi.
  split; lra.
Qed.

Lemma pow2_step (k : Z) : 0 <= k -> (2 ^ (k + 1) == 2 * 2 ^ k)%Q /\ (1 <= 2 ^ k)%Q.
Proof.
  intros Hk. split.
  - rewrite Qpower_plus by (intros H; discriminate H).
    change (2 ^ 1)%Q with 2%Q. apply Qmult_comm.
  - apply Qpower_1_le; [lra | exact Hk].
Qed.

(** ** Floating-point sums *)

Lemma qfloor_unique (x : Q) (n : Z) :
  (inject_Z n <= x)%Q -> (x < inject_Z (n + 1))%Q -> Qfloor x = n.
Proof.
  intros Hlo Hhi.
  pose proof (Qfloor_le x) as Hfl. pose proof (Qlt_floor x) as Hfu.
  apply Qfloor_resp_le in Hlo. rewrite Qfloor_Z in Hlo.
  assert (Qfloor x < n + 1).
  { rewrite Zlt_Qlt. eapply Qle_lt_trans; eassumption. }
  lia.
Qed.

Lemma nearest_even_bounds (q : Q) :
  Qfloor q <= Float.nearest_even q <= Qfloor q + 1.
Proof.
  unfold Float.nearest_even. cbv zeta.
  destruct (_ ?= _)%Q; [destruct (Z.even _)|..]; lia.
Qed.

Lemma nearest_even_below_half (q : Q) :
  (q - inject_Z (Qfloor q) < 1 # 2)%Q -> Float.nearest_even q = Qfloor q.
Proof.
  intros H. unfold Float.nearest_even. cbv zeta.
  rewrite (proj1 (Qlt_alt _ _) H). reflexivity.
Qed.

Lemma pow2_split (a b : Z) : (2 ^ (a + b) == 2 ^ a * 2 ^ b)%Q.
Proof. apply Qpower_plus. intros H. discriminate H. Qed.

Lemma pow2_pos (a : Z) : (0 < 2 ^ a)%Q.
Proof. apply Qpower_0_lt. reflexivity. Qed.

(** The floating-point sum of [2^k] and a jitter below 1 lies between [2^k]
    and [2^k + 1], both included: the sum can be rounded up to [2^k + 1]. *)
Lemma float_add_pow2_bounds (k : Z) (j : Q) :
  0 <= k -> (0 <= j)%Q -> (j < 1)%Q ->
  (2 ^ k <= Float.add (2 ^ k) j)%Q /\ (Float.add (2 ^ k) j <= 2 ^ k + 1)%Q.
Proof.
  intros Hk Hj0 Hj1.
  pose proof (Qpower_1_le 2 k ltac:(lra) Hk) as Hone.
  set (x := (2 ^ k + j)%Q).
  assert (Hx : (0 < x)%Q) by (unfold x; lra).
  assert (Hpow : (inject_Z (2 ^ k) == 2 ^ k)%Q) by (apply Zpower_Qpower, Hk).
  assert (Hfloor : Qfloor x = 2 ^ k).
  { apply qfloor_unique; rewrite ?inject_Z_plus, Hpow; unfold x;
      change (inject_Z 1) with 1%Q; lra. }
  unfold Float.add, Float.round. fold x.
  rewrite (proj1 (Qgt_alt _ _) Hx).
  unfold Float.round_positive, Float.ilog2.
  assert (Hle : Qle_bool 1 x = true) by (apply Qle_bool_iff; unfold x; lra).
  rewrite Hle, Hfloor, Z.log2_pow2 by exact Hk.
  rewrite Qred_correct.
  set (u := (2 ^ (k - 52))%Q).
  pose proof (pow2_pos (k - 52)) as Hu. fold u in Hu.
  assert (Hsplit : (2 ^ k == 4503599627370496 * u)%Q).
  { unfold u. replace k with (52 + (k - 52)) at 1 by lia.
    rewrite pow2_split. reflexivity. }
  set (m := Float.nearest_even (x / u)).
  pose proof (nearest_even_bounds (x / u)) as [Hm1 Hm2]. fold m in Hm1, Hm2.
  assert (Hq1 : (inject_Z 4503599627370496 <= x / u)%Q).
  { apply Qle_shift_div_l; [exact Hu|]. unfold x.
    change (inject_Z 4503599627370496) with 4503599627370496%Q. lra. }
  assert (Hf1 : 4503599627370496 <= Qfloor (x / u)).
  { apply Qfloor_resp_le in Hq1. rewrite Qfloor_Z in Hq1. exact Hq1. }
  split.
  - assert (Hm : (4503599627370496 <= inject_Z m)%Q).
    { change 4503599627370496%Q with (inject_Z 4503599627370496).
      rewrite <- Zle_Qle. lia. }
    rewrite Hsplit. apply Qmult_le_compat_r; [exact Hm | lra].
  - destruct (Z_le_gt_dec k 52) as [Hsmall|Hbig].
    + (* the spacing of the floats near [2^k] divides 1 *)
      set (N := 2 ^ (52 - k)).
      assert (HN : (inject_Z N * u == 1)%Q).
      { unfold N, u. rewrite Zpower_Qpower by lia.
        change (inject_Z 2) with 2%Q. rewrite <- pow2_split.
        replace (52 - k + (k - 52)) with 0 by lia. reflexivity. }
      assert (Hq2 : (x / u < inject_Z (4503599627370496 + N))%Q).
      { apply Qlt_shift_div_r; [exact Hu|]. rewrite inject_Z_plus.
        change (inject_Z 4503599627370496) with 4503599627370496%Q.
        unfold x. rewrite Qmult_plus_distr_l, HN. lra. }
      assert (Hf2 : Qfloor (x / u) < 4503599627370496 + N).
      { rewrite Zlt_Qlt. eapply Qle_lt_trans; [apply Qfloor_le | exact Hq2]. }
      assert (Hm : (inject_Z m <= inject_Z (4503599627370496 + N))%Q).
      { rewrite <- Zle_Qle. lia. }
      apply Qle_trans with (inject_Z (4503599627370496 + N) * u)%Q.
      * apply Qmult_le_compat_r; [exact Hm | lra].
      * rewrite inject_Z_plus, Qmult_plus_distr_l, HN.
        change (inject_Z 4503599627370496) with 4503599627370496%Q. lra.
    + (* the spacing is at least 2: the jitter is rounded away *)
      assert (Hu2 : (2 <= u)%Q).
      { unfold u. change 2%Q with (2 ^ 1)%Q at 1.
        apply Qpower_le_compat_l; [lia | lra]. }
      assert (Hfq : Qfloor (x / u) = 4503599627370496).
      { apply qfloor_unique; [exact Hq1|].
        apply Qlt_shift_div_r; [exact Hu|].
        change (inject_Z (4503599627370496 + 1)) with 4503599627370497%Q.
        unfold x. lra. }
      assert (Hhalf : (x / u - inject_Z (Qfloor (x / u)) < 1 # 2)%Q).
      { rewrite Hfq. change (inject_Z 4503599627370496) with 4503599627370496%Q.
        apply Qlt_minus_iff.
        assert (Hdiv : (x / u < 4503599627370496 + (1 # 2))%Q).
        { apply Qlt_shift_div_r; [exact Hu|]. unfold x. lra. }
        lra. }
      subst m. rewrite (nearest_even_below_half _ Hhalf), Hfq.
      change (inject_Z 4503599627370496) with 4503599627370496%Q. lra.
Qed.

(** The rounding at work: a tenth plus two tenths, a sum that falls halfway
    between two floats, and a sum that needs no rounding. *)
Example float_add_rounds :
  Float.add (3602879701896397 # 36028797018963968) (3602879701896397 # 18014398509481984)
  = (1351079888211149 # 4503599627370496)%Q
  /\ Float.add 1 (1 - (1 # 9007199254740992)) = 2%Q
  /\ Float.add 2 (3 # 8) = (19 # 8)%Q
  /\ Float.round (3 # 10) = (5404319552844595 # 18014398509481984)%Q.
Proof. vm_compute. repeat split. Qed.

(** ** Exponential waits *)

(** The i-th wait is the floating-point sum of [2^(k+i)] and a jitter below
    1, between [2^(k+i)] and [2^(k+i) + 1]. *)
Lemma exponential_nth (k : Z) (ws : list Q) :
  0 <= k -> Backoff.exponential k ws ->
  forall i d, ws !! i = Some d ->
    exists jitter, (0 <= jitter)%Q /\ (jitter < 1)%Q
                   /\ d = Float.add (2 ^ (k + Z.of_nat i)) jitter
                   /\ (2 ^ (k + Z.of_nat i) <= d)%Q
                   /\ (d <= 2 ^ (k + Z.of_nat i) + 1)%Q.
Proof.
  intros Hk Hws. revert Hk.
  induction Hws as [k|k jitter rest Hlo Hhi Hrest IH]; intros Hk i d Hi.
  - rewrite lookup_nil in Hi. discriminate.
  - destruct i as [|i]; cbn in Hi.
    + injection Hi as <-. exists jitter. rewrite Z.add_0_r.
      destruct (float_add_pow2_bounds k jitter Hk Hlo Hhi). auto.
    + destruct (IH ltac:(lia) i d Hi) as (j & ? & ? & Hd & ? & ?). exists j.
      replace (k + Z.of_nat (S i)) with (k + 1 + Z.of_nat i) by lia. auto.
Qed.


Lemma attempts_app (a b : list event) :
  Backoff.attempts (a ++ b) = (Backoff.attempts a + Backoff.attempts b)%nat.
Proof. unfold Backoff.attempts. rewrite List.filter_app, length_app. reflexivity. Qed.

Lemma waits_429_app (a b : list event) :
  Backoff.waits_429 (a ++ b) = (Backoff.waits_429 b ++ Backoff.waits_429 a)%list.
Proof. unfold Backoff.waits_429. rewrite omap_app, rev_app_distr. reflexivity. Qed.

Lemma pacing_silent (evs : list event) :
  Forall Backoff.pacing evs ->
  Backoff.attempts evs = 0%nat /\ Backoff.waits_429 evs = [].
Proof.
  induction 1 as [|ev evs Hev _ [IHa IHw]]; [split; reflexivity|].
  change (ev :: evs) with ([ev] ++ evs)%list.
  rewrite attempts_app, waits_429_app, IHa, IHw.
  destruct ev as [| | [] | | | | |]; cbn in Hev; try contradiction; split; reflexivity.
Qed.

(** [_rate_limit_wait] returns, reads the clock, possibly sleeps, and touches
    nothing else. *)
Lemma rate_limit_wait_run (E : Env) (self : Semantic.searcher) (w : world) :
  exists evs t,
    Semantic._rate_limit_wait E self w = (Ret tt, World (evs ++ trace w)%list (files w) t)
    /\ Forall Backoff.pacing evs.
Proof.
  unfold Semantic._rate_limit_wait, bind, time_time, time_sleep, ret, log.
  cbn [trace files last_request_time].
  destruct (Qlt_le_dec _ _); cbn [trace files last_request_time].
  - eexists [_; _; _], _. split; [reflexivity|]. repeat constructor.
  - eexists [_; _], _. split; [reflexivity|]. repeat constructor.
Qed.

(** ** Nested calls *)


Lemma nested_call_refused {A} (E : Env) (depth : Z) (m : M A) :
  env_stack_room E < depth ->
  nested_call E depth m = raise (Exn RecursionError "maximum recursion depth exceeded").
Proof.
  intros H. unfold nested_call. destruct (Z.leb_spec depth (env_stack_room E)); [lia|reflexivity].
Qed.

(** ** Waits that [time.sleep] accepts *)


Lemma time_sleep_backoff_refused (site : sleep_site) (d : Q) :
  (TIME_SLEEP_MAX < d)%Q ->
  time_sleep_backoff site d
  = raise (Exn OverflowError "timestamp too large to convert to C _PyTime_t").
Proof.
  intros H. unfold time_sleep_backoff.
  destruct (Qle_bool d TIME_SLEEP_MAX) eqn:Hle; [|reflexivity].
  apply Qle_bool_iff in Hle. lra.
Qed.

(** The wait after an exception fits when the retries stay within the limits. *)
Lemma backoff_error_fits (top retry_count : Z) :
  (2 ^ top <= TIME_SLEEP_MAX)%Q -> retry_count < top ->
  (2 ^ retry_count <= TIME_SLEEP_MAX)%Q.
Proof.
  intros Htop Hlt. eapply Qle_trans; [|exact Htop].
  apply Qpower_le_compat_l; [lia | lra].
Qed.

(** So does the wait after a 429, jitter and rounding included. *)
Lemma backoff_429_fits (top retry_count : Z) (jitter : Q) :
  (2 ^ top <= TIME_SLEEP_MAX)%Q -> 0 <= retry_count < top ->
  (0 <= jitter)%Q -> (jitter < 1)%Q ->
  (Float.add (2 ^ retry_count) jitter <= TIME_SLEEP_MAX)%Q.
Proof.
  intros Htop Hrc Hlo Hhi.
  destruct (float_add_pow2_bounds retry_count jitter ltac:(lia) Hlo Hhi) as [_ Hd].
  destruct (pow2_step retry_count ltac:(lia)) as [Hstep Hone].
  assert (Hnext : (2 ^ (retry_count + 1) <= 2 ^ top)%Q).
  { apply Qpower_le_compat_l; [lia | lra]. }
  set (d := Float.add (2 ^ retry_count) jitter) in *.
  set (next := (2 ^ (retry_count + 1))%Q) in *.
  set (this := (2 ^ retry_count)%Q) in *.
  set (limit := (2 ^ top)%Q) in *. lra.
Qed.





(** The same run, evaluated: four requests, three waits of 1, 2 and 4
    seconds plus the jitter the clock gives. *)
Example make_request_rate_limited_run :
  let out := Semantic._make_request Scenario.rate_limited
               (Semantic.init None None 30 3) "paper/search" [] 0 Scenario.start in
  fst out = Ret None
  /\ Backoff.attempts (trace (snd out)) = 4%nat
  /\ Backoff.waits_429 (trace (snd out)) = [11 # 8; 19 # 8; 35 # 8]%Q.
Proof. vm_compute. repeat split. Qed.


(** A nested call that does not fit the stack ends the retries as well: with
    room for two nested calls only, the third retry raises. *)
Example make_request_stack_full :
  fst (Semantic._make_request Scenario2.rate_limited_shallow
         (Semantic.init None None 30 3) "paper/search" [] 0 Scenario.start)
  = Raise (Exn RecursionError "maximum recursion depth exceeded").
Proof. vm_compute. reflexivity. Qed.

(** ** Computations only extend the trace *)

Lemma monotone_ret {A} (a : A) : Trace.monotone (ret a).
Proof. intros w. exists []. reflexivity. Qed.

Lemma monotone_raise {A} (e : exn) : Trace.monotone (@raise A e).
Proof. intros w. exists []. reflexivity. Qed.

Lemma monotone_lift {A} (o : outcome A) : Trace.monotone (lift o).
Proof. intros w. exists []. reflexivity. Qed.

Lemma monotone_bind {A B} (m : M A) (k : A -> M B) :
  Trace.monotone m -> (forall a, Trace.monotone (k a)) -> Trace.monotone (bind m k).
Proof.
  intros Hm Hk w. unfold bind. destruct (Hm w) as [evs Hevs].
  destruct (m w) as [[a|e] w1]; cbn [snd] in *.
  - destruct (Hk a w1) as [evs' Hevs']. exists (evs' ++ evs)%list.
    rewrite Hevs', Hevs, app_assoc. reflexivity.
  - exists evs. exact Hevs.
Qed.

Lemma monotone_try_catch {A} (m : M A) (h : exn -> option (M A)) :
  Trace.monotone m ->
  (forall e handler, h e = Some handler -> Trace.monotone handler) ->
  Trace.monotone (try_catch m h).
Proof.
  intros Hm Hh w. unfold try_catch. destruct (Hm w) as [evs Hevs].
  destruct (m w) as [[a|e] w1]; cbn [snd] in *.
  - exists evs. exact Hevs.
  - destruct (h e) as [handler|] eqn:He; cbn [snd].
    + destruct (Hh e handler He w1) as [evs' Hevs']. exists (evs' ++ evs)%list.
      rewrite Hevs', Hevs, app_assoc. reflexivity.
    + exists evs. exact Hevs.
Qed.

Lemma monotone_time_time (E : Env) : Trace.monotone (time_time E).
Proof. intros w. eexists [_]. reflexivity. Qed.

Lemma monotone_time_sleep (site : sleep_site) (d : Q) :
  Trace.monotone (time_sleep site d).
Proof. intros w. eexists [_]. reflexivity. Qed.

Lemma monotone_session_get (E : Env) (u : string) (p : list (string * pyval)) :
  Trace.monotone (session_get E u p).
Proof. intros w. eexists [_]. reflexivity. Qed.

Lemma monotone_mkdir (E : Env) (path : string) : Trace.monotone (mkdir E path).
Proof. intros w. eexists [_]. reflexivity. Qed.

Lemma monotone_write_file (E : Env) (path data : string) :
  Trace.monotone (write_file E path data).
Proof.
  intros w. unfold write_file. destruct (env_write E (trace w) path);
    eexists [_]; reflexivity.
Qed.

Lemma monotone_path_exists (path : string) : Trace.monotone (path_exists path).
Proof. intros w. exists []. reflexivity. Qed.

Lemma monotone_getsize (path : string) : Trace.monotone (getsize path).
Proof. intros w. exists []. reflexivity. Qed.

Lemma monotone_remove (path : string) : Trace.monotone (remove path).
Proof.
  intros w. unfold remove. destruct (files w !! path);
    [eexists [_] | exists []]; reflexivity.
Qed.

Lemma monotone_which_curl (E : Env) : Trace.monotone (which_curl E).
Proof. intros w. exists []. reflexivity. Qed.

Lemma monotone_run_curl (E : Env) (u path : string) : Trace.monotone (run_curl E u path).
Proof.
  intros w. unfold run_curl. destruct (env_curl E (trace w) u path);
    eexists [_]; reflexivity.
Qed.

Lemma monotone_to_markdown (E : Env) (path : string) :
  Trace.monotone (to_markdown E path).
Proof. intros w. eexists [_]. reflexivity. Qed.

Lemma monotone_rate_limit_wait (E : Env) (self : Semantic.searcher) :
  Trace.monotone (Semantic._rate_limit_wait E self).
Proof.
  intros w. destruct (rate_limit_wait_run E self w) as (evs & t & -> & _).
  exists evs. reflexivity.
Qed.

Lemma monotone_raise_for_status (r : response) :
  Trace.monotone (Semantic.raise_for_status r).
Proof.
  unfold Semantic.raise_for_status.
  destruct (_ && _); [apply monotone_raise | apply monotone_ret].
Qed.

Lemma monotone_time_sleep_backoff (site : sleep_site) (d : Q) :
  Trace.monotone (time_sleep_backoff site d).
Proof.
  unfold time_sleep_backoff.
  destruct (Qle_bool d TIME_SLEEP_MAX); [apply monotone_time_sleep | apply monotone_raise].
Qed.

Lemma monotone_nested_call {A} (E : Env) (depth : Z) (m : M A) :
  Trace.monotone m -> Trace.monotone (nested_call E depth m).
Proof.
  intros Hm. unfold nested_call.
  destruct (depth <=? env_stack_room E); [exact Hm | apply monotone_raise].
Qed.

Create HintDb mono discriminated.
#[local] Hint Resolve monotone_ret monotone_raise monotone_lift monotone_time_time
  monotone_time_sleep monotone_time_sleep_backoff monotone_session_get
  monotone_mkdir monotone_write_file
  monotone_path_exists monotone_getsize monotone_remove monotone_which_curl
  monotone_run_curl monotone_to_markdown monotone_rate_limit_wait
  monotone_raise_for_status : mono.

(** One step of a monotonicity proof: split a bind or a handler, decide a
    test, or close the goal with a lemma of the database. *)
Ltac mono_step :=
  match goal with
  | |- Trace.monotone (bind _ _) => apply monotone_bind; [|intros ?]
  | |- Trace.monotone (try_catch _ _) =>
      apply monotone_try_catch;
      [|let e := fresh "e" in let h := fresh "h" in let He := fresh "He" in
        intros e h He;
        repeat match type of He with
               | (if ?c then _ else _) = Some _ => destruct c
               end;
        first [discriminate He | injection He as <-]]
  | |- Trace.monotone (nested_call _ _ _) => apply monotone_nested_call
  | |- Trace.monotone (if ?c then _ else _) => destruct c
  | |- Trace.monotone (match ?x with _ => _ end) => destruct x
  | |- Trace.monotone (let _ := _ in _) => cbv zeta
  | |- Trace.monotone _ => solve [auto with mono]
  end.

Ltac mono := repeat mono_step.

Lemma monotone_make_request (E : Env) (self : Semantic.searcher)
    (endpoint : string) (params : list (string * pyval)) :
  forall (n : nat) (retry_count : Z),
    (Z.to_nat (Semantic.max_retries self - retry_count) <= n)%nat ->
    Trace.monotone (Semantic._make_request E self endpoint params retry_count).
Proof.
  induction n as [|n IH]; intros retry_count Hn;
    rewrite Semantic._make_request_equation_1; mono;
    try lia; apply IH; lia.
Qed.

Lemma monotone_make_request_any (E : Env) (self : Semantic.searcher)
    (endpoint : string) (params : list (string * pyval)) (retry_count : Z) :
  Trace.monotone (Semantic._make_request E self endpoint params retry_count).
Proof. eapply monotone_make_request. reflexivity. Qed.

Lemma monotone_get_paper_details (E : Env) (self : Semantic.searcher) (paper_id : string) :
  Trace.monotone (Semantic.get_paper_details E self paper_id).
Proof.
  unfold Semantic.get_paper_details. cbv zeta.
  apply monotone_bind; [apply monotone_make_request_any|]. intros r. mono.
Qed.

Lemma monotone_download_with_curl (E : Env) (u : pyval) (pdf_path : string) :
  Trace.monotone (Semantic._download_with_curl E u pdf_path).
Proof. unfold Semantic._download_with_curl. mono. Qed.

Lemma monotone_download_attempts (E : Env) (self : Semantic.searcher)
    (u : pyval) (pdf_path : string) (attempts : list Z) :
  Trace.monotone (Semantic.download_attempts E self u pdf_path attempts).
Proof.
  induction attempts as [|attempt rest IH]; cbn [Semantic.download_attempts];
    [apply monotone_ret|].
  unfold Semantic.write_stream. mono.
Qed.

#[local] Hint Resolve monotone_make_request_any monotone_get_paper_details
  monotone_download_with_curl monotone_download_attempts : mono.

Lemma monotone_semantic_download_pdf (E : Env) (self : Semantic.searcher)
    (paper_id save_path : string) :
  Trace.monotone (Semantic.download_pdf E self paper_id save_path).
Proof. unfold Semantic.download_pdf. mono. Qed.

(** A computation that sends an event still has sent it after whatever
    follows. *)
Lemma sends_bind {A B} (ev : event) (m : M A) (k : A -> M B) :
  Trace.sends ev m -> (forall a, Trace.monotone (k a)) -> Trace.sends ev (bind m k).
Proof.
  intros Hm Hk w. unfold bind. destruct (Hm w) as (evs & Hevs & Hin).
  destruct (m w) as [[a|e] w1]; cbn [snd] in *.
  - destruct (Hk a w1) as [evs' Hevs']. exists (evs' ++ evs)%list.
    rewrite Hevs', Hevs, app_assoc. split; [reflexivity|].
    apply in_or_app. right. exact Hin.
  - exists evs. split; assumption.
Qed.

Lemma sends_after {A B} (ev : event) (m : M A) (k : A -> M B) :
  Trace.monotone m -> (forall a, Trace.sends ev (k a)) ->
  (forall w e, fst (m w) <> Raise e) ->
  Trace.sends ev (bind m k).
Proof.
  intros Hm Hk Hret w. unfold bind. destruct (Hm w) as [evs Hevs].
  specialize (Hret w).
  destruct (m w) as [[a|e] w1]; cbn [fst snd] in *.
  - destruct (Hk a w1) as (evs' & Hevs' & Hin). exists (evs' ++ evs)%list.
    rewrite Hevs', Hevs, app_assoc. split; [reflexivity|].
    apply in_or_app. left. exact Hin.
  - exfalso. apply (Hret e). reflexivity.
Qed.

Lemma sends_try_catch {A} (ev : event) (m : M A) (h : exn -> option (M A)) :
  Trace.sends ev m ->
  (forall e handler, h e = Some handler -> Trace.monotone handler) ->
  Trace.sends ev (try_catch m h).
Proof.
  intros Hm Hh w. unfold try_catch. destruct (Hm w) as (evs & Hevs & Hin).
  destruct (m w) as [[a|e] w1]; cbn [snd] in *.
  - exists evs. split; assumption.
  - destruct (h e) as [handler|] eqn:He; cbn [snd].
    + destruct (Hh e handler He w1) as [evs' Hevs']. exists (evs' ++ evs)%list.
      rewrite Hevs', Hevs, app_assoc. split; [reflexivity|].
      apply in_or_app. right. exact Hin.
    + exists evs. split; assumption.
Qed.

Lemma sends_session_get (E : Env) (u : string) (p : list (string * pyval)) :
  Trace.sends (EvGet u p) (session_get E u p).
Proof. intros w. exists [EvGet u p]. split; [reflexivity | left; reflexivity]. Qed.

(** [_make_request] always sends its request at least once. *)
Lemma make_request_sends (E : Env) (self : Semantic.searcher)
    (endpoint : string) (params : list (string * pyval)) (retry_count : Z) :
  Trace.sends (EvGet (Semantic.BASE_URL ++ "/" ++ endpoint) params)
              (Semantic._make_request E self endpoint params retry_count).
Proof.
  rewrite Semantic._make_request_equation_1.
  apply sends_after.
  - apply monotone_rate_limit_wait.
  - intros _. cbv zeta. apply sends_try_catch.
    + apply sends_bind; [apply sends_session_get|]. intros r. mono.
    + intros e h He. destruct (is_RequestException e); [|discriminate].
      injection He as <-. mono.
  - intros w e. destruct (rate_limit_wait_run E self w) as (evs & t & -> & _).
    discriminate.
Qed.

(** [SemanticSearcher.download_pdf] asks the API for the paper, whatever the
    identifier is. *)
Lemma semantic_download_pdf_sends (E : Env) (self : Semantic.searcher)
    (paper_id save_path : string) :
  Trace.sends (EvGet (Semantic.BASE_URL ++ "/paper/" ++ paper_id)
                     [("fields", PStr (Py.join "," Semantic.DEFAULT_FIELDS))])
              (Semantic.download_pdf E self paper_id save_path).
Proof.
  unfold Semantic.download_pdf. apply sends_bind.
  - unfold Semantic.get_paper_details. cbv zeta. apply sends_bind.
    + apply (make_request_sends E self ("paper/" ++ paper_id)).
    + intros r. mono.
  - intros paper. mono.
Qed.

(** ** Empty identifiers *)

Lemma rstrip_blank (s : string) : Trace.blank s = true -> Py.rstrip s = "".
Proof.
  induction s as [|c s IH]; [reflexivity|].
  cbn [Trace.blank Py.rstrip]. intros H. apply andb_prop in H as [Hc Hs].
  rewrite (IH Hs), Hc. reflexivity.
Qed.

Lemma strip_blank (s : string) : Trace.blank s = true -> Py.strip s = "".
Proof. intros H. unfold Py.strip. rewrite (rstrip_blank s H). reflexivity. Qed.

(** What the two fetchers do with an identifier that is empty or white space
    only.  [SciHubFetcher.download_pdf] returns the error "Error: DOI is empty"
    at once and leaves the world as it was: no network call, no other event.
    [SemanticSearcher.download_pdf] has no such check: it sends the metadata
    request for the identifier as given, and the result is the error
    "Error: Could not find paper ..." when that lookup yields no paper. *)
Theorem empty_identifier_download (E : Env) (fetcher : SciHub.fetcher)
    (searcher : Semantic.searcher) (identifier : string)
    (save_path : option string) (save_dir : string) (w : world) :
  Trace.blank identifier = true ->
  SciHub.download_pdf E fetcher identifier save_path w = (Ret "Error: DOI is empty", w)
  /\ (exists evs,
        trace (snd (Semantic.download_pdf E searcher identifier save_dir w))
        = (evs ++ trace w)%list
        /\ In (EvGet (Semantic.BASE_URL ++ "/paper/" ++ identifier)
                     [("fields", PStr (Py.join "," Semantic.DEFAULT_FIELDS))]) evs)
  /\ (fst (Semantic.get_paper_details E searcher identifier w) = Ret None ->
      fst (Semantic.download_pdf E searcher identifier save_dir w)
      = Ret ("Error: Could not find paper " ++ identifier)).
Proof.
  intros Hblank. split; [|split].
  - unfold SciHub.download_pdf. rewrite (strip_blank identifier Hblank).
    cbn [Py.nonempty negb]. rewrite orb_true_r. reflexivity.
  - apply semantic_download_pdf_sends.
  - unfold Semantic.download_pdf, bind.
    destruct (Semantic.get_paper_details E searcher identifier w) as [[[p|]|e] w1];
      cbn [fst]; intros H; try discriminate H. reflexivity.
Qed.

Lemma empty_identifier_download_witness :
  SciHub.download_pdf Scenario.offline (SciHub.init None None 30) "  " None Scenario.start
  = (Ret "Error: DOI is empty", Scenario.start)
  /\ (exists evs,
        trace (snd (Semantic.download_pdf Scenario.offline (Semantic.init None None 30 3)
                      "  " "/tmp/papers" Scenario.start))
        = (evs ++ trace Scenario.start)%list
        /\ In (EvGet (Semantic.BASE_URL ++ "/paper/" ++ "  ")
                     [("fields", PStr (Py.join "," Semantic.DEFAULT_FIELDS))]) evs)
  /\ (fst (Semantic.get_paper_details Scenario.offline (Semantic.init None None 30 3)
             "  " Scenario.start) = Ret None ->
      fst (Semantic.download_pdf Scenario.offline (Semantic.init None None 30 3)
             "  " "/tmp/papers" Scenario.start)
      = Ret ("Error: Could not find paper " ++ "  ")).
Proof.
  exact (empty_identifier_download Scenario.offline (SciHub.init None None 30)
           (Semantic.init None None 30 3) "  " None "/tmp/papers" Scenario.start
           eq_refl).
Defined.

(** C1 asks both fetchers to reject an empty or white-space identifier at
    once, with a validation error and without a network call.
    [SciHubFetcher.download_pdf] does (see [empty_identifier_download]);
    [SemanticSearcher.download_pdf] does not: with the empty identifier and
    no network it sends the metadata request four times (the first attempt
    and three retries) before it answers, and the answer is the not-found
    error, not a validation error. *)
Lemma semantic_download_pdf_empty_identifier :
  let out := Semantic.download_pdf Scenario.offline (Semantic.init None None 30 3)
               "" "/tmp/papers" Scenario.start in
  Trace.blank "" = true
  /\ fst out = Ret "Error: Could not find paper "
  /\ network_calls (snd out)
     = List.repeat
         (EvGet "https://api.semanticscholar.org/graph/v1/paper/"
                [("fields", PStr "title,abstract,year,citationCount,authors,url,publicationDate,externalIds,fieldsOfStudy,openAccessPdf")])
         4.
Proof. vm_compute. repeat split. Qed.

(** ** What computations return *)

Lemma ensures_ret {A} (a : A) (P : A -> Prop) : P a -> Trace.ensures (ret a) P.
Proof. intros H w b w' Hrun. injection Hrun as <- _. exact H. Qed.

Lemma ensures_raise {A} (e : exn) (P : A -> Prop) : Trace.ensures (raise e) P.
Proof. intros w b w' Hrun. discriminate Hrun. Qed.

Lemma ensures_lift {A} (o : outcome A) (P : A -> Prop) :
  (forall a, o = Ret a -> P a) -> Trace.ensures (lift o) P.
Proof. intros H w b w' Hrun. injection Hrun as Ho _. apply H, Ho. Qed.

Lemma ensures_bind {A B} (m : M A) (k : A -> M B) (Q : A -> Prop) (P : B -> Prop) :
  Trace.ensures m Q -> (forall a, Q a -> Trace.ensures (k a) P) ->
  Trace.ensures (bind m k) P.
Proof.
  intros Hm Hk w b w' Hrun. unfold bind in Hrun.
  destruct (m w) as [[a|e] w1] eqn:Hmw; [|discriminate].
  eapply Hk; [eapply Hm, Hmw | exact Hrun].
Qed.

Lemma ensures_any {A} (m : M A) : Trace.ensures m (fun _ => True).
Proof. intros w a w' _. exact I. Qed.

Lemma ensures_try_catch {A} (m : M A) (h : exn -> option (M A)) (P : A -> Prop) :
  Trace.ensures m P ->
  (forall e handler, h e = Some handler -> Trace.ensures handler P) ->
  Trace.ensures (try_catch m h) P.
Proof.
  intros Hm Hh w b w' Hrun. unfold try_catch in Hrun.
  destruct (m w) as [[a|e] w1] eqn:Hmw.
  - injection Hrun as <- <-. eapply Hm, Hmw.
  - destruct (h e) as [handler|] eqn:He; [|discriminate].
    eapply Hh; [exact He | exact Hrun].
Qed.

Lemma ensures_raise_for_status (r : response) :
  Trace.ensures (Semantic.raise_for_status r) (fun _ => response_ok r = true).
Proof.
  unfold Semantic.raise_for_status, response_ok.
  destruct (_ && _); [apply ensures_raise | apply ensures_ret; reflexivity].
Qed.

Lemma ensures_nested_call {A} (E : Env) (depth : Z) (m : M A) (P : A -> Prop) :
  Trace.ensures m P -> Trace.ensures (nested_call E depth m) P.
Proof.
  intros Hm. unfold nested_call.
  destruct (depth <=? env_stack_room E); [exact Hm | apply ensures_raise].
Qed.

(** A response [_make_request] returns has passed [raise_for_status]. *)
Lemma make_request_returns_ok (E : Env) (self : Semantic.searcher)
    (endpoint : string) (params : list (string * pyval)) :
  forall (n : nat) (retry_count : Z),
    (Z.to_nat (Semantic.max_retries self - retry_count) <= n)%nat ->
    Trace.ensures (Semantic._make_request E self endpoint params retry_count)
      (fun found => forall r, found = Some r -> response_ok r = true).
Proof.
  assert (Hstep : forall retry_count,
            (Z.to_nat (Semantic.max_retries self - retry_count) = 0%nat
             \/ Trace.ensures
                  (Semantic._make_request E self endpoint params (retry_count + 1))
                  (fun found => forall r, found = Some r -> response_ok r = true)) ->
            Trace.ensures (Semantic._make_request E self endpoint params retry_count)
              (fun found => forall r, found = Some r -> response_ok r = true)).
  { intros retry_count Hnext. rewrite Semantic._make_request_equation_1.
    eapply ensures_bind; [apply ensures_any|]. intros _ _. cbv zeta.
    apply ensures_try_catch.
    - eapply ensures_bind; [apply ensures_any|]. intros r _.
      destruct (status_code r =? 429).
      + destruct (Z_lt_dec retry_count (Semantic.max_retries self)) as [Hlt|_];
          [|apply ensures_ret; discriminate].
        destruct Hnext as [Hzero|Hnext]; [lia|].
        eapply ensures_bind; [apply ensures_any|]. intros now _. cbv zeta.
        eapply ensures_bind; [apply ensures_any|]. intros _ _.
        apply ensures_nested_call. exact Hnext.
      + eapply ensures_bind; [apply ensures_raise_for_status|]. intros ? Hok.
        apply ensures_ret. intros r' Hr'. injection Hr' as Hr'. rewrite <- Hr'.
        exact Hok.
    - intros e h He. destruct (is_RequestException e); [|discriminate].
      injection He as <-.
      destruct (Z_lt_dec retry_count (Semantic.max_retries self)) as [Hlt|_];
        [|apply ensures_ret; discriminate].
      destruct Hnext as [Hzero|Hnext]; [lia|]. cbv zeta.
      eapply ensures_bind; [apply ensures_any|]. intros _ _.
      apply ensures_nested_call. exact Hnext. }
  induction n as [|n IH]; intros retry_count Hn; apply Hstep.
  - left. lia.
  - right. apply IH. lia.
Qed.

(** ** Search *)

(** A parsed paper carries the non-empty identifier of its record. *)
Lemma parse_paper_id (E : Env) (data : pyval) (p : Paper) :
  Semantic._parse_paper E data = Some p -> truthy (paper_id p) = true.
Proof.
  unfold Semantic._parse_paper. cbv zeta.
  destruct (py_get data "paperId" (PStr "")) as [pid|]; cbn [obind]; [|discriminate].
  destruct (truthy pid) eqn:Hpid; cbn [negb]; [|discriminate].
  repeat match goal with
         | |- context [obind ?o _] => destruct o; cbn [obind]; [|discriminate]
         end.
  intros H. injection H as <-. exact Hpid.
Qed.

Lemma parse_all_bounded (E : Env) (items : list pyval) :
  (length (Semantic.parse_all E items) <= length items)%nat
  /\ Forall (fun p => truthy (paper_id p) = true) (Semantic.parse_all E items).
Proof.
  induction items as [|item rest [IHlen IHid]]; [split; [reflexivity | constructor]|].
  cbn [Semantic.parse_all].
  destruct (Semantic._parse_paper E item) as [p|] eqn:Hp; cbn [length].
  - split; [lia|]. constructor; [exact (parse_paper_id E item p Hp) | exact IHid].
  - split; [lia | exact IHid].
Qed.

Lemma parse_all_chars (E : Env) (s : string) : Semantic.parse_all E (chars s) = [].
Proof. induction s as [|c s IH]; [reflexivity | exact IH]. Qed.

Lemma slice_to_length {A} (n : Z) (l : list A) :
  0 <= n -> Z.of_nat (length (slice_to n l)) <= n.
Proof.
  intros Hn. unfold slice_to. destruct (Z.leb_spec 0 n); [|lia].
  rewrite length_take. lia.
Qed.

Lemma bind_fst {A B} (m : M A) (k : A -> M B) (w : world) :
  fst (bind m k w)
  = match m w with
    | (Ret a, w1) => fst (k a w1)
    | (Raise e, _) => Raise e
    end.
Proof. unfold bind. destruct (m w) as [[a|e] w1]; reflexivity. Qed.

(** The part of [search] after the response was decoded. *)
Lemma search_results_bounded (E : Env) (max_results : Z) (results : pyval) :
  0 <= max_results ->
  Trace.ensures
    (sliced <- lift (py_slice_to max_results results) ;;
     items <- lift (py_iter sliced) ;;
     ret (Semantic.parse_all E items))
    (fun papers => Z.of_nat (length papers) <= max_results
                   /\ Forall (fun p => truthy (paper_id p) = true) papers).
Proof.
  intros Hmax w papers w' Hrun. unfold bind, lift, ret in Hrun.
  destruct results as [| | |s|l|d]; cbn in Hrun; try discriminate Hrun.
  - injection Hrun as <- _. rewrite parse_all_chars. split; [cbn; lia | constructor].
  - injection Hrun as <- _.
    destruct (parse_all_bounded E (slice_to max_results l)) as [Hlen Hid].
    pose proof (slice_to_length max_results l Hmax). split; [lia | exact Hid].
Qed.

(** C10, as the code has it.  For a non-negative [max_results], a list that
    [search] returns has at most [max_results] papers, each with a non-empty
    identifier; the result is the empty list when the request yields no
    response and when the body is not JSON; and [search] does return a list
    when the [data] field of the answer is absent or an array. *)
Theorem search_bounded (E : Env) (self : Semantic.searcher) (query : string)
    (year : option string) (max_results : Z) (w : world) :
  0 <= max_results ->
  let request := Semantic._make_request E self "paper/search"
                   (Semantic.search_params query year max_results) 0 w in
  let out := Semantic.search E self query year max_results w in
  (forall papers, fst out = Ret papers ->
     Z.of_nat (length papers) <= max_results
     /\ Forall (fun p => truthy (paper_id p) = true) papers)
  /\ (fst request = Ret None -> fst out = Ret [])
  /\ (forall r, fst request = Ret (Some r) -> json_body r = None -> fst out = Ret [])
  /\ (forall r d, fst request = Ret (Some r) -> json_body r = Some (PDict d) ->
        match d !! "data" with
        | None | Some (PList _) => True
        | Some _ => False
        end ->
        exists papers, fst out = Ret papers).
Proof.
  intros Hmax request out.
  pose proof (make_request_returns_ok E self "paper/search"
                (Semantic.search_params query year max_results) _ 0
                (Nat.le_refl _) w) as Hok.
  subst out request. unfold Semantic.search. cbv zeta. rewrite bind_fst.
  destruct (Semantic._make_request E self "paper/search" _ 0 w)
    as [[[r|]|e] w1] eqn:Hrequest; cbn [fst].
  - rewrite (Hok (Some r) w1 eq_refl r eq_refl). cbn [negb].
    split; [|split; [discriminate|split]].
    + intros papers Hrun.
      destruct (obind (Semantic.response_json r) _) as [results|]; cbn [fst] in Hrun.
      * match type of Hrun with
        | fst ?t = _ => destruct t as [o w2] eqn:Hrest
        end.
        cbn [fst] in Hrun. subst o.
        exact (search_results_bounded E max_results results Hmax w1 papers w2 Hrest).
      * injection Hrun as <-. split; [cbn; lia | constructor].
    + intros r' Hr' Hjson. injection Hr' as <-.
      unfold Semantic.response_json. rewrite Hjson. reflexivity.
    + intros r' d Hr' Hjson Hdata. injection Hr' as <-.
      unfold Semantic.response_json. rewrite Hjson. cbn [obind py_get].
      destruct (d !! "data") as [[| | | |l|]|]; try contradiction;
        eexists; reflexivity.
  - split; [|split; [reflexivity|split; discriminate]].
    intros papers Hrun. injection Hrun as <-. split; [cbn; lia | constructor].
  - split; [discriminate|split; [discriminate|split; discriminate]].
Qed.

Lemma search_bounded_witness :
  let E := Scenario.serving Scenario.two_papers in
  let self := Semantic.init None None 30 3 in
  let request := Semantic._make_request E self "paper/search"
                   (Semantic.search_params "machine learning" None 1) 0
                   Scenario.start in
  let out := Semantic.search E self "machine learning" None 1 Scenario.start in
  (forall papers, fst out = Ret papers ->
     Z.of_nat (length papers) <= 1
     /\ Forall (fun p => truthy (paper_id p) = true) papers)
  /\ (fst request = Ret None -> fst out = Ret [])
  /\ (forall r, fst request = Ret (Some r) -> json_body r = None -> fst out = Ret [])
  /\ (forall r d, fst request = Ret (Some r) -> json_body r = Some (PDict d) ->
        match d !! "data" with
        | None | Some (PList _) => True
        | Some _ => False
        end ->
        exists papers, fst out = Ret papers).
Proof.
  exact (search_bounded (Scenario.serving Scenario.two_papers)
           (Semantic.init None None 30 3) "machine learning" None 1 Scenario.start
           ltac:(lia)).
Defined.

Example search_one_of_two :
  let out := Semantic.search (Scenario.serving Scenario.two_papers)
               (Semantic.init None None 30 3) "machine learning" None 1
               Scenario.start in
  exists papers, fst out = Ret papers /\ List.map paper_id papers = [PStr "a1"].
Proof. vm_compute. eexists. split; reflexivity. Qed.

(** C10 as stated fails for a negative [max_results]: the slice
    [results[:-1]] keeps all but the last record, so with [max_results = -1]
    and two records in the answer [search] returns one paper, which is more
    than [max_results]. *)
Lemma search_negative_max_results :
  let out := Semantic.search (Scenario.serving Scenario.two_papers)
               (Semantic.init None None 30 3) "machine learning" None (-1)
               Scenario.start in
  exists papers,
    fst out = Ret papers
    /\ List.map paper_id papers = [PStr "a1"]
    /\ -1 < Z.of_nat (length papers).
Proof. vm_compute. eexists. repeat split. Qed.

(** An answer whose [data] field is null: the slice raises outside the
    handler of [search]. *)
Example search_null_data :
  fst (Semantic.search (Scenario.serving (PDict {[ "data" := PNone ]}))
         (Semantic.init None None 30 3) "machine learning" None 10 Scenario.start)
  = Raise (Exn TypeError "object is not subscriptable").
Proof. vm_compute. reflexivity. Qed.

(** ** Reading a paper *)

Lemma contains_app (pre sub post : string) :
  Py.contains sub (pre ++ sub ++ post) = true.
Proof.
  induction pre as [|c pre IH].
  - change ("" ++ sub ++ post) with (sub ++ post).
    apply startswith_contains, startswith_app.
  - change (String c pre ++ sub ++ post) with (String c (pre ++ sub ++ post)).
    apply (contains_cons sub c), IH.
Qed.

Lemma contains_skip (sub a b : string) :
  Py.contains sub b = true -> Py.contains sub (a ++ b) = true.
Proof.
  intros H. induction a as [|c a IH]; [exact H|].
  change (String c a ++ b) with (String c (a ++ b)).
  apply (contains_cons sub c), IH.
Qed.

Lemma nonempty_app_r (a b : string) :
  Py.nonempty b = true -> Py.nonempty (a ++ b) = true.
Proof. destruct a; [intros H; exact H | reflexivity]. Qed.

Lemma lstrip_nonempty (s : string) :
  Py.nonempty (Py.lstrip s) = true -> Py.nonempty s = true.
Proof. destruct s; [intros H; exact H | reflexivity]. Qed.

Lemma strip_nonempty (s : string) :
  Py.nonempty (Py.strip s) = true -> Py.nonempty s = true.
Proof.
  unfold Py.strip. intros H. apply lstrip_nonempty in H.
  destruct s; [exact H | reflexivity].
Qed.

(** The header of the Sci-Hub reader names the DOI it was given. *)
Lemma scihub_metadata_names_doi (doi pdf_path : string) :
  Py.contains doi (SciHub.metadata doi pdf_path) = true
  /\ Py.startswith ("# Paper: " ++ doi) (SciHub.metadata doi pdf_path) = true.
Proof.
  unfold SciHub.metadata. split.
  - apply contains_app.
  - rewrite <- string_app_assoc. apply startswith_app.
Qed.

(** C4, as the code has it.  Let the download succeed with a path that does
    not begin with "Error", and let the converter extract text that is not
    blank.  Then [SciHubFetcher.read_paper] returns the text behind a header
    that begins with the DOI it was given.  [SemanticSearcher.read_paper]
    looks the paper up a second time.  When the lookup finds the paper and
    its author names are strings, the result is the text behind the header
    made of the title, the authors, the publication date, the URL and the PDF
    path of the paper: the header begins with the title and holds the line of
    the PDF path; when an author name is not a string, the result is
    "Error extracting text: " and the message of the [TypeError]; when the
    lookup finds no paper, the result is the bare text.  A result with the
    text is never empty. *)
Theorem read_paper_extracted (E : Env) (text : string) :
  Py.nonempty (Py.strip text) = true ->
  (forall fetcher doi save_path w pdf_path w1,
     SciHub.download_pdf E fetcher doi save_path w = (Ret pdf_path, w1) ->
     is_error pdf_path = false ->
     env_to_markdown E (trace w1) pdf_path = Ret text ->
     let result := SciHub.metadata doi pdf_path ++ text in
     fst (SciHub.read_paper E fetcher doi save_path w) = Ret result
     /\ Py.startswith ("# Paper: " ++ doi) result = true
     /\ Py.contains doi (SciHub.metadata doi pdf_path) = true
     /\ Py.nonempty result = true)
  /\ (forall searcher paper_id save_path w pdf_path w1 found w2,
        Semantic.download_pdf E searcher paper_id save_path w = (Ret pdf_path, w1) ->
        is_error pdf_path = false ->
        Semantic.get_paper_details E searcher paper_id w1 = (Ret found, w2) ->
        env_to_markdown E (trace w2) pdf_path = Ret text ->
        match found with
        | None => fst (Semantic.read_paper E searcher paper_id save_path w) = Ret text
        | Some paper =>
            (forall names, Semantic.str_items (authors paper) = Ret names ->
               exists header,
                 Semantic.metadata E paper pdf_path = Ret header
                 /\ Py.startswith ("# " ++ py_str E (title paper)) header = true
                 /\ Py.contains ("**PDF**: " ++ pdf_path) header = true
                 /\ fst (Semantic.read_paper E searcher paper_id save_path w)
                    = Ret (header ++ text)
                 /\ Py.nonempty (header ++ text) = true)
            /\ (forall e, Semantic.str_items (authors paper) = Raise e ->
                  fst (Semantic.read_paper E searcher paper_id save_path w)
                  = Ret ("Error extracting text: " ++ exn_msg e))
        end).
Proof.
  intros Htext. pose proof (strip_nonempty text Htext) as Hnonempty. split.
  - intros fetcher doi save_path w pdf_path w1 Hdownload Hpath Hconvert result.
    destruct (scihub_metadata_names_doi doi pdf_path) as [Hcontains Hstarts].
    subst result. split; [|split; [|split]].
    + unfold SciHub.read_paper. rewrite bind_fst, Hdownload, Hpath.
      unfold try_catch, bind, to_markdown. rewrite Hconvert, Htext. reflexivity.
    + unfold SciHub.metadata. rewrite !string_app_assoc, <- string_app_assoc.
      apply startswith_app.
    + exact Hcontains.
    + apply nonempty_app_r, Hnonempty.
  - intros searcher paper_id save_path w pdf_path w1 found w2
      Hdownload Hpath Hdetails Hconvert.
    assert (Hrun : forall meta,
               match found with
               | Some paper => Semantic.metadata E paper pdf_path
               | None => Ret ""
               end = Ret meta ->
               fst (Semantic.read_paper E searcher paper_id save_path w)
               = Ret (meta ++ text)).
    { intros meta Hmeta. unfold Semantic.read_paper.
      rewrite bind_fst, Hdownload, Hpath, bind_fst, Hdetails.
      unfold try_catch, bind, to_markdown, lift. rewrite Hconvert, Htext.
      cbn [negb]. rewrite Hmeta. reflexivity. }
    destruct found as [paper|]; [split|].
    + intros names Hnames.
      assert (Hmeta : exists header, Semantic.metadata E paper pdf_path = Ret header
                        /\ Py.startswith ("# " ++ py_str E (title paper)) header = true
                        /\ Py.contains ("**PDF**: " ++ pdf_path) header = true).
      { unfold Semantic.metadata. rewrite Hnames. cbn [obind].
        eexists. split; [reflexivity|]. split.
        - rewrite <- string_app_assoc. apply startswith_app.
        - do 12 apply contains_skip. rewrite <- string_app_assoc.
          apply startswith_contains, startswith_app. }
      destruct Hmeta as (header & Hmeta & Hstarts & Hpath'). exists header.
      split; [exact Hmeta|]. split; [exact Hstarts|]. split; [exact Hpath'|].
      split; [apply Hrun, Hmeta | apply nonempty_app_r, Hnonempty].
    + intros e He. unfold Semantic.read_paper.
      rewrite bind_fst, Hdownload, Hpath, bind_fst, Hdetails.
      unfold try_catch, bind, to_markdown, lift. rewrite Hconvert, Htext.
      cbn [negb]. unfold Semantic.metadata. rewrite He. reflexivity.
    + apply (Hrun "" eq_refl).
Qed.

Lemma read_paper_extracted_witness :
  let doi := "10.1038/nature12373" in
  let pdf_path := "/tmp/papers/scihub_10.1038_nature12373_d41d8c.pdf" in
  let result := SciHub.metadata doi pdf_path
                ++ "Nanometre-scale thermometry in a living cell" in
  fst (SciHub.read_paper Scenario.scihub (SciHub.init None None 30) doi
         (Some "/tmp/papers") Scenario.start) = Ret result
  /\ Py.startswith ("# Paper: " ++ doi) result = true
  /\ Py.contains doi (SciHub.metadata doi pdf_path) = true
  /\ Py.nonempty result = true.
Proof.
  eapply (proj1 (read_paper_extracted Scenario.scihub
                   "Nanometre-scale thermometry in a living cell" eq_refl)).
  - vm_compute. reflexivity.
  - reflexivity.
  - reflexivity.
Defined.

(** C4 as stated fails for [SemanticSearcher.read_paper]: its header is made
    of the title, the authors, the date, the URL and the PDF path, and the
    path holds the identifier with [:] and [/] replaced; the identifier
    passed to the call is nowhere in the result. *)
Lemma semantic_read_paper_header_lacks_identifier :
  let paper_id := "ARXIV:1805.02262" in
  let out := Semantic.read_paper Scenario.library (Semantic.init None None 30 3)
               paper_id "/tmp/papers" Scenario.start in
  exists result,
    fst out = Ret result
    /\ Py.startswith "# Construction of the Literature Graph in Semantic Scholar"
         result = true
    /\ Py.contains "**PDF**: /tmp/papers/semantic_ARXIV_1805.02262.pdf" result = true
    /\ Py.contains paper_id result = false.
Proof. vm_compute. eexists. repeat split. Qed.

(** An author name that is a number: [str.join] raises, and the message of
    the [TypeError], with the position and the type of the item, comes back
    in the result. *)
Example read_paper_author_not_a_string :
  Semantic.str_items [PStr "Waleed Ammar"; PInt 7]
  = Raise (Exn TypeError "sequence item 1: expected str instance, int found")
  /\ fst (Semantic.read_paper Scenario2.library_numbered_author
            (Semantic.init None None 30 3) "ARXIV:1805.02262" "/tmp/papers"
            Scenario.start)
     = Ret "Error extracting text: sequence item 1: expected str instance, int found".
Proof. vm_compute. repeat split. Qed.

(** A save directory whose name begins with "Error": the download succeeds,
    and [read_paper] takes the path for an error message and returns it. *)
Example read_paper_error_like_path :
  fst (Semantic.read_paper Scenario.library (Semantic.init None None 30 3)
         "ARXIV:1805.02262" "Errors" Scenario.start)
  = Ret "Errors/semantic_ARXIV_1805.02262.pdf".
Proof. vm_compute. reflexivity. Qed.

(** ** Exceptions at the public operations *)


(** C2 fails on the code: a save directory that cannot be created (here the
    path of an existing regular file) makes [mkdir] raise before any handler
    is entered, and the [OSError] leaves [download_pdf] and [read_paper] of
    both fetchers. *)
Theorem download_pdf_mkdir_error_escapes :
  let E := Scenario.library_bad_directory in
  let fetcher := SciHub.init None None 30 in
  let searcher := Semantic.init None None 30 3 in
  let error := Exn OSError "[Errno 17] File exists: /etc/hostname" in
  fst (SciHub.download_pdf E fetcher "10.1038/nature12373" (Some "/etc/hostname")
         Scenario.start) = Raise error
  /\ fst (SciHub.read_paper E fetcher "10.1038/nature12373" (Some "/etc/hostname")
            Scenario.start) = Raise error
  /\ fst (Semantic.download_pdf E searcher "ARXIV:1805.02262" "/etc/hostname"
            Scenario.start) = Raise error
  /\ fst (Semantic.read_paper E searcher "ARXIV:1805.02262" "/etc/hostname"
            Scenario.start) = Raise error.
Proof. vm_compute. repeat split. Qed.

(** ** Instances of the resolver and of the open-access choice *)

Lemma get_pdf_url_priority_witness :
  fst (SciHub._get_pdf_url Scenario.scihub (SciHub.init None None 30)
         "10.1038/nature12373" Scenario.start)
  = Ret (Some "https://moscow.sci-hub.se/2013/nature12373.pdf#view=FitH").
Proof.
  refine (proj2 (get_pdf_url_priority Scenario.scihub (SciHub.init None None 30)
                   "10.1038/nature12373" Scenario.start) _
                Scenario.scihub_page _).
  repeat split.
Defined.

(** The source of the iframe, when the embedded PDF element has none. *)
Example get_pdf_url_iframe :
  fst (SciHub._get_pdf_url (Scenario2.serving Scenario2.iframe_page)
         (SciHub.init None None 30) "10.1038/nature12373" Scenario.start)
  = Ret (Some "https://sci-hub.se/viewer/nature12373").
Proof. vm_compute. reflexivity. Qed.

(** The button that saves the PDF, when the first iframe has no source; the
    button before it does not mention a PDF. *)
Example get_pdf_url_button :
  fst (SciHub._get_pdf_url (Scenario2.serving Scenario2.button_page)
         (SciHub.init None None 30) "10.1038/nature12373" Scenario.start)
  = Ret (Some "https://dl.sci-hub.se/nature12373?download=true").
Proof. vm_compute. reflexivity. Qed.

(** The first anchor whose target mentions a PDF, in any letter case. *)
Example get_pdf_url_anchor :
  fst (SciHub._get_pdf_url (Scenario2.serving Scenario2.anchor_page)
         (SciHub.init None None 30) "10.1038/nature12373" Scenario.start)
  = Ret (Some "https://sci-hub.se/files/Nature12373.PDF").
Proof. vm_compute. reflexivity. Qed.

(** A page that names no PDF in a tag. *)
Example get_pdf_url_bare :
  fst (SciHub._get_pdf_url (Scenario2.serving Scenario2.bare_page)
         (SciHub.init None None 30) "10.1038/nature12373" Scenario.start)
  = Ret None.
Proof. vm_compute. reflexivity. Qed.

(** The second button of that page is its first download button. *)
Example button_page_first_download :
  Resolver.first_download Scenario2.button_page
    "//dl.sci-hub.se/nature12373?download=true".
Proof.
  exists (firstn 5 (soup_tags Scenario2.button_page)),
         (Tag "button"
            {[ "onclick" := "savePDF(); location.href='//dl.sci-hub.se/nature12373?download=true'; return false" ]}),
         (skipn 6 (soup_tags Scenario2.button_page)).
  split; [reflexivity|]. split.
  - apply download_button_search. vm_compute. auto.
  - intros t' target' Hin H. apply download_button_search in H as (Hname & Hpdf & _).
    cbn in Hin. destruct Hin as [<-|[<-|[<-|[<-|[<-|[]]]]]];
      (discriminate Hname || (vm_compute in Hpdf; discriminate Hpdf)).
Qed.

(** The button of this page navigates to the download and comes before the
    anchor, and the code returns the target of the anchor: the script of the
    button does not mention a PDF. *)
Lemma get_pdf_url_skips_plain_button :
  exists body button anchor,
    soup_tags Scenario2.plain_button_page = [body; button; anchor]
    /\ tag_name button = "button"
    /\ Resolver.navigates (default "" (tag_attrs button !! "onclick"))
         "/downloads/nature12373"
    /\ tag_name anchor = "a"
    /\ fst (SciHub._get_pdf_url (Scenario2.serving Scenario2.plain_button_page)
              (SciHub.init None None 30) "10.1038/nature12373" Scenario.start)
       = Ret (Some "https://sci-hub.se/about/nature12373.pdf").
Proof.
  do 3 eexists. split; [reflexivity|]. split; [reflexivity|].
  split; [apply search_navigates; vm_compute; reflexivity|].
  split; [reflexivity|]. vm_compute. reflexivity.
Qed.

Lemma extract_pdf_url_cases_witness :
  Semantic._extract_pdf_url
    (PDict {[ "url" := PStr "";
              "disclaimer" := PStr "Notice: see https://arxiv.org/abs/2106.15928, or (https://doi.org/10.1000/182)" ]})
  = Ret (PStr "https://arxiv.org/pdf/2106.15928.pdf").
Proof.
  exact (proj1 (proj2 (extract_pdf_url_cases
                         {[ "url" := PStr "";
                            "disclaimer" := PStr "Notice: see https://arxiv.org/abs/2106.15928, or (https://doi.org/10.1000/182)" ]}))
               _ eq_refl eq_refl).
Defined.

(** * Further properties of the code *)

(** ** File names *)

Lemma startswith_char (c x : ascii) (s : string) :
  Py.startswith (String c "") (String x s) = Ascii.eqb c x.
Proof. cbn [Py.startswith]. apply andb_true_r. Qed.

Lemma contains_char_cons (c x : ascii) (s : string) :
  Py.contains (String c "") (String x s)
  = Ascii.eqb c x || Py.contains (String c "") s.
Proof. cbn [Py.contains]. rewrite startswith_char. reflexivity. Qed.

Lemma contains_char_app (c : ascii) (a b : string) :
  Py.contains (String c "") (a ++ b)
  = Py.contains (String c "") a || Py.contains (String c "") b.
Proof.
  induction a as [|x a IH].
  - rewrite app_empty_l. reflexivity.
  - rewrite app_cons, !contains_char_cons, IH. apply orb_assoc.
Qed.

Lemma sub_unsafe_filename_chars (s : string) (c : ascii) :
  In c (list_ascii_of_string (Re.sub_unsafe_filename s)) ->
  Re.unsafe_filename_char c = false.
Proof.
  induction s as [|x s IH]; cbn [Re.sub_unsafe_filename list_ascii_of_string];
    [intros []|].
  intros [<-|Hin]; [|exact (IH Hin)].
  destruct (Re.unsafe_filename_char x) eqn:Hx; [reflexivity | exact Hx].
Qed.

Lemma no_unsafe_char_not_contained (c : ascii) (s : string) :
  Re.unsafe_filename_char c = true ->
  (forall x, In x (list_ascii_of_string s) -> Re.unsafe_filename_char x = false) ->
  Py.contains (String c "") s = false.
Proof.
  intros Hc. induction s as [|x s IH]; intros Hs; [reflexivity|].
  rewrite contains_char_cons, IH by (intros y Hy; apply Hs; right; exact Hy).
  destruct (Ascii.eqb_spec c x) as [<-|]; [|reflexivity].
  rewrite (Hs c) in Hc by (left; reflexivity). discriminate Hc.
Qed.

Lemma take_contains_char (c : ascii) (n : nat) (s : string) :
  Py.contains (String c "") s = false ->
  Py.contains (String c "") (Py.take n s) = false.
Proof.
  unfold Py.take. revert n. induction s as [|x s IH]; intros n H.
  - destruct n; reflexivity.
  - destruct n as [|n]; [reflexivity|].
    rewrite contains_char_cons in H. apply orb_false_elim in H as [Hx Hs].
    cbn [String.substring]. rewrite contains_char_cons, Hx. exact (IH n Hs).
Qed.

Lemma string_rev_onto_app (acc a b : string) :
  Py.string_rev_onto acc (a ++ b) = Py.string_rev_onto (Py.string_rev_onto acc a) b.
Proof.
  revert acc. induction a as [|x a IH]; intros acc; [reflexivity|].
  rewrite app_cons. cbn [Py.string_rev_onto]. apply IH.
Qed.

Lemma string_rev_onto_acc (acc s : string) :
  Py.string_rev_onto acc s = Py.string_rev_onto "" s ++ acc.
Proof.
  revert acc. induction s as [|x s IH]; intros acc; [reflexivity|].
  cbn [Py.string_rev_onto]. rewrite (IH (String x acc)), (IH (String x "")).
  rewrite string_app_assoc. reflexivity.
Qed.

Lemma endswith_app (a p : string) : Py.endswith p (a ++ p) = true.
Proof.
  unfold Py.endswith.
  rewrite string_rev_onto_app, (string_rev_onto_acc (Py.string_rev_onto "" a) p).
  apply startswith_app.
Qed.

(** The file name [_generate_filename] builds.  Cleaning the DOI keeps its
    length, leaves only letters, digits, [_], [-] and [.], in particular no
    path separator, and cleaning twice changes nothing more.  The name begins
    with [scihub_], ends with [.pdf], and holds no path separator when the
    digest holds none. *)
Theorem generate_filename_safe (E : Env) (doi : string) (r : response) :
  String.length (Re.sub_unsafe_filename doi) = String.length doi
  /\ Re.sub_unsafe_filename (Re.sub_unsafe_filename doi) = Re.sub_unsafe_filename doi
  /\ (forall c, In c (list_ascii_of_string (Re.sub_unsafe_filename doi)) ->
        Re.unsafe_filename_char c = false)
  /\ Py.contains "/" (Re.sub_unsafe_filename doi) = false
  /\ Py.startswith "scihub_" (SciHub._generate_filename E doi r) = true
  /\ Py.endswith ".pdf" (SciHub._generate_filename E doi r) = true
  /\ (Py.contains "/" (env_md5_hexdigest E (content r)) = false ->
      Py.contains "/" (SciHub._generate_filename E doi r) = false).
Proof.
  assert (Hclean : Py.contains "/" (Re.sub_unsafe_filename doi) = false).
  { apply no_unsafe_char_not_contained; [reflexivity|].
    intros x. apply sub_unsafe_filename_chars. }
  split; [|split; [|split; [|split; [|split; [|split]]]]].
  - clear Hclean. induction doi as [|x s IH]; [reflexivity|].
    cbn [Re.sub_unsafe_filename String.length]. rewrite IH. reflexivity.
  - clear Hclean. induction doi as [|x s IH]; [reflexivity|].
    cbn [Re.sub_unsafe_filename]. rewrite IH. f_equal.
    destruct (Re.unsafe_filename_char x) eqn:Hx; [reflexivity|].
    rewrite Hx. reflexivity.
  - intros c. apply sub_unsafe_filename_chars.
  - exact Hclean.
  - unfold SciHub._generate_filename. cbv zeta. apply startswith_app.
  - unfold SciHub._generate_filename. cbv zeta.
    rewrite <- !string_app_assoc. apply endswith_app.
  - intros Hdigest. unfold SciHub._generate_filename. cbv zeta.
    rewrite !contains_char_app, Hclean, (take_contains_char _ 6 _ Hdigest).
    reflexivity.
Qed.

Lemma replace_char_step (a x : ascii) (new s : string) :
  Py.replace (String a "") new (String x s)
  = if Ascii.eqb a x then new ++ Py.replace (String a "") new s
    else String x (Py.replace (String a "") new s).
Proof.
  unfold Py.replace. cbn [Py.replace_from]. rewrite startswith_char. reflexivity.
Qed.

(** Replacing a character removes it, when the replacement does not bring it
    back. *)
Lemma replace_char_removes (a : ascii) (new s : string) :
  Py.contains (String a "") new = false ->
  Py.contains (String a "") (Py.replace (String a "") new s) = false.
Proof.
  intros Hnew. induction s as [|x s IH]; [reflexivity|].
  rewrite replace_char_step. destruct (Ascii.eqb a x) eqn:Hax.
  - rewrite contains_char_app, Hnew, IH. reflexivity.
  - rewrite contains_char_cons, Hax, IH. reflexivity.
Qed.

(** Replacing one character does not bring in another one. *)
Lemma replace_char_keeps_absent (a b : ascii) (new s : string) :
  Py.contains (String b "") new = false ->
  Py.contains (String b "") s = false ->
  Py.contains (String b "") (Py.replace (String a "") new s) = false.
Proof.
  intros Hnew. induction s as [|x s IH]; intros Hs; [reflexivity|].
  rewrite contains_char_cons in Hs. apply orb_false_elim in Hs as [Hbx Hs].
  rewrite replace_char_step. destruct (Ascii.eqb a x).
  - rewrite contains_char_app, Hnew, (IH Hs). reflexivity.
  - rewrite contains_char_cons, Hbx, (IH Hs). reflexivity.
Qed.

Lemma replace_absent (old new s : string) :
  Py.contains old s = false -> Py.replace old new s = s.
Proof.
  unfold Py.replace. induction s as [|x s IH]; intros H; [reflexivity|].
  cbn [Py.contains] in H. apply orb_false_elim in H as [Hhere Hlater].
  cbn [Py.replace_from]. rewrite Hhere, (IH Hlater). reflexivity.
Qed.

(** ** The mirror's base URL *)

Lemma string_rev_nonempty (s : string) :
  Py.nonempty (Py.string_rev_onto "" s) = Py.nonempty s.
Proof.
  destruct s as [|x s]; [reflexivity|].
  cbn [Py.string_rev_onto]. rewrite string_rev_onto_acc.
  destruct (Py.string_rev_onto "" s); reflexivity.
Qed.

Lemma endswith_char_cons (x c : ascii) (s : string) :
  Py.endswith (String x "") (String c s)
  = if Py.nonempty s then Py.endswith (String x "") s else Ascii.eqb x c.
Proof.
  unfold Py.endswith. cbn [Py.string_rev_onto].
  rewrite (string_rev_onto_acc (String c "") s), <- (string_rev_nonempty s).
  destruct (Py.string_rev_onto "" s) as [|y r].
  - rewrite app_empty_l. apply startswith_char.
  - rewrite app_cons, !startswith_char. reflexivity.
Qed.

Lemma rstrip_char_not_endswith (x : ascii) (s : string) :
  Py.endswith (String x "") (Py.rstrip_char x s) = false.
Proof.
  induction s as [|c s IH]; [reflexivity|].
  cbn [Py.rstrip_char]. destruct (Py.nonempty (Py.rstrip_char x s)) eqn:Hr; cbn [negb andb].
  - rewrite endswith_char_cons, Hr. exact IH.
  - destruct (Ascii.eqb_spec c x) as [->|Hne]; [reflexivity|].
    rewrite endswith_char_cons, Hr.
    destruct (Ascii.eqb_spec x c) as [->|]; [contradiction | reflexivity].
Qed.

(** The base URL of a fetcher never ends with a slash.  It is the URL given
    to the constructor when that is not empty, else the environment variable
    when that is not empty, else the first mirror of the list; trailing
    slashes are dropped. *)
Theorem init_base_url (base environ : option string) (timeout : Z) :
  let self := SciHub.init base environ timeout in
  Py.endswith "/" (SciHub.base_url self) = false
  /\ (forall s, base = Some s -> Py.nonempty s = true ->
        SciHub.base_url self = Py.rstrip_char "/" s)
  /\ (forall s, base = None \/ base = Some "" ->
        environ = Some s -> Py.nonempty s = true ->
        SciHub.base_url self = Py.rstrip_char "/" s)
  /\ (base = None \/ base = Some "" -> environ = None \/ environ = Some "" ->
      SciHub.base_url self = "https://sci-hub.se").
Proof.
  cbv zeta. split; [|split; [|split]].
  - apply rstrip_char_not_endswith.
  - intros s -> Hs. unfold SciHub.init. cbn [SciHub.base_url]. rewrite Hs. reflexivity.
  - intros s Hbase -> Hs. unfold SciHub.init. cbn [SciHub.base_url]. rewrite Hs.
    destruct Hbase as [->| ->]; reflexivity.
  - intros [->| ->] [->| ->]; reflexivity.
Qed.

(** With a base URL that is not empty and does not begin with a slash, a
    normalised URL never begins with a slash, and normalising it again
    changes nothing. *)
Theorem normalize_url_absolute (self : SciHub.fetcher) (url : string) :
  Py.nonempty (SciHub.base_url self) = true ->
  Py.startswith "/" (SciHub.base_url self) = false ->
  Py.startswith "/" (SciHub._normalize_url self url) = false
  /\ SciHub._normalize_url self (SciHub._normalize_url self url)
     = SciHub._normalize_url self url.
Proof.
  intros Hnonempty Hbase.
  assert (Hdouble : forall u, Py.startswith "/" u = false -> Py.startswith "//" u = false).
  { intros [|c u] H; [reflexivity|]. cbn [Py.startswith] in H |- *.
    destruct (Ascii.eqb "/" c); [discriminate H | reflexivity]. }
  assert (Hfirst : Py.startswith "/" (SciHub._normalize_url self url) = false).
  { unfold SciHub._normalize_url.
    destruct (Py.startswith "//" url); [reflexivity|].
    destruct (Py.startswith "/" url) eqn:Hurl; [|exact Hurl].
    destruct (SciHub.base_url self) as [|c b]; [discriminate Hnonempty|].
    rewrite app_cons. rewrite startswith_char in Hbase |- *. exact Hbase. }
  split; [exact Hfirst|].
  unfold SciHub._normalize_url at 1. rewrite (Hdouble _ Hfirst), Hfirst. reflexivity.
Qed.

Lemma normalize_url_absolute_witness :
  let self := SciHub.init None None 30 in
  Py.startswith "/" (SciHub._normalize_url self "/downloads/nature12373.pdf") = false
  /\ SciHub._normalize_url self (SciHub._normalize_url self "/downloads/nature12373.pdf")
     = SciHub._normalize_url self "/downloads/nature12373.pdf".
Proof.
  exact (normalize_url_absolute (SciHub.init None None 30)
           "/downloads/nature12373.pdf" eq_refl eq_refl).
Defined.

(** ** arXiv links *)

(** An arXiv abstract link among the URLs of a disclaimer is chosen and comes
    back as the PDF link of the same paper. *)
Theorem arxiv_abstract_link_to_pdf (id : string) (rest : list string) :
  Py.contains "/abs/" id = false ->
  Semantic.preferred_url (("https://arxiv.org/abs/" ++ id) :: rest)
  = Some ("https://arxiv.org/pdf/" ++ id ++ ".pdf").
Proof.
  intros Hid. cbn [Semantic.preferred_url].
  assert (Hdomain : Py.contains "arxiv.org" ("https://arxiv.org/abs/" ++ id) = true).
  { apply (contains_app "https://" "arxiv.org" ("/abs/" ++ id)). }
  assert (Habs : Py.contains "arxiv.org/abs/" ("https://arxiv.org/abs/" ++ id) = true).
  { apply (contains_app "https://" "arxiv.org/abs/" id). }
  assert (Hreplace : Py.replace "/abs/" "/pdf/" ("https://arxiv.org/abs/" ++ id)
                     = "https://arxiv.org/pdf/" ++ Py.replace "/abs/" "/pdf/" id).
  { vm_compute. reflexivity. }
  rewrite Hdomain, orb_true_r, Habs, Hreplace, (replace_absent _ _ _ Hid).
  rewrite string_app_assoc. reflexivity.
Qed.

Lemma arxiv_abstract_link_to_pdf_witness :
  Semantic.preferred_url
    (("https://arxiv.org/abs/" ++ "2106.15928") :: ["https://example.org/license"])
  = Some ("https://arxiv.org/pdf/" ++ "2106.15928" ++ ".pdf").
Proof.
  exact (arxiv_abstract_link_to_pdf "2106.15928" ["https://example.org/license"] eq_refl).
Defined.

(** ** What computations raise *)

Lemma raises_ret {A} (a : A) (P : exn -> Prop) : Retry.raises_only (ret a) P.
Proof. intros w e w' H. discriminate H. Qed.

Lemma raises_raise {A} (e : exn) (P : exn -> Prop) :
  P e -> Retry.raises_only (@raise A e) P.
Proof. intros HP w e' w' H. injection H as <- _. exact HP. Qed.

Lemma raises_lift {A} (o : outcome A) (P : exn -> Prop) :
  (forall e, o = Raise e -> P e) -> Retry.raises_only (lift o) P.
Proof. intros HP w e w' H. injection H as Ho _. apply HP, Ho. Qed.

Lemma raises_bind {A B} (m : M A) (k : A -> M B) (P : exn -> Prop) :
  Retry.raises_only m P -> (forall a, Retry.raises_only (k a) P) ->
  Retry.raises_only (bind m k) P.
Proof.
  intros Hm Hk w e w' H. unfold bind in H.
  destruct (m w) as [[a|e0] w1] eqn:Hmw.
  - eapply Hk, H.
  - injection H as <- _. eapply Hm, Hmw.
Qed.

Lemma raises_try_catch {A} (m : M A) (h : exn -> option (M A)) (P : exn -> Prop) :
  (forall e, match h e with
             | Some handler => Retry.raises_only handler P
             | None => Retry.raises_only m (fun e' => e' = e -> P e)
             end) ->
  Retry.raises_only (try_catch m h) P.
Proof.
  intros Hh w e w' H. unfold try_catch in H.
  destruct (m w) as [[a|e0] w1] eqn:Hmw; [discriminate H|].
  specialize (Hh e0). destruct (h e0) as [handler|].
  - eapply Hh, H.
  - injection H as <- _. exact (Hh w e0 w1 Hmw eq_refl).
Qed.

Lemma raises_time_sleep (site : sleep_site) (d : Q) (P : exn -> Prop) :
  Retry.raises_only (time_sleep site d) P.
Proof. intros w e w' H. discriminate H. Qed.

Lemma raises_time_sleep_backoff (site : sleep_site) (d : Q) (P : exn -> Prop) :
  P (Exn OverflowError "timestamp too large to convert to C _PyTime_t") ->
  Retry.raises_only (time_sleep_backoff site d) P.
Proof.
  intros HP. unfold time_sleep_backoff.
  destruct (Qle_bool d TIME_SLEEP_MAX); [apply raises_time_sleep | apply raises_raise, HP].
Qed.

Lemma raises_time_time (E : Env) (P : exn -> Prop) : Retry.raises_only (time_time E) P.
Proof. intros w e w' H. discriminate H. Qed.

Lemma raises_rate_limit_wait (E : Env) (self : Semantic.searcher) (P : exn -> Prop) :
  Retry.raises_only (Semantic._rate_limit_wait E self) P.
Proof.
  intros w e w' H. destruct (rate_limit_wait_run E self w) as (evs & t & Hrun & _).
  rewrite Hrun in H. discriminate H.
Qed.

Lemma raises_nested_call {A} (E : Env) (depth : Z) (m : M A) (P : exn -> Prop) :
  Retry.raises_only m P ->
  P (Exn RecursionError "maximum recursion depth exceeded") ->
  Retry.raises_only (nested_call E depth m) P.
Proof.
  intros Hm HP. unfold nested_call.
  destruct (depth <=? env_stack_room E); [exact Hm | apply raises_raise, HP].
Qed.

(** [_make_request] lets no exception of [requests] out. *)
Lemma make_request_raises_other (E : Env) (self : Semantic.searcher)
    (endpoint : string) (params : list (string * pyval)) :
  forall (n : nat) (retry_count : Z),
    (Z.to_nat (Semantic.max_retries self - retry_count) <= n)%nat ->
    Retry.raises_only (Semantic._make_request E self endpoint params retry_count)
      (fun e => is_RequestException e = false).
Proof.
  induction n as [|n IH]; intros retry_count Hn;
    rewrite Semantic._make_request_equation_1.
  all: apply raises_bind; [apply raises_rate_limit_wait|]; intros _; cbv zeta.
  all: apply raises_try_catch; intros e;
    destruct (is_RequestException e) eqn:He;
    [|intros w e' w' _ ->; first [exact He | reflexivity]].
  all: destruct (Z_lt_dec retry_count (Semantic.max_retries self)) as [Hlt|Hge];
    [|apply raises_ret].
  all: try lia.
  cbv zeta. apply raises_bind; [apply raises_time_sleep_backoff; reflexivity|]. intros _.
  apply raises_nested_call; [apply IH; lia | reflexivity].
Qed.

Lemma make_request_raises_other_any (E : Env) (self : Semantic.searcher)
    (endpoint : string) (params : list (string * pyval)) (retry_count : Z) :
  Retry.raises_only (Semantic._make_request E self endpoint params retry_count)
    (fun e => is_RequestException e = false).
Proof. eapply make_request_raises_other. reflexivity. Qed.

(** A handler of [requests] exceptions around a computation that raises
    none of them does nothing. *)
Lemma handler_idle {A} (m : M A) (handler : M A) (w : world) :
  Retry.raises_only m (fun e => is_RequestException e = false) ->
  match m w with
  | (Ret a, w') => (Ret a, w')
  | (Raise e, w') =>
      match (if is_RequestException e then Some handler else None) with
      | Some h => h w'
      | None => (Raise e, w')
      end
  end = m w.
Proof.
  intros H. specialize (H w).
  destruct (m w) as [[a|e] w'] eqn:Hrun; [reflexivity|].
  rewrite (H e w' eq_refl). reflexivity.
Qed.

Lemma nested_make_request_raises_other (E : Env) (self : Semantic.searcher)
    (endpoint : string) (params : list (string * pyval)) (retry_count : Z) :
  Retry.raises_only
    (nested_call E retry_count (Semantic._make_request E self endpoint params retry_count))
    (fun e => is_RequestException e = false).
Proof.
  apply raises_nested_call; [apply make_request_raises_other_any | reflexivity].
Qed.

(** ** One attempt of [_make_request] *)

(** A retry: the backoff sleep, then the nested call. *)
Lemma backoff_retry_raises_other (E : Env) (self : Semantic.searcher)
    (endpoint : string) (params : list (string * pyval)) (retry_count : Z)
    (site : sleep_site) (d : Q) :
  Retry.raises_only
    (bind (time_sleep_backoff site d)
       (fun _ => nested_call E retry_count
                   (Semantic._make_request E self endpoint params retry_count)))
    (fun e => is_RequestException e = false).
Proof.
  apply raises_bind; [apply raises_time_sleep_backoff; reflexivity|]. intros _.
  apply nested_make_request_raises_other.
Qed.

(** What [_make_request] does with the answer to its request: it returns,
    raises, or sleeps and makes the nested call for the next retry. *)
Lemma make_request_step (E : Env) (self : Semantic.searcher)
    (endpoint : string) (params : list (string * pyval)) (retry_count : Z) (w : world) :
  let u := Semantic.BASE_URL ++ "/" ++ endpoint in
  let run := Semantic._make_request E self endpoint params in
  exists evs0 t0,
    Forall Backoff.pacing evs0 /\
    let w1 := World (EvGet u params :: evs0 ++ trace w) (files w) t0 in
    let again (before : list event) (site : sleep_site) (d : Q) :=
      (retry_count < Semantic.max_retries self
       /\ run retry_count w
          = bind (time_sleep_backoff site d)
              (fun _ => nested_call E (retry_count + 1) (run (retry_count + 1)))
              (World (before ++ trace w1) (files w) t0))
      \/ (~ retry_count < Semantic.max_retries self
          /\ run retry_count w = (Ret None, w1)) in
    match env_get E (evs0 ++ trace w)%list u params with
    | Ret r =>
        if status_code r =? 429
        then again [EvTime (env_time E (trace w1))] Backoff429
               (Float.add (2 ^ retry_count) (Semantic.mod1 (env_time E (trace w1))))
        else if response_ok r then run retry_count w = (Ret (Some r), w1)
             else again [] BackoffError (2 ^ retry_count)%Q
    | Raise e =>
        if is_RequestException e
        then again [] BackoffError (2 ^ retry_count)%Q
        else run retry_count w = (Raise e, w1)
    end.
Proof.
  cbv zeta.
  destruct (rate_limit_wait_run E self w) as (evs0 & t0 & Hwait & Hpacing).
  exists evs0, t0. split; [exact Hpacing|].
  remember (Semantic._make_request E self endpoint params retry_count w)
    as result eqn:Hres.
  rewrite Semantic._make_request_equation_1 in Hres.
  unfold bind at 1 in Hres. rewrite Hwait in Hres. cbv zeta in Hres.
  unfold try_catch, bind, session_get, time_time, log in Hres.
  cbn [trace files last_request_time] in Hres.
  revert Hres.
  destruct (env_get E (evs0 ++ trace w)%list (Semantic.BASE_URL ++ "/" ++ endpoint) params)
    as [r|e].
  - destruct (status_code r =? 429).
    + destruct (Z_lt_dec retry_count (Semantic.max_retries self)) as [Hlt|Hge];
        intros ->.
      * left. split; [exact Hlt|].
        apply (handler_idle
                 (bind (time_sleep_backoff Backoff429 _)
                    (fun _ => nested_call E (retry_count + 1)
                                (Semantic._make_request E self endpoint params
                                   (retry_count + 1))))).
        apply backoff_retry_raises_other.
      * right. split; [exact Hge | reflexivity].
    + unfold Semantic.raise_for_status, response_ok.
      destruct (_ && _); cbn [negb]; [|intros ->; reflexivity].
      unfold raise. cbn [is_RequestException exn_cls].
      destruct (Z_lt_dec retry_count (Semantic.max_retries self)) as [Hlt|Hge];
        intros ->.
      * left. split; [exact Hlt | reflexivity].
      * right. split; [exact Hge | reflexivity].
  - destruct (is_RequestException e); [|intros ->; reflexivity].
    destruct (Z_lt_dec retry_count (Semantic.max_retries self)) as [Hlt|Hge];
      intros ->.
    + left. split; [exact Hlt | reflexivity].
    + right. split; [exact Hge | reflexivity].
Qed.

(** ** Pacing *)

(** [_rate_limit_wait] returns, touches no file and sends nothing; the time
    it sleeps tops the time elapsed since the last request up to the minimum
    interval, and it does not sleep when the interval has passed already.
    The clock reading it ends with becomes the time of the last request. *)
Theorem rate_limit_wait_paces (E : Env) (self : Semantic.searcher) (w : world) :
  exists evs,
    let elapsed := (env_time E (trace w) - last_request_time w)%Q in
    Semantic._rate_limit_wait E self w
    = (Ret tt, World (EvTime (env_time E (evs ++ trace w)) :: evs ++ trace w)%list
                     (files w) (env_time E (evs ++ trace w)%list))
    /\ Forall Backoff.pacing evs
    /\ (0 <= Retry.paced evs)%Q
    /\ (Semantic.min_request_interval self <= elapsed + Retry.paced evs)%Q
    /\ ((Semantic.min_request_interval self <= elapsed)%Q -> Retry.paced evs == 0).
Proof.
  unfold Semantic._rate_limit_wait, bind, time_time, time_sleep, ret, log.
  cbn [trace files last_request_time].
  destruct (Qlt_le_dec _ _) as [Hlt|Hle]; cbn [trace files last_request_time].
  - eexists [_; _]. cbv zeta. split; [reflexivity|].
    split; [repeat constructor|]. unfold Retry.paced. cbn [omap list_omap fold_right].
    repeat split; try lra.
  - eexists [_]. cbv zeta. split; [reflexivity|].
    split; [repeat constructor|]. unfold Retry.paced. cbn [omap list_omap fold_right].
    repeat split; try lra.
Qed.

(** ** Requests in every environment *)

Lemma pacing_request_event (u : string) (p : list (string * pyval)) (evs : list event) :
  Forall Backoff.pacing evs -> Forall (Retry.request_event u p) evs.
Proof.
  intros H. eapply Forall_impl; [exact H|].
  intros [| | [] | | | | |]; cbn; intros Hev; try contradiction; exact I.
Qed.

Lemma backoff_retry_cases {A} (E : Env) (site : sleep_site) (d : Q) (depth : Z)
    (m : M A) (w : world) :
  (depth <= env_stack_room E
   /\ bind (time_sleep_backoff site d) (fun _ => nested_call E depth m) w
      = m (log (EvSleep site d) w))
  \/ (env_stack_room E < depth
      /\ bind (time_sleep_backoff site d) (fun _ => nested_call E depth m) w
         = (Raise (Exn RecursionError "maximum recursion depth exceeded"),
            log (EvSleep site d) w))
  \/ ((TIME_SLEEP_MAX < d)%Q
      /\ bind (time_sleep_backoff site d) (fun _ => nested_call E depth m) w
         = (Raise (Exn OverflowError "timestamp too large to convert to C _PyTime_t"),
            w)).
Proof.
  unfold bind, time_sleep_backoff, nested_call.
  destruct (Qle_bool d TIME_SLEEP_MAX) eqn:Hd.
  - unfold time_sleep.
    destruct (Z.leb_spec depth (env_stack_room E)); [left | right; left]; auto.
  - right. right. split; [|reflexivity].
    destruct (Qlt_le_dec TIME_SLEEP_MAX d) as [Hlt|Hle]; [exact Hlt|].
    apply Qle_bool_iff in Hle. rewrite Hle in Hd. discriminate Hd.
Qed.

(** The attempt seen from outside: either [_make_request] stops after this
    request, or a retry is left; then, after a backoff sleep, it carries on
    as the next one when the nested call fits the stack, and raises
    [RecursionError] when it does not; when [time.sleep] refuses the wait, it
    raises [OverflowError] without sleeping. *)
Lemma make_request_cases (E : Env) (self : Semantic.searcher)
    (endpoint : string) (params : list (string * pyval)) (retry_count : Z) (w : world) :
  let u := Semantic.BASE_URL ++ "/" ++ endpoint in
  let run := Semantic._make_request E self endpoint params in
  exists evs0 t0,
    Forall Backoff.pacing evs0 /\
    let answer := env_get E (evs0 ++ trace w)%list u params in
    let sent := (EvGet u params :: evs0 ++ trace w)%list in
    ((exists o,
        run retry_count w = (o, World sent (files w) t0)
        /\ match o with
           | Ret (Some r) => answer = Ret r /\ response_ok r = true
           | Ret None =>
               ~ retry_count < Semantic.max_retries self
               /\ ((exists r, answer = Ret r /\ response_ok r = false)
                   \/ (exists e, answer = Raise e /\ is_RequestException e = true))
           | Raise e => answer = Raise e /\ is_RequestException e = false
           end)
     \/ (retry_count < Semantic.max_retries self
         /\ exists pre,
              ((retry_count + 1 <= env_stack_room E
                /\ run retry_count w
                   = run (retry_count + 1) (World (pre ++ sent)%list (files w) t0))
               \/ (env_stack_room E < retry_count + 1
                   /\ run retry_count w
                      = (Raise (Exn RecursionError "maximum recursion depth exceeded"),
                         World (pre ++ sent)%list (files w) t0))
               \/ (exists site d before,
                     pre = EvSleep site d :: before
                     /\ (TIME_SLEEP_MAX < d)%Q
                     /\ run retry_count w
                        = (Raise (Exn OverflowError
                                    "timestamp too large to convert to C _PyTime_t"),
                           World (before ++ sent)%list (files w) t0)))
              /\ ((exists r jitter,
                     answer = Ret r /\ status_code r = 429
                     /\ (0 <= jitter)%Q /\ (jitter < 1)%Q
                     /\ pre = [EvSleep Backoff429 (Float.add (2 ^ retry_count) jitter);
                               EvTime (env_time E sent)])
                  \/ (pre = [EvSleep BackoffError (2 ^ retry_count)]
                      /\ ((exists e, answer = Raise e /\ is_RequestException e = true)
                          \/ (exists r, answer = Ret r /\ response_ok r = false
                                        /\ status_code r <> 429)))))).
Proof.
  cbv zeta.
  destruct (make_request_step E self endpoint params retry_count w)
    as (evs0 & t0 & Hpacing & Hstep).
  exists evs0, t0. split; [exact Hpacing|]. cbv zeta in Hstep.
  cbn [trace] in Hstep.
  assert (Hnested : forall site d before w2,
            w2 = World (before ++ EvGet (Semantic.BASE_URL ++ "/" ++ endpoint) params
                          :: evs0 ++ trace w)%list (files w) t0 ->
            Semantic._make_request E self endpoint params retry_count w
            = bind (time_sleep_backoff site d)
                (fun _ => nested_call E (retry_count + 1)
                            (Semantic._make_request E self endpoint params
                               (retry_count + 1))) w2 ->
            (retry_count + 1 <= env_stack_room E
             /\ Semantic._make_request E self endpoint params retry_count w
                = Semantic._make_request E self endpoint params (retry_count + 1)
                    (World ((EvSleep site d :: before)
                              ++ EvGet (Semantic.BASE_URL ++ "/" ++ endpoint) params
                              :: evs0 ++ trace w)%list (files w) t0))
            \/ (env_stack_room E < retry_count + 1
                /\ Semantic._make_request E self endpoint params retry_count w
                   = (Raise (Exn RecursionError "maximum recursion depth exceeded"),
                      World ((EvSleep site d :: before)
                               ++ EvGet (Semantic.BASE_URL ++ "/" ++ endpoint) params
                               :: evs0 ++ trace w)%list (files w) t0))
            \/ (exists site' d' before',
                  EvSleep site d :: before = EvSleep site' d' :: before'
                  /\ (TIME_SLEEP_MAX < d')%Q
                  /\ Semantic._make_request E self endpoint params retry_count w
                     = (Raise (Exn OverflowError
                                 "timestamp too large to convert to C _PyTime_t"),
                        World (before' ++ EvGet (Semantic.BASE_URL ++ "/" ++ endpoint) params
                                 :: evs0 ++ trace w)%list (files w) t0))).
  { intros site d before w2 -> Hrun.
    destruct (backoff_retry_cases E site d (retry_count + 1)
                (Semantic._make_request E self endpoint params (retry_count + 1))
                (World (before ++ EvGet (Semantic.BASE_URL ++ "/" ++ endpoint) params
                          :: evs0 ++ trace w)%list (files w) t0))
      as [[Hfit Heq]|[[Hfull Heq]|[Hbig Heq]]]; rewrite Heq in Hrun.
    - left. split; [exact Hfit | exact Hrun].
    - right. left. split; [exact Hfull | exact Hrun].
    - right. right. exists site, d, before. auto. }
  destruct (env_get E (evs0 ++ trace w)%list (Semantic.BASE_URL ++ "/" ++ endpoint) params)
    as [r|e] eqn:Hanswer.
  - destruct (Z.eqb_spec (status_code r) 429) as [H429|H429].
    + destruct Hstep as [[Hlt Hrun]|[Hge Hrun]].
      * right. split; [exact Hlt|]. eexists.
        split; [exact (Hnested _ _ _ _ eq_refl Hrun)|]. left.
        destruct (mod1_bounds (env_time E (EvGet (Semantic.BASE_URL ++ "/" ++ endpoint)
                                              params :: evs0 ++ trace w)%list)) as [Hlo Hhi].
        exists r, (Semantic.mod1 (env_time E (EvGet (Semantic.BASE_URL ++ "/" ++ endpoint)
                                             params :: evs0 ++ trace w)%list)).
        repeat split; assumption.
      * left. exists (Ret None). split; [exact Hrun|]. split; [exact Hge|].
        left. exists r. split; [reflexivity|]. unfold response_ok. rewrite H429.
        reflexivity.
    + destruct (response_ok r) eqn:Hok.
      * left. exists (Ret (Some r)). split; [exact Hstep|]. split; [reflexivity | exact Hok].
      * destruct Hstep as [[Hlt Hrun]|[Hge Hrun]].
        -- right. split; [exact Hlt|]. eexists.
           split; [exact (Hnested _ _ [] _ eq_refl Hrun)|]. right.
           split; [reflexivity|]. right. exists r. repeat split; assumption.
        -- left. exists (Ret None). split; [exact Hrun|]. split; [exact Hge|].
           left. exists r. split; [reflexivity | exact Hok].
  - destruct (is_RequestException e) eqn:He.
    + destruct Hstep as [[Hlt Hrun]|[Hge Hrun]].
      * right. split; [exact Hlt|]. eexists.
        split; [exact (Hnested _ _ [] _ eq_refl Hrun)|]. right.
        split; [reflexivity|]. left. exists e. split; [reflexivity | exact He].
      * left. exists (Ret None). split; [exact Hrun|]. split; [exact Hge|].
        right. exists e. split; [reflexivity | exact He].
    + left. exists (Raise e). split; [exact Hstep|]. split; [reflexivity | exact He].
Qed.

Lemma attempts_sent (u : string) (p : list (string * pyval)) (pre evs evs0 : list event) :
  Forall Backoff.pacing evs0 ->
  Backoff.attempts (evs ++ pre ++ EvGet u p :: evs0)
  = (Backoff.attempts evs + Backoff.attempts pre + 1)%nat.
Proof.
  intros Hpacing. destruct (pacing_silent evs0 Hpacing) as [Ha0 _].
  change (EvGet u p :: evs0) with ([EvGet u p] ++ evs0)%list.
  rewrite !attempts_app, Ha0. cbn. lia.
Qed.

Lemma attempts_first (u : string) (p : list (string * pyval)) (evs0 : list event) :
  Forall Backoff.pacing evs0 -> Backoff.attempts (EvGet u p :: evs0) = 1%nat.
Proof. intros H. exact (attempts_sent u p [] [] evs0 H). Qed.

(** The run of [_make_request] in any environment.  An exception that
    leaves it was raised by the network, or is the [RecursionError] of a
    retry that did not fit the stack, or the [OverflowError] of a wait that
    [time.sleep] refused. *)
Lemma make_request_run_bounded (E : Env) (self : Semantic.searcher)
    (endpoint : string) (params : list (string * pyval)) :
  forall (n : nat) (retry_count : Z) (w : world),
    0 <= retry_count ->
    (Z.to_nat (Semantic.max_retries self - retry_count) <= n)%nat ->
    exists evs o w',
      Semantic._make_request E self endpoint params retry_count w = (o, w')
      /\ trace w' = (evs ++ trace w)%list
      /\ files w' = files w
      /\ Forall (Retry.request_event (Semantic.BASE_URL ++ "/" ++ endpoint) params) evs
      /\ (1 <= Backoff.attempts evs <= S n)%nat
      /\ (forall e, o = Raise e ->
            is_RequestException e = false
            /\ ((exists tr, env_get E tr (Semantic.BASE_URL ++ "/" ++ endpoint) params
                            = Raise e)
                \/ (exn_cls e = RecursionError
                    /\ env_stack_room E < Semantic.max_retries self)
                \/ (exn_cls e = OverflowError
                    /\ (TIME_SLEEP_MAX < 2 ^ Semantic.max_retries self)%Q))).
Proof.
  induction n as [|n IH]; intros retry_count w Hrc Hn;
    destruct (make_request_cases E self endpoint params retry_count w)
      as (evs0 & t0 & Hpacing & [(o & Hrun & Ho)|(Hlt & pre & Hnext & Hpre)]);
    cbv zeta in *; try lia.
  1, 2: exists (EvGet (Semantic.BASE_URL ++ "/" ++ endpoint) params :: evs0), o,
      (World (EvGet (Semantic.BASE_URL ++ "/" ++ endpoint) params :: evs0 ++ trace w)%list
             (files w) t0);
    (split; [exact Hrun|]); (split; [reflexivity|]); (split; [reflexivity|]);
    (split; [constructor; [split; reflexivity
                          | exact (pacing_request_event _ _ _ Hpacing)]|]);
    (split; [rewrite (attempts_first _ _ evs0 Hpacing); lia|]);
    intros e ->; destruct Ho as [Hanswer He]; (split; [exact He | eauto]).
  assert (Hpre' : Forall (Retry.request_event (Semantic.BASE_URL ++ "/" ++ endpoint) params) pre
                  /\ Backoff.attempts pre = 0%nat
                  /\ forall site d before, pre = EvSleep site d :: before ->
                       (TIME_SLEEP_MAX < d)%Q ->
                       (TIME_SLEEP_MAX < 2 ^ Semantic.max_retries self)%Q).
  { destruct Hpre as [(r & j & _ & _ & Hlo & Hhi & ->)|[-> _]];
      (split; [repeat constructor|]); (split; [reflexivity|]);
      intros site d before Heq Hbig; injection Heq as _ <- _;
      destruct (Qlt_le_dec TIME_SLEEP_MAX (2 ^ Semantic.max_retries self)) as [Hlt'|Hle];
      try exact Hlt'; exfalso.
    - pose proof (backoff_429_fits (Semantic.max_retries self) retry_count j Hle
                    ltac:(lia) Hlo Hhi). lra.
    - pose proof (backoff_error_fits (Semantic.max_retries self) retry_count Hle Hlt).
      lra. }
  destruct Hpre' as (Hpre1 & Hpre2 & Hpre3).
  destruct Hnext as [[Hfit Hrun]|[[Hfull Hrun]|(site & d & before & Hshape & Hbig & Hrun)]].
  - destruct (IH (retry_count + 1)
                 (World (pre ++ EvGet (Semantic.BASE_URL ++ "/" ++ endpoint) params
                           :: evs0 ++ trace w)%list (files w) t0) ltac:(lia) ltac:(lia))
      as (evs & o & w' & H1 & H2 & H3 & H4 & H5 & H6).
    cbn [trace files] in H2, H3.
    exists (evs ++ pre ++ EvGet (Semantic.BASE_URL ++ "/" ++ endpoint) params :: evs0)%list,
      o, w'.
    split; [rewrite Hrun; exact H1|].
    split; [rewrite H2, <- !app_assoc; reflexivity|].
    split; [exact H3|].
    split; [apply Forall_app; split; [exact H4|];
            apply Forall_app; split; [exact Hpre1|];
            constructor; [split; reflexivity
                         | exact (pacing_request_event _ _ _ Hpacing)]|].
    split; [|exact H6].
    rewrite (attempts_sent _ _ pre evs evs0 Hpacing), Hpre2. lia.
  - exists (pre ++ EvGet (Semantic.BASE_URL ++ "/" ++ endpoint) params :: evs0)%list.
    eexists _, _. split; [exact Hrun|].
    split; [cbn [trace]; rewrite <- app_assoc; reflexivity|].
    split; [reflexivity|].
    split; [apply Forall_app; split; [exact Hpre1|];
            constructor; [split; reflexivity
                         | exact (pacing_request_event _ _ _ Hpacing)]|].
    split; [rewrite attempts_app, Hpre2,
              (attempts_first (Semantic.BASE_URL ++ "/" ++ endpoint) params evs0 Hpacing);
            lia|].
    intros e He. injection He as <-. split; [reflexivity|]. right. left.
    split; [reflexivity | lia].
  - pose proof (Hpre3 site d before Hshape Hbig) as Hlimit.
    assert (Hbefore : Forall (Retry.request_event (Semantic.BASE_URL ++ "/" ++ endpoint)
                                params) before
                      /\ Backoff.attempts before = 0%nat).
    { subst pre. apply Forall_cons_1 in Hpre1 as [_ Hpre1]. split; [exact Hpre1|].
      change (EvSleep site d :: before) with ([EvSleep site d] ++ before)%list in Hpre2.
      rewrite attempts_app in Hpre2. cbn in Hpre2. exact Hpre2. }
    destruct Hbefore as [Hbefore1 Hbefore2].
    exists (before ++ EvGet (Semantic.BASE_URL ++ "/" ++ endpoint) params :: evs0)%list.
    eexists _, _. split; [exact Hrun|].
    split; [cbn [trace]; rewrite <- app_assoc; reflexivity|].
    split; [reflexivity|].
    split; [apply Forall_app; split; [exact Hbefore1|];
            constructor; [split; reflexivity
                         | exact (pacing_request_event _ _ _ Hpacing)]|].
    split; [rewrite attempts_app, Hbefore2,
              (attempts_first (Semantic.BASE_URL ++ "/" ++ endpoint) params evs0 Hpacing);
            lia|].
    intros e He. injection He as <-. split; [reflexivity|]. right. right.
    split; [reflexivity | exact Hlimit].
Qed.

(** In every environment [_make_request] sends its request at least once and
    at most [1 + max_retries] times, to one URL with one set of parameters;
    besides that it only reads the clock and sleeps, and it leaves the files
    alone.  No exception of [requests] leaves it.  When the retries stay
    within the limits of the interpreter, it returns whenever the network
    raises nothing else. *)
Theorem make_request_bounded (E : Env) (self : Semantic.searcher)
    (endpoint : string) (params : list (string * pyval)) (w : world) :
  let out := Semantic._make_request E self endpoint params 0 w in
  exists evs,
    trace (snd out) = (evs ++ trace w)%list
    /\ files (snd out) = files w
    /\ Forall (Retry.request_event (Semantic.BASE_URL ++ "/" ++ endpoint) params) evs
    /\ (1 <= Backoff.attempts evs <= S (Z.to_nat (Semantic.max_retries self)))%nat
    /\ (forall e, fst out = Raise e -> is_RequestException e = false)
    /\ (Retry.requests_errors_only E -> Retry.within_limits E self ->
        exists found, fst out = Ret found).
Proof.
  cbv zeta.
  destruct (make_request_run_bounded E self endpoint params
              (Z.to_nat (Semantic.max_retries self)) 0 w ltac:(lia) ltac:(lia))
    as (evs & o & w' & Hrun & Htrace & Hfiles & Hevents & Hattempts & Hraise).
  exists evs. rewrite Hrun. cbn [fst snd].
  split; [exact Htrace|]. split; [exact Hfiles|]. split; [exact Hevents|].
  split; [exact Hattempts|]. split.
  - intros e ->. apply (Hraise e eq_refl).
  - intros Honly [Hroom Hsleep]. destruct o as [found|e]; [eauto|].
    destruct (Hraise e eq_refl) as (He & [(tr & Hanswer)|[(_ & Hfull)|(_ & Hbig)]]);
      [|lia|lra].
    rewrite (Honly _ _ _ _ Hanswer) in He. discriminate He.
Qed.

(** ** Requests that keep failing *)

Lemma waits_error_app (a b : list event) :
  Retry.waits_error (a ++ b) = (Retry.waits_error b ++ Retry.waits_error a)%list.
Proof. unfold Retry.waits_error. rewrite omap_app, rev_app_distr. reflexivity. Qed.

Lemma pacing_no_error_wait (evs : list event) :
  Forall Backoff.pacing evs -> Retry.waits_error evs = [].
Proof.
  induction 1 as [|ev evs Hev _ IH]; [reflexivity|].
  change (ev :: evs) with ([ev] ++ evs)%list. rewrite waits_error_app, IH.
  destruct ev as [| | [] | | | | |]; cbn in Hev; try contradiction; reflexivity.
Qed.

Lemma make_request_failing_run (E : Env) (self : Semantic.searcher)
    (endpoint : string) (params : list (string * pyval)) :
  Retry.always_failing E ->
  Retry.within_limits E self ->
  forall (n : nat) (retry_count : Z) (w : world),
    n = Z.to_nat (Semantic.max_retries self - retry_count) ->
    exists evs w',
      Semantic._make_request E self endpoint params retry_count w = (Ret None, w')
      /\ trace w' = (evs ++ trace w)%list
      /\ Backoff.attempts evs = S n
      /\ Retry.waits_error evs = Retry.powers_of_two retry_count n
      /\ Backoff.waits_429 evs = [].
Proof.
  intros Hfail [Hroom Hsleep]. induction n as [|n IH]; intros retry_count w Hn;
    destruct (make_request_cases E self endpoint params retry_count w)
      as (evs0 & t0 & Hpacing & [(o & Hrun & Ho)|(Hlt & pre & Hnext & Hpre)]);
    cbv zeta in *; try lia;
    destruct (pacing_silent evs0 Hpacing) as [_ Hw0];
    pose proof (pacing_no_error_wait evs0 Hpacing) as He0;
    pose proof (Hfail (evs0 ++ trace w)%list (Semantic.BASE_URL ++ "/" ++ endpoint)
                  params) as Hanswer.
  - (* the last attempt *)
    destruct o as [[r'|]|e'].
    + destruct Ho as [Hr Hok'].
      destruct Hanswer as [(e & He & _)|(r & Hr' & Hok & _)]; rewrite Hr in *;
        [discriminate He|]. injection Hr' as <-. rewrite Hok in Hok'. discriminate Hok'.
    + eexists (_ :: evs0), _. split; [exact Hrun|]. split; [reflexivity|].
      split; [apply attempts_first, Hpacing|].
      change (EvGet ?a ?b :: evs0) with ([EvGet a b] ++ evs0)%list.
      rewrite waits_error_app, waits_429_app, He0, Hw0. split; reflexivity.
    + destruct Ho as [Hr He'].
      destruct Hanswer as [(e & He & Hreq)|(r & Hr' & _)]; rewrite Hr in *;
        [|discriminate Hr']. injection He as <-. rewrite Hreq in He'. discriminate He'.
  - (* a retry is left, so the run does not stop here *)
    exfalso. destruct o as [[r'|]|e'].
    + destruct Ho as [Hr Hok'].
      destruct Hanswer as [(e & He & _)|(r & Hr' & Hok & _)]; rewrite Hr in *;
        [discriminate He|]. injection Hr' as <-. rewrite Hok in Hok'. discriminate Hok'.
    + destruct Ho as [Hge _]. lia.
    + destruct Ho as [Hr He'].
      destruct Hanswer as [(e & He & Hreq)|(r & Hr' & _)]; rewrite Hr in *;
        [|discriminate Hr']. injection He as <-. rewrite Hreq in He'. discriminate He'.
  - assert (Hpre' : pre = [EvSleep BackoffError (2 ^ retry_count)]).
    { destruct Hpre as [(r' & j & Hr & H429 & _)|[-> _]]; [|reflexivity].
      destruct Hanswer as [(e & He & _)|(r & Hr' & _ & Hstatus)]; rewrite Hr in *;
        [discriminate He|]. injection Hr' as <-. contradiction. }
    subst pre.
    destruct Hnext as [[_ Hrun]|[[Hfull _]|(site & d & before & Heq & Hbig & _)]];
      [|lia|].
    2: { exfalso. injection Heq as _ <- _.
         pose proof (backoff_error_fits (Semantic.max_retries self) retry_count
                       Hsleep Hlt). lra. }
    destruct (IH (retry_count + 1)
                 (World ([EvSleep BackoffError (2 ^ retry_count)]
                           ++ EvGet (Semantic.BASE_URL ++ "/" ++ endpoint) params
                           :: evs0 ++ trace w)%list (files w) t0) ltac:(lia))
      as (evs & w' & H1 & H2 & H3 & H4 & H5).
    cbn [trace] in H2.
    exists (evs ++ [EvSleep BackoffError (2 ^ retry_count)]
              ++ EvGet (Semantic.BASE_URL ++ "/" ++ endpoint) params :: evs0)%list, w'.
    split; [rewrite Hrun; exact H1|].
    split; [rewrite H2, <- !app_assoc; reflexivity|].
    split; [rewrite (attempts_sent _ _ _ evs evs0 Hpacing), H3; cbn; lia|].
    change (EvGet ?a ?b :: evs0) with ([EvGet a b] ++ evs0)%list.
    rewrite !waits_error_app, !waits_429_app, He0, Hw0, H4, H5.
    split; reflexivity.
Qed.

Lemma powers_of_two_bounded (k : Z) (n : nat) (top : Z) :
  0 <= k -> k + Z.of_nat n <= top ->
  Forall (fun d => (d <= 2 ^ top)%Q) (Retry.powers_of_two k n).
Proof.
  revert k. induction n as [|n IH]; intros k Hk Htop; [constructor|].
  cbn [Retry.powers_of_two]. constructor.
  - apply Qpower_le_compat_l; [lia | lra].
  - apply IH; lia.
Qed.

(** When every request fails, by an exception of [requests] or by an error
    status other than 429, and the retries stay within the limits of the
    interpreter, [_make_request] returns [None] after the first attempt and
    [max_retries] retries, having waited 1, 2, 4, ... seconds before them,
    without jitter; every wait is a duration [time.sleep] accepts. *)
Theorem make_request_network_down (E : Env) (self : Semantic.searcher)
    (endpoint : string) (params : list (string * pyval)) (w : world) :
  Retry.always_failing E ->
  Retry.within_limits E self ->
  exists evs,
    let out := Semantic._make_request E self endpoint params 0 w in
    fst out = Ret None
    /\ trace (snd out) = (evs ++ trace w)%list
    /\ Backoff.attempts evs = S (Z.to_nat (Semantic.max_retries self))
    /\ Retry.waits_error evs
       = Retry.powers_of_two 0 (Z.to_nat (Semantic.max_retries self))
    /\ Forall (fun d => (d <= TIME_SLEEP_MAX)%Q) (Retry.waits_error evs)
    /\ Backoff.waits_429 evs = [].
Proof.
  intros Hfail Hlimits. pose proof Hlimits as [Hroom Hsleep].
  destruct (make_request_failing_run E self endpoint params Hfail Hlimits
              (Z.to_nat (Semantic.max_retries self)) 0 w ltac:(f_equal; lia))
    as (evs & w' & Hrun & H2 & H3 & H4 & H5).
  exists evs. cbv zeta. rewrite Hrun. cbn [fst snd].
  split; [reflexivity|]. split; [exact H2|]. split; [exact H3|].
  split; [exact H4|]. split; [|exact H5].
  rewrite H4. destruct (Z.le_gt_cases 0 (Semantic.max_retries self)) as [Hpos|Hneg].
  - eapply Forall_impl;
      [apply (powers_of_two_bounded 0 _ (Semantic.max_retries self)); lia|].
    intros d Hd. cbn beta in Hd. eapply Qle_trans; [exact Hd | exact Hsleep].
  - replace (Z.to_nat (Semantic.max_retries self)) with 0%nat by lia. constructor.
Qed.

Lemma offline_always_failing : Retry.always_failing Scenario.offline.
Proof. intros tr u p. left. eexists. split; reflexivity. Defined.

Lemma offline_within_limits :
  Retry.within_limits Scenario.offline (Semantic.init None None 30 3).
Proof. split; vm_compute; discriminate. Defined.

Lemma make_request_network_down_witness :
  exists evs,
    let out := Semantic._make_request Scenario.offline (Semantic.init None None 30 3)
                 "paper/search" [] 0 Scenario.start in
    fst out = Ret None
    /\ trace (snd out) = (evs ++ trace Scenario.start)%list
    /\ Backoff.attempts evs = 4%nat
    /\ Retry.waits_error evs = [1; 2; 4]%Q
    /\ Forall (fun d => (d <= TIME_SLEEP_MAX)%Q) (Retry.waits_error evs)
    /\ Backoff.waits_429 evs = [].
Proof.
  exact (make_request_network_down Scenario.offline (Semantic.init None None 30 3)
           "paper/search" [] Scenario.start offline_always_failing
           offline_within_limits).
Defined.

(** ** Recovery from rate limiting *)

Lemma make_request_recovering_run (E : Env) (self : Semantic.searcher)
    (endpoint : string) (params : list (string * pyval)) (r : response) (total : nat) :
  let u := Semantic.BASE_URL ++ "/" ++ endpoint in
  (forall tr, (Backoff.attempts tr < total)%nat ->
     exists r', env_get E tr u params = Ret r' /\ status_code r' = 429) ->
  (forall tr, Backoff.attempts tr = total -> env_get E tr u params = Ret r) ->
  response_ok r = true ->
  Retry.within_limits E self ->
  forall (k : nat) (retry_count : Z) (w : world),
    0 <= retry_count ->
    (Backoff.attempts (trace w) + k)%nat = total ->
    retry_count + Z.of_nat k <= Semantic.max_retries self ->
    exists evs w',
      Semantic._make_request E self endpoint params retry_count w = (Ret (Some r), w')
      /\ trace w' = (evs ++ trace w)%list
      /\ Backoff.attempts evs = S k
      /\ length (Backoff.waits_429 evs) = k
      /\ Backoff.exponential retry_count (Backoff.waits_429 evs)
      /\ Retry.waits_error evs = [].
Proof.
  cbv zeta. intros H429 Hgood Hok [Hroom Hsleep].
  assert (Hnot429 : status_code r <> 429).
  { intros H. unfold response_ok in Hok. rewrite H in Hok. discriminate Hok. }
  induction k as [|k IH]; intros retry_count w Hrc Htotal Hbudget;
    destruct (make_request_cases E self endpoint params retry_count w)
      as (evs0 & t0 & Hpacing & Hcases);
    cbv zeta in Hcases;
    destruct (pacing_silent evs0 Hpacing) as [Ha0 Hw0];
    pose proof (pacing_no_error_wait evs0 Hpacing) as He0;
    assert (Hseen : Backoff.attempts (evs0 ++ trace w) = Backoff.attempts (trace w))
      by (rewrite attempts_app, Ha0; reflexivity).
  - (* the good answer *)
    rewrite (Hgood (evs0 ++ trace w)%list ltac:(lia)) in Hcases.
    destruct Hcases as [(o & Hrun & Ho)|(_ & pre & _ & Hpre)].
    + destruct o as [[r'|]|e'].
      * destruct Ho as [Hr _]. injection Hr as <-.
        eexists (_ :: evs0), _. split; [exact Hrun|]. split; [reflexivity|].
        split; [apply attempts_first, Hpacing|].
        change (EvGet ?a ?b :: evs0) with ([EvGet a b] ++ evs0)%list.
        rewrite waits_error_app, waits_429_app, He0, Hw0.
        repeat split; constructor.
      * exfalso. destruct Ho as [_ [(r' & Hr & Hbad)|(e & He & _)]];
          [|discriminate He]. injection Hr as <-. rewrite Hok in Hbad. discriminate Hbad.
      * destruct Ho as [Hr _]. discriminate Hr.
    + exfalso.
      destruct Hpre as [(r' & j & Hr & Hs & _)|[_ [(e & He & _)|(r' & Hr & Hbad & _)]]].
      * injection Hr as <-. contradiction.
      * discriminate He.
      * injection Hr as <-. rewrite Hok in Hbad. discriminate Hbad.
  - (* one more 429 *)
    destruct (H429 (evs0 ++ trace w)%list ltac:(lia)) as (r429 & Hanswer & Hstatus).
    rewrite Hanswer in Hcases.
    assert (Hbad : response_ok r429 = false)
      by (unfold response_ok; rewrite Hstatus; reflexivity).
    destruct Hcases as [(o & Hrun & Ho)|(Hlt & pre & Hnext & Hpre)].
    + exfalso. destruct o as [[r'|]|e'].
      * destruct Ho as [Hr Hok']. injection Hr as <-. rewrite Hbad in Hok'.
        discriminate Hok'.
      * destruct Ho as [Hge _]. lia.
      * destruct Ho as [Hr _]. discriminate Hr.
    + destruct Hpre as [(r' & j & _ & _ & Hlo & Hhi & ->)
                       |[_ [(e & He & _)|(r' & Hr & _ & Hs)]]].
      * destruct Hnext as [[_ Hrun]|[[Hfull _]|(site & d & before & Heq & Hbig & _)]];
          [|lia|].
        2: { exfalso. injection Heq as _ <- _.
             pose proof (backoff_429_fits (Semantic.max_retries self) retry_count j
                           Hsleep ltac:(lia) Hlo Hhi). lra. }
        destruct (IH (retry_count + 1)
                     (World ([EvSleep Backoff429 (Float.add (2 ^ retry_count) j);
                              EvTime (env_time E (EvGet (Semantic.BASE_URL ++ "/" ++ endpoint)
                                                    params :: evs0 ++ trace w)%list)]
                               ++ EvGet (Semantic.BASE_URL ++ "/" ++ endpoint) params
                               :: evs0 ++ trace w)%list (files w) t0))
          as (evs & w' & H1 & H2 & H3 & H4 & H5 & H6).
        { lia. }
        { cbn [trace]. rewrite attempts_app.
          change (EvGet ?x ?y :: evs0 ++ trace w)%list
            with ([EvGet x y] ++ evs0 ++ trace w)%list.
          rewrite attempts_app, Hseen. cbn. lia. }
        { lia. }
        cbn [trace] in H2.
        eexists (evs ++ [_; _] ++ EvGet (Semantic.BASE_URL ++ "/" ++ endpoint) params
                   :: evs0)%list, w'.
        split; [rewrite Hrun; exact H1|].
        split; [rewrite H2, <- !app_assoc; reflexivity|].
        split; [rewrite (attempts_sent _ _ _ evs evs0 Hpacing), H3; cbn; lia|].
        change (EvGet ?a ?b :: evs0) with ([EvGet a b] ++ evs0)%list.
        rewrite !waits_error_app, !waits_429_app, He0, Hw0, H6.
        cbn [app]. change (Backoff.waits_429 [EvSleep Backoff429 ?d; ?t]) with [d].
        change (Backoff.waits_429 [EvGet ?a ?b]) with (@nil Q). cbn [app length].
        rewrite H4. split; [reflexivity|]. split; [|reflexivity].
        constructor; assumption.
      * exfalso. discriminate He.
      * exfalso. injection Hr as <-. contradiction.
Qed.

(** When the first [k] answers are 429 and the next one is a good response,
    with [k] at most [max_retries] and the retries within the limits of the
    interpreter, [_make_request] returns that response after [k] retries.
    The wait before the i-th retry is the floating-point sum of [2^i] and a
    jitter in [0, 1): it lies between [2^i] and [2^i + 1] and is a duration
    [time.sleep] accepts. *)
Theorem make_request_recovers (E : Env) (self : Semantic.searcher)
    (endpoint : string) (params : list (string * pyval)) (w : world)
    (r : response) (k : nat) :
  (forall tr, (Backoff.attempts tr < Backoff.attempts (trace w) + k)%nat ->
     exists r', env_get E tr (Semantic.BASE_URL ++ "/" ++ endpoint) params = Ret r'
                /\ status_code r' = 429) ->
  (forall tr, Backoff.attempts tr = (Backoff.attempts (trace w) + k)%nat ->
     env_get E tr (Semantic.BASE_URL ++ "/" ++ endpoint) params = Ret r) ->
  response_ok r = true ->
  Z.of_nat k <= Semantic.max_retries self ->
  Retry.within_limits E self ->
  exists evs,
    let out := Semantic._make_request E self endpoint params 0 w in
    fst out = Ret (Some r)
    /\ trace (snd out) = (evs ++ trace w)%list
    /\ Backoff.retries evs = k
    /\ length (Backoff.waits_429 evs) = k
    /\ Backoff.exponential 0 (Backoff.waits_429 evs)
    /\ (forall i d, Backoff.waits_429 evs !! i = Some d ->
          (2 ^ Z.of_nat i <= d)%Q /\ (d <= 2 ^ Z.of_nat i + 1)%Q
          /\ (d <= TIME_SLEEP_MAX)%Q)
    /\ Retry.waits_error evs = [].
Proof.
  intros H429 Hgood Hok Hk Hlimits. pose proof Hlimits as [Hroom Hsleep].
  destruct (make_request_recovering_run E self endpoint params r
              (Backoff.attempts (trace w) + k) H429 Hgood Hok Hlimits k 0 w
              ltac:(lia) eq_refl ltac:(lia))
    as (evs & w' & Hrun & H2 & H3 & H4 & H5 & H6).
  exists evs. cbv zeta. rewrite Hrun. cbn [fst snd]. unfold Backoff.retries.
  rewrite H3. split; [reflexivity|]. split; [exact H2|]. split; [lia|].
  split; [exact H4|]. split; [exact H5|]. split; [|exact H6].
  intros i d Hi.
  destruct (exponential_nth 0 _ ltac:(lia) H5 i d Hi)
    as (jitter & _ & _ & _ & Hdlo & Hdhi).
  rewrite Z.add_0_l in Hdlo, Hdhi. split; [exact Hdlo|]. split; [exact Hdhi|].
  apply lookup_lt_Some in Hi. rewrite H4 in Hi.
  destruct (pow2_step (Z.of_nat i) ltac:(lia)) as [Hstep Hone].
  assert (Hnext : (2 ^ (Z.of_nat i + 1) <= 2 ^ Semantic.max_retries self)%Q).
  { apply Qpower_le_compat_l; [lia | lra]. }
  set (next := (2 ^ (Z.of_nat i + 1))%Q) in *.
  set (this := (2 ^ Z.of_nat i)%Q) in *.
  set (top := (2 ^ Semantic.max_retries self)%Q) in *. lra.
Qed.

Lemma busy_then_ready_busy (tr : list event) :
  (Backoff.attempts tr < Backoff.attempts (trace Scenario.start) + 2)%nat ->
  exists r', env_get Scenario2.busy_then_ready tr
               (Semantic.BASE_URL ++ "/" ++ "paper/ARXIV:1805.02262") [] = Ret r'
             /\ status_code r' = 429.
Proof.
  intros H. cbn. destruct (Nat.leb_spec (Backoff.attempts tr) 1) as [_|Hge].
  - eexists. split; reflexivity.
  - cbn in H. lia.
Defined.

Lemma busy_then_ready_ready (tr : list event) :
  Backoff.attempts tr = (Backoff.attempts (trace Scenario.start) + 2)%nat ->
  env_get Scenario2.busy_then_ready tr
    (Semantic.BASE_URL ++ "/" ++ "paper/ARXIV:1805.02262") []
  = Ret (Scenario.json Scenario.paper_record).
Proof. intros H. cbn in H |- *. rewrite H. reflexivity. Defined.

Lemma busy_then_ready_within_limits :
  Retry.within_limits Scenario2.busy_then_ready (Semantic.init None None 30 3).
Proof. split; vm_compute; discriminate. Defined.

Lemma make_request_recovers_witness :
  exists evs,
    let out := Semantic._make_request Scenario2.busy_then_ready
                 (Semantic.init None None 30 3) "paper/ARXIV:1805.02262" [] 0
                 Scenario.start in
    fst out = Ret (Some (Scenario.json Scenario.paper_record))
    /\ trace (snd out) = (evs ++ trace Scenario.start)%list
    /\ Backoff.retries evs = 2%nat
    /\ length (Backoff.waits_429 evs) = 2%nat
    /\ Backoff.exponential 0 (Backoff.waits_429 evs)
    /\ (forall i d, Backoff.waits_429 evs !! i = Some d ->
          (2 ^ Z.of_nat i <= d)%Q /\ (d <= 2 ^ Z.of_nat i + 1)%Q
          /\ (d <= TIME_SLEEP_MAX)%Q)
    /\ Retry.waits_error evs = [].
Proof.
  exact (make_request_recovers Scenario2.busy_then_ready (Semantic.init None None 30 3)
           "paper/ARXIV:1805.02262" [] Scenario.start
           (Scenario.json Scenario.paper_record) 2
           busy_then_ready_busy busy_then_ready_ready eq_refl ltac:(cbn; lia)
           busy_then_ready_within_limits).
Defined.

(** ** Paper records *)

Lemma author_names_of_dicts (authors : list (gmap string pyval)) :
  Semantic.author_names (PDict <$> authors) = Ret (omap Record.name_of authors).
Proof.
  induction authors as [|a rest IH]; [reflexivity|].
  cbn [fmap list_fmap Semantic.author_names py_get obind omap list_omap].
  change (list_fmap _ _ PDict rest) with (PDict <$> rest).
  unfold Record.name_of at 1.
  destruct (a !! "name") as [v|]; cbn [truthy].
  - destruct (truthy v); [|exact IH]. rewrite IH. reflexivity.
  - exact IH.
Qed.

(** How [_parse_paper] fills the fields of a [Paper] from a well-formed
    record: the identifier as it is; the non-empty author names in order; the
    DOI from [externalIds]; title "Untitled", empty abstract and URL when
    absent; no categories and no citations when absent or null; the source
    tag "semantic". *)
Theorem parse_paper_fields (E : Env) (d : gmap string pyval) (pid : pyval)
    (entries : list (gmap string pyval)) (ids : gmap string pyval)
    (pdf : pyval) (date : option datetime) :
  d !! "paperId" = Some pid -> truthy pid = true ->
  default (PList []) (d !! "authors") = PList (PDict <$> entries) ->
  py_or (default (PDict ∅) (d !! "externalIds")) (PDict ∅) = PDict ids ->
  Semantic._extract_pdf_url (default PNone (d !! "openAccessPdf")) = Ret pdf ->
  Semantic._parse_date E (default (PStr "") (d !! "publicationDate")) = Ret date ->
  Semantic._parse_paper E (PDict d)
  = Some {| paper_id := pid;
            title := default (PStr "Untitled") (d !! "title");
            authors := omap Record.name_of entries;
            abstract := default (PStr "") (d !! "abstract");
            url := default (PStr "") (d !! "url");
            pdf_url := pdf;
            published_date := date;
            source := "semantic";
            categories := py_or (default (PList []) (d !! "fieldsOfStudy")) (PList []);
            doi := default (PStr "") (ids !! "DOI");
            citations := py_or (default (PInt 0) (d !! "citationCount")) (PInt 0) |}.
Proof.
  intros Hid Hpid Hauthors Hids Hpdf Hdate.
  assert (Hget : forall key dflt,
             py_get (PDict d) key dflt = Ret (default dflt (d !! key))).
  { intros key dflt. cbn [py_get]. destruct (d !! key); reflexivity. }
  unfold Semantic._parse_paper. cbv zeta.
  rewrite !Hget, Hid. cbn [default from_option id obind]. rewrite Hpid. cbn [negb].
  rewrite Hauthors. cbn [py_iter obind]. rewrite author_names_of_dicts. cbn [obind].
  rewrite Hids. cbn [py_get obind]. rewrite Hpdf. cbn [obind]. rewrite Hdate.
  cbn [obind]. destruct (ids !! "DOI"); reflexivity.
Qed.

Lemma parse_paper_fields_witness :
  Semantic._parse_paper Scenario.library Scenario.paper_record
  = Some {| paper_id := PStr "649def34f8be52c8b66281af98ae884c09aef38b";
            title := PStr "Construction of the Literature Graph in Semantic Scholar";
            authors := [PStr "Waleed Ammar"; PStr "Dirk Groeneveld"];
            abstract := PStr "";
            url := PStr "https://www.semanticscholar.org/paper/649def34f8be52c8b66281af98ae884c09aef38b";
            pdf_url := PStr "https://arxiv.org/pdf/1805.02262.pdf";
            published_date := Some (Datetime 2018 5 6);
            source := "semantic";
            categories := PList [];
            doi := PStr "";
            citations := PInt 0 |}.
Proof.
  refine (parse_paper_fields Scenario.library _
            (PStr "649def34f8be52c8b66281af98ae884c09aef38b")
            [ {[ "authorId" := PStr "145585097"; "name" := PStr "Waleed Ammar" ]};
              {[ "name" := PStr "Dirk Groeneveld" ]} ]
            ∅ (PStr "https://arxiv.org/pdf/1805.02262.pdf") (Some (Datetime 2018 5 6))
            _ _ _ _ _ _); reflexivity.
Defined.

(** What [_parse_paper] rejects: a value that is not an object; a record
    whose identifier is missing or empty; a record with an author entry that
    is not an object; a record whose publication date is neither a string
    nor empty. *)
Theorem parse_paper_rejects (E : Env) :
  (forall data, (forall d, data <> PDict d) -> Semantic._parse_paper E data = None)
  /\ (forall d, truthy (default (PStr "") (d !! "paperId")) = false ->
        Semantic._parse_paper E (PDict d) = None)
  /\ (forall d before entry after,
        (forall a, entry <> PDict a) ->
        d !! "authors" = Some (PList ((PDict <$> before) ++ entry :: after)) ->
        Semantic._parse_paper E (PDict d) = None)
  /\ (forall d v,
        d !! "publicationDate" = Some v -> truthy v = true ->
        (forall s, v <> PStr s) ->
        Semantic._parse_paper E (PDict d) = None).
Proof.
  assert (Hget : forall d key dflt,
             py_get (PDict d) key dflt = Ret (default dflt (d !! key))).
  { intros d key dflt. cbn [py_get]. destruct (d !! key); reflexivity. }
  split; [|split; [|split]].
  - intros data Hdata. unfold Semantic._parse_paper. cbv zeta.
    destruct data as [| | | | |d]; try reflexivity. exfalso. exact (Hdata d eq_refl).
  - intros d Hid. unfold Semantic._parse_paper. cbv zeta. rewrite Hget. cbn [obind].
    rewrite Hid. reflexivity.
  - intros d before entry after Hentry Hauthors.
    unfold Semantic._parse_paper. cbv zeta. rewrite !Hget. cbn [obind].
    destruct (negb (truthy _)); [reflexivity|].
    rewrite Hauthors. cbn [default from_option id py_iter obind].
    assert (Hnames : exists e, Semantic.author_names ((PDict <$> before) ++ entry :: after)
                               = Raise e).
    { clear -Hentry. induction before as [|b before [e IH]].
      - cbn [fmap list_fmap app Semantic.author_names].
        destruct entry as [| | | | |a]; cbn [py_get obind]; eauto.
        exfalso. exact (Hentry a eq_refl).
      - cbn [fmap list_fmap app Semantic.author_names py_get obind].
        change (list_fmap _ _ PDict before) with (PDict <$> before).
        rewrite IH. destruct (truthy _); cbn [obind]; eauto. }
    destruct Hnames as [e ->]. reflexivity.
  - intros d v Hdate Hv Hnot. unfold Semantic._parse_paper. cbv zeta.
    rewrite !Hget. cbn [obind]. rewrite Hdate. cbn [default from_option id].
    assert (Hraise : exists e, Semantic._parse_date E v = Raise e).
    { unfold Semantic._parse_date. rewrite Hv. cbn [negb].
      destruct v as [| | |s| |]; cbn [Semantic.py_strip obind]; eauto.
      exfalso. exact (Hnot s eq_refl). }
    destruct Hraise as [e ->].
    repeat match goal with
           | |- context [obind ?o _] =>
               match o with
               | Raise _ => fail 1
               | _ => destruct o; cbn [obind]
               end
           | |- context [if ?c then _ else _] => destruct c
           end; reflexivity.
Qed.

(** ** Resolving and downloading from Sci-Hub *)

(** [_get_pdf_url] sends exactly one request, for the page of the DOI on the
    mirror, and changes nothing else.  It answers [None] when the request
    raises, when the status is not 200, when the page says that the article
    was not found, and when the page cannot be parsed. *)
Theorem get_pdf_url_one_request (E : Env) (self : SciHub.fetcher) (doi : string)
    (w : world) :
  let page_url := SciHub.base_url self ++ "/" ++ doi in
  let answer := env_get E (trace w) page_url [] in
  (exists found,
     SciHub._get_pdf_url E self doi w = (Ret found, log (EvGet page_url []) w))
  /\ (forall e, answer = Raise e -> fst (SciHub._get_pdf_url E self doi w) = Ret None)
  /\ (forall r, answer = Ret r -> status_code r <> 200 ->
        fst (SciHub._get_pdf_url E self doi w) = Ret None)
  /\ (forall r, answer = Ret r ->
        Py.contains "article not found" (Py.lower (text r)) = true ->
        fst (SciHub._get_pdf_url E self doi w) = Ret None)
  /\ (forall r e, answer = Ret r -> env_parse_html E (content r) = Raise e ->
        fst (SciHub._get_pdf_url E self doi w) = Ret None).
Proof.
  cbv zeta. unfold SciHub._get_pdf_url, try_catch, bind, session_get, lift, ret.
  cbn [is_Exception].
  destruct (env_get E (trace w) (SciHub.base_url self ++ "/" ++ doi) []) as [r|e].
  - destruct (Z.eqb_spec (status_code r) 200) as [Hstatus|Hstatus]; cbn [negb].
    + destruct (Py.contains "article not found" (Py.lower (text r))) eqn:Hmarker.
      * split; [eauto|]. repeat split; try discriminate; reflexivity.
      * destruct (env_parse_html E (content r)) as [page|e] eqn:Hparse.
        -- split; [eauto|]. repeat split; try discriminate.
           ++ intros r' Hr'. injection Hr' as <-. contradiction.
           ++ intros r' Hr'. injection Hr' as <-. rewrite Hmarker. discriminate.
           ++ intros r' e Hr'. injection Hr' as <-. rewrite Hparse. discriminate.
        -- split; [eauto|]. repeat split; try discriminate; reflexivity.
    + split; [eauto|]. repeat split; try discriminate; reflexivity.
  - split; [eauto|]. repeat split; try discriminate; reflexivity.
Qed.


Lemma network_calls_log (ev : event) (w : world) :
  network_calls (log ev w)
  = if is_network ev then ev :: network_calls w else network_calls w.
Proof. unfold network_calls, log. cbn [trace List.filter]. reflexivity. Qed.


(** A download from the mirror: the page is fetched, the PDF it embeds is
    fetched and saved. *)
Example scihub_download_saves :
  fst (SciHub.download_pdf Scenario.scihub (SciHub.init None None 30)
         " 10.1038/nature12373 " None Scenario.start)
  = Ret "/home/reader/paper_downloads/scihub_10.1038_nature12373_d41d8c.pdf"
  /\ files (snd (SciHub.download_pdf Scenario.scihub (SciHub.init None None 30)
                   " 10.1038/nature12373 " None Scenario.start))
       !! "/home/reader/paper_downloads/scihub_10.1038_nature12373_d41d8c.pdf"
     = Some "%PDF-1.4 stub".
Proof. vm_compute. split; reflexivity. Qed.

(** An answer with another status is not saved, whatever its body. *)
Example scihub_download_status :
  SciHub.download_pdf
    (Scenario.with_get
       (fun tr u p => if Py.startswith "https://sci-hub.se/" u
                      then env_get Scenario.scihub tr u p
                      else Ret (Scenario.plain 404 "%PDF-1.4 gone"))
       Scenario.scihub)
    (SciHub.init None None 30) "10.1038/nature12373" None Scenario.start
  = (Ret "Error: Download failed with status 404",
     World [ EvGet "https://moscow.sci-hub.se/2013/nature12373.pdf#view=FitH" [];
             EvGet "https://sci-hub.se/10.1038/nature12373" [];
             EvMkdir "/home/reader/paper_downloads" ] ∅ 0).
Proof. vm_compute. reflexivity. Qed.

(** An answer that is no PDF is not saved. *)
Example scihub_download_not_a_pdf :
  SciHub.download_pdf
    (Scenario.with_get (fun _ _ _ => Ret (Scenario.plain 200 "<html>")) Scenario.scihub)
    (SciHub.init None None 30) "10.1038/nature12373" None Scenario.start
  = (Ret "Error: Response is not a PDF (Content-Type: )",
     World [ EvGet "https://moscow.sci-hub.se/2013/nature12373.pdf#view=FitH" [];
             EvGet "https://sci-hub.se/10.1038/nature12373" [];
             EvMkdir "/home/reader/paper_downloads" ] ∅ 0).
Proof. vm_compute. reflexivity. Qed.

(** [_download_with_curl] always answers with a boolean: whatever [curl] does,
    times out, or whatever the URL is, no exception leaves the function.
    Without a [curl] executable it answers [False] and does nothing at all.
    It makes at most one call over the network, and the only file it can
    change is the one at [pdf_path]. *)
Theorem download_with_curl_never_raises (E : Env) (url : pyval) (pdf_path : string)
    (w : world) :
  let out := Semantic._download_with_curl E url pdf_path w in
  (exists ok, fst out = Ret ok)
  /\ (env_which_curl E (trace w) = false -> out = (Ret false, w))
  /\ (length (network_calls (snd out)) <= length (network_calls w) + 1)%nat
  /\ (forall path, path <> pdf_path -> files (snd out) !! path = files w !! path).
Proof.
  intros out. assert (Hout : out = Semantic._download_with_curl E url pdf_path w)
    by reflexivity.
  clearbody out. revert Hout.
  unfold Semantic._download_with_curl, bind, which_curl, try_catch, run_curl,
    path_exists, getsize, remove, ret, raise.
  destruct (env_which_curl E (trace w)); cbn [negb fst snd].
  2: { intros ->. cbn [fst snd]. split; [eauto|]. split; [reflexivity|].
       split; [lia|reflexivity]. }
  destruct url as [| | |u| |];
    cbn [fst snd is_TimeoutExpired is_Exception exn_cls];
    try (intros ->; cbn [fst snd]; split; [eauto|]; split; [discriminate|];
         split; [lia|reflexivity]).
  destruct (env_curl E (trace w) u pdf_path) as [rc err written|e]; cbn [fst snd].
  2: { destruct (is_TimeoutExpired e); intros ->; cbn [fst snd];
         (split; [eauto|]; split; [discriminate|];
          rewrite network_calls_log; cbn [is_network length files log];
          split; [lia|reflexivity]). }
  assert (Hframe : forall path, path <> pdf_path ->
            match written with
            | Some data => <[pdf_path := data]> (files w)
            | None => files w
            end !! path = files w !! path).
  { intros path Hne. destruct written; [|reflexivity].
    apply lookup_insert_ne. congruence. }
  set (after := match written with
                | Some data => <[pdf_path := data]> (files w)
                | None => files w
                end) in *.
  cbn [files trace last_request_time].
  destruct (rc =? 0); cbn [andb].
  2: { intros ->. cbn [fst snd files]. split; [eauto|]. split; [discriminate|].
       unfold network_calls. cbn [trace List.filter is_network length].
       split; [lia|exact Hframe]. }
  destruct (after !! pdf_path) as [data|] eqn:Hdata; cbn [fst snd files].
  2: { intros ->. cbn [fst snd files]. split; [eauto|]. split; [discriminate|].
       unfold network_calls. cbn [trace List.filter is_network length].
       split; [lia|exact Hframe]. }
  rewrite Hdata. cbn [fst snd].
  destruct (Z.of_nat (String.length data) >? 1000); cbn [fst snd files].
  - intros ->. cbn [fst snd files]. split; [eauto|]. split; [discriminate|].
    unfold network_calls. cbn [trace List.filter is_network length].
    split; [lia|exact Hframe].
  - rewrite Hdata. cbn [fst snd files trace last_request_time].
    intros ->. cbn [fst snd files]. split; [eauto|]. split; [discriminate|].
    unfold network_calls. cbn [trace List.filter is_network length].
    split; [lia|]. intros path Hne. rewrite lookup_delete_ne by congruence.
    apply Hframe, Hne.
Qed.

(** ** The download loop of [SemanticSearcher.download_pdf] *)

(** One turn of the loop: one request is sent, only the file at [pdf_path]
    can change, and the turn either returns the path of the written file,
    lets an exception that is not of [requests] through, or goes on with the
    next attempt. *)
Lemma download_attempts_step (E : Env) (self : Semantic.searcher) (url : pyval)
    (pdf_path : string) (attempt : Z) (rest : list Z) (w : world) :
  let run := Semantic.download_attempts E self url pdf_path in
  exists w1,
    (forall path, path <> pdf_path -> files w1 !! path = files w !! path)
    /\ network_calls w1 = EvGet (py_str E url) [] :: network_calls w
    /\ ((run (attempt :: rest) w = (Ret (Some pdf_path), w1)
         /\ exists r, env_get E (trace w) (py_str E url) [] = Ret r
                      /\ files w1 !! pdf_path = Some (content r))
        \/ (exists e, run (attempt :: rest) w = (Raise e, w1)
                      /\ is_RequestException e = false)
        \/ run (attempt :: rest) w = run rest w1).
Proof.
  cbv zeta.
  set (body := (response <- session_get E (py_str E url) [] ;;
                Semantic.raise_for_status response ;;
                Semantic.write_stream E pdf_path response ;;
                ret (Some pdf_path))).
  set (backoff := ((if attempt <? Semantic.max_retries self - 1
                    then time_sleep BackoffDownload (Qpower 2 attempt)
                    else ret tt) ;;
                   ret (@None string))).
  change (Semantic.download_attempts E self url pdf_path (attempt :: rest))
    with (returned <- try_catch body
                        (fun e => if is_Timeout e then Some backoff
                                  else if is_RequestException e then Some backoff
                                  else None) ;;
          match returned with
          | Some path => ret (Some path)
          | None => Semantic.download_attempts E self url pdf_path rest
          end).
  assert (Hbackoff : forall w0, exists w1,
            backoff w0 = (Ret None, w1) /\ files w1 = files w0
            /\ network_calls w1 = network_calls w0).
  { intros w0. unfold backoff, bind, time_sleep, ret.
    destruct (attempt <? _); eexists; (split; [reflexivity|]); split; reflexivity. }
  assert (Hbody : exists o w0,
            body w = (o, w0)
            /\ (forall path, path <> pdf_path -> files w0 !! path = files w !! path)
            /\ network_calls w0 = EvGet (py_str E url) [] :: network_calls w
            /\ match o with
               | Ret a => a = Some pdf_path
                          /\ exists r, env_get E (trace w) (py_str E url) [] = Ret r
                                       /\ files w0 !! pdf_path = Some (content r)
               | Raise _ => True
               end).
  { assert (Hsent : network_calls (World (EvGet (py_str E url) [] :: trace w) (files w)
                                      (last_request_time w))
                    = EvGet (py_str E url) [] :: network_calls w) by reflexivity.
    unfold body, bind, session_get, Semantic.raise_for_status, Semantic.write_stream,
      bind, write_file, ret, raise, log.
    destruct (env_get E (trace w) (py_str E url) []) as [r|e].
    2: { eexists _, _. split; [reflexivity|]. cbn [files]. repeat split. }
    destruct ((400 <=? status_code r) && (status_code r <? 600)).
    { eexists _, _. split; [reflexivity|]. cbn [files]. repeat split. }
    cbn [trace files last_request_time].
    destruct (env_write E (EvGet (py_str E url) [] :: trace w) pdf_path) as [e|].
    { eexists _, _. split; [reflexivity|]. cbn [files]. repeat split. }
    assert (Hframe : forall path, path <> pdf_path ->
              <[pdf_path := content r]> (files w) !! path = files w !! path).
    { intros path Hne. apply lookup_insert_ne. congruence. }
    destruct (stream_error r) as [e|].
    - eexists _, _. split; [reflexivity|]. cbn [files]. split; [exact Hframe|].
      split; [exact Hsent|exact I].
    - eexists _, _. split; [reflexivity|]. cbn [files]. split; [exact Hframe|].
      split; [exact Hsent|]. split; [reflexivity|]. exists r.
      split; [reflexivity|]. apply lookup_insert_eq. }
  destruct Hbody as (o & w0 & Hrun & Hframe & Hcalls & Ho).
  assert (Heq : forall (h : exn -> option (M (option string)))
                       (k : option string -> M (option string)),
             (returned <- try_catch body h ;; k returned) w
             = match o with
               | Ret a => k a w0
               | Raise e => match h e with
                            | Some handler => (returned <- handler ;; k returned) w0
                            | None => (Raise e, w0)
                            end
               end).
  { intros h k. unfold bind, try_catch. rewrite Hrun.
    destruct o as [a|e]; [reflexivity|]. destruct (h e); reflexivity. }
  rewrite Heq. clear Heq.
  destruct o as [a|e].
  - destruct Ho as (-> & r & Hanswer & Hfile).
    exists w0. split; [exact Hframe|]. split; [exact Hcalls|]. left.
    split; [reflexivity|]. exists r. split; assumption.
  - destruct (Hbackoff w0) as (w1 & Hwait & Hfiles1 & Hcalls1).
    assert (Hgo : forall k : option string -> M (option string),
              (returned <- backoff ;; k returned) w0 = k None w1).
    { intros k. unfold bind. rewrite Hwait. reflexivity. }
    destruct (is_Timeout e).
    + exists w1. rewrite Hfiles1, Hcalls1. split; [exact Hframe|].
      split; [exact Hcalls|]. right. right. apply Hgo.
    + destruct (is_RequestException e) eqn:Hreq.
      * exists w1. rewrite Hfiles1, Hcalls1. split; [exact Hframe|].
        split; [exact Hcalls|]. right. right. apply Hgo.
      * exists w0. split; [exact Hframe|]. split; [exact Hcalls|]. right. left.
        exists e. split; [reflexivity|exact Hreq].
Qed.

(** The loop as a whole: it sends at most one request per attempt, changes no
    file but the one at [pdf_path], lets no exception of [requests] through,
    and a path it returns is [pdf_path], where the body of an answer now
    lies. *)
Lemma download_attempts_run (E : Env) (self : Semantic.searcher) (url : pyval)
    (pdf_path : string) (attempts : list Z) :
  forall w, exists o w',
    Semantic.download_attempts E self url pdf_path attempts w = (o, w')
    /\ (forall path, path <> pdf_path -> files w' !! path = files w !! path)
    /\ (length (network_calls w') <= length (network_calls w) + length attempts)%nat
    /\ match o with
       | Ret (Some path) =>
           path = pdf_path
           /\ exists r tr, env_get E tr (py_str E url) [] = Ret r
                           /\ files w' !! pdf_path = Some (content r)
       | Ret None => True
       | Raise e => is_RequestException e = false
       end.
Proof.
  induction attempts as [|attempt rest IH]; intros w.
  - exists (Ret None), w. cbn [Semantic.download_attempts ret length].
    split; [reflexivity|]. split; [reflexivity|]. split; [lia|exact I].
  - destruct (download_attempts_step E self url pdf_path attempt rest w)
      as (w1 & Hframe & Hcalls & [(Hrun & r & Hanswer & Hfile)|[(e & Hrun & He)|Hrun]]);
      cbv zeta in *.
    + exists (Ret (Some pdf_path)), w1. split; [exact Hrun|]. split; [exact Hframe|].
      rewrite Hcalls. cbn [length]. split; [lia|]. split; [reflexivity|eauto].
    + exists (Raise e), w1. split; [exact Hrun|]. split; [exact Hframe|].
      rewrite Hcalls. cbn [length]. split; [lia|exact He].
    + destruct (IH w1) as (o & w' & Hrest & Hframe' & Hcalls' & Ho).
      exists o, w'. rewrite Hrun. split; [exact Hrest|]. split.
      * intros path Hne. rewrite (Hframe' path Hne). apply Hframe, Hne.
      * rewrite Hcalls in Hcalls'. cbn [length] in *. split; [lia|exact Ho].
Qed.

(** ** Looking a paper up *)

Lemma bind_run {A B} (m : M A) (k : A -> M B) (w w1 : world) (a : A) :
  m w = (Ret a, w1) -> bind m k w = k a w1.
Proof. intros H. unfold bind. rewrite H. reflexivity. Qed.

Lemma bind_raised {A B} (m : M A) (k : A -> M B) (w w1 : world) (e : exn) :
  m w = (Raise e, w1) -> bind m k w = (Raise e, w1).
Proof. intros H. unfold bind. rewrite H. reflexivity. Qed.

Lemma parse_paper_source (E : Env) (data : pyval) (p : Paper) :
  Semantic._parse_paper E data = Some p -> source p = "semantic".
Proof.
  unfold Semantic._parse_paper. cbv zeta.
  destruct (py_get data "paperId" (PStr "")) as [pid|]; cbn [obind]; [|discriminate].
  destruct (truthy pid); cbn [negb]; [|discriminate].
  repeat match goal with
         | |- context [obind ?o _] => destruct o; cbn [obind]; [|discriminate]
         end.
  intros H. injection H as <-. reflexivity.
Qed.

(** The run of [get_paper_details]: that of its one call of [_make_request];
    decoding and parsing add nothing to the trace and raise nothing. *)
Lemma get_paper_details_run (E : Env) (self : Semantic.searcher) (pid : string)
    (w : world) :
  let u := Semantic.BASE_URL ++ "/" ++ "paper/" ++ pid in
  let params := [("fields", PStr (Py.join "," Semantic.DEFAULT_FIELDS))] in
  exists evs request w',
    Semantic._make_request E self ("paper/" ++ pid) params 0 w = (request, w')
    /\ Semantic.get_paper_details E self pid w
       = (match request with
          | Ret (Some r) =>
              Ret (match json_body r with
                   | Some data => Semantic._parse_paper E data
                   | None => None
                   end)
          | Ret None => Ret None
          | Raise e => Raise e
          end, w')
    /\ trace w' = (evs ++ trace w)%list
    /\ files w' = files w
    /\ Forall (Retry.request_event u params) evs
    /\ (1 <= Backoff.attempts evs <= S (Z.to_nat (Semantic.max_retries self)))%nat
    /\ (forall e, request = Raise e ->
          is_RequestException e = false
          /\ ((exists tr, env_get E tr u params = Raise e)
              \/ (exn_cls e = RecursionError
                  /\ env_stack_room E < Semantic.max_retries self)
              \/ (exn_cls e = OverflowError
                  /\ (TIME_SLEEP_MAX < 2 ^ Semantic.max_retries self)%Q))).
Proof.
  cbv zeta.
  destruct (make_request_run_bounded E self ("paper/" ++ pid)
              [("fields", PStr (Py.join "," Semantic.DEFAULT_FIELDS))]
              (Z.to_nat (Semantic.max_retries self)) 0 w ltac:(lia) ltac:(lia))
    as (evs & o & w' & Hrun & Htrace & Hfiles & Hevents & Hattempts & Hraise).
  exists evs, o, w'. split; [exact Hrun|].
  split; [|repeat (split; [assumption|]); exact Hraise].
  unfold Semantic.get_paper_details. cbv zeta.
  destruct o as [[r|]|e].
  - rewrite (bind_run _ _ _ _ _ Hrun).
    rewrite (make_request_returns_ok E self ("paper/" ++ pid) _ _ 0 (Nat.le_refl _)
               w (Some r) w' Hrun r eq_refl).
    cbn [negb]. unfold Semantic.response_json.
    destruct (json_body r); reflexivity.
  - rewrite (bind_run _ _ _ _ _ Hrun). reflexivity.
  - rewrite (bind_raised _ _ _ _ _ Hrun). reflexivity.
Qed.

(** [get_paper_details] does nothing but its request: it asks for one URL,
    [BASE_URL/paper/<id>], with the default fields, at least once and at most
    [1 + max_retries] times, and touches no file.  Its result is read off the
    answer: no response gives [None]; a response gives the paper parsed from
    its body, and [None] when the body cannot be decoded or the record cannot
    be parsed; an exception of the request is passed on.  A paper it returns
    has a non-empty identifier and the source tag "semantic".  No exception
    of [requests] leaves the call, and when the retries stay within the
    limits of the interpreter it returns whenever the network raises nothing
    else. *)
Theorem get_paper_details_lookup (E : Env) (self : Semantic.searcher)
    (pid : string) (w : world) :
  let request := Semantic._make_request E self ("paper/" ++ pid)
                   [("fields", PStr (Py.join "," Semantic.DEFAULT_FIELDS))] 0 w in
  let out := Semantic.get_paper_details E self pid w in
  snd out = snd request
  /\ (exists evs,
        trace (snd out) = (evs ++ trace w)%list
        /\ files (snd out) = files w
        /\ Forall (Retry.request_event
                     (Semantic.BASE_URL ++ "/" ++ "paper/" ++ pid)
                     [("fields", PStr (Py.join "," Semantic.DEFAULT_FIELDS))]) evs
        /\ (1 <= Backoff.attempts evs <= S (Z.to_nat (Semantic.max_retries self)))%nat)
  /\ (fst request = Ret None -> fst out = Ret None)
  /\ (forall r, fst request = Ret (Some r) ->
        fst out = Ret (match json_body r with
                       | Some data => Semantic._parse_paper E data
                       | None => None
                       end))
  /\ (forall e, fst request = Raise e -> fst out = Raise e)
  /\ (forall paper, fst out = Ret (Some paper) ->
        truthy (paper_id paper) = true /\ source paper = "semantic")
  /\ (forall e, fst out = Raise e -> is_RequestException e = false)
  /\ (Retry.requests_errors_only E -> Retry.within_limits E self ->
      exists found, fst out = Ret found).
Proof.
  cbv zeta.
  destruct (get_paper_details_run E self pid w)
    as (evs & request & w' & Hrequest & Hrun & Htrace & Hfiles & Hevents & Hattempts
        & Hraise).
  cbv zeta in *. rewrite Hrun, Hrequest. cbn [fst snd].
  split; [reflexivity|].
  split; [exists evs; auto|].
  split; [intros ->; reflexivity|].
  split; [intros r ->; reflexivity|].
  split; [intros e ->; reflexivity|].
  split; [|split].
  - intros paper Hpaper. destruct request as [[r|]|e]; try discriminate Hpaper.
    destruct (json_body r) as [data|]; [|discriminate Hpaper].
    injection Hpaper as Hparse.
    split; [exact (parse_paper_id E data paper Hparse)
           |exact (parse_paper_source E data paper Hparse)].
  - intros e He. destruct request as [[r|]|e']; try discriminate He.
    injection He as <-. apply (Hraise e' eq_refl).
  - intros Honly [Hroom Hsleep]. destruct request as [[r|]|e]; [eauto | eauto|].
    destruct (Hraise e eq_refl) as (He & [(tr & Hanswer)|[(_ & Hfull)|(_ & Hbig)]]);
      [|lia|lra].
    rewrite (Honly _ _ _ _ Hanswer) in He. discriminate He.
Qed.

(** ** The download of [SemanticSearcher] *)

(** [_download_with_curl] can change no file but the one at [pdf_path]. *)
Lemma download_with_curl_frame (E : Env) (url : pyval) (pdf_path : string)
    (w : world) (path : string) :
  path <> pdf_path ->
  files (snd (Semantic._download_with_curl E url pdf_path w)) !! path = files w !! path.
Proof.
  intros Hne.
  unfold Semantic._download_with_curl, bind, which_curl, try_catch, run_curl,
    path_exists, getsize, remove, ret, raise.
  destruct (env_which_curl E (trace w)); cbn [negb fst snd]; [|reflexivity].
  destruct url as [| | |u| |];
    cbn [fst snd is_TimeoutExpired is_Exception exn_cls]; try reflexivity.
  destruct (env_curl E (trace w) u pdf_path) as [rc err written|e]; cbn [fst snd].
  2: { destruct (is_TimeoutExpired e); reflexivity. }
  assert (Hframe : match written with
                   | Some data => <[pdf_path := data]> (files w)
                   | None => files w
                   end !! path = files w !! path).
  { destruct written; [|reflexivity]. apply lookup_insert_ne. congruence. }
  set (after := match written with
                | Some data => <[pdf_path := data]> (files w)
                | None => files w
                end) in *.
  cbn [files trace last_request_time].
  destruct (rc =? 0); cbn [andb]; [|exact Hframe].
  destruct (after !! pdf_path) as [data|] eqn:Hdata; cbn [fst snd files];
    [|exact Hframe].
  rewrite Hdata. cbn [fst snd].
  destruct (Z.of_nat (String.length data) >? 1000); cbn [fst snd files];
    [exact Hframe|].
  rewrite Hdata. cbn [fst snd files]. rewrite lookup_delete_ne by congruence.
  exact Hframe.
Qed.

(** A result of [SemanticSearcher.download_pdf] that does not begin with
    "Error" is the save directory joined with [semantic_<id>.pdf], where the
    identifier has every [/] and [:] replaced, so that the name holds neither;
    a file lies at that path when the call returns, and no other file was
    changed. *)
Theorem semantic_download_names_file (E : Env) (self : Semantic.searcher)
    (pid save_path : string) (w : world) (result : string) :
  fst (Semantic.download_pdf E self pid save_path w) = Ret result ->
  is_error result = false ->
  let safe_id := Py.replace ":" "_" (Py.replace "/" "_" pid) in
  let name := "semantic_" ++ safe_id ++ ".pdf" in
  let after := files (snd (Semantic.download_pdf E self pid save_path w)) in
  result = Semantic.os_path_join save_path name
  /\ Py.contains "/" name = false
  /\ Py.contains ":" name = false
  /\ (exists data, after !! result = Some data)
  /\ (forall path, path <> result -> after !! path = files w !! path).
Proof.
  intros Hret Herr safe_id name after.
  assert (Hsafe : Py.contains "/" name = false /\ Py.contains ":" name = false).
  { unfold name. rewrite !contains_char_app. unfold safe_id. split.
    - rewrite (replace_char_keeps_absent ":" "/" "_" _ eq_refl
                 (replace_char_removes "/" "_" pid eq_refl)).
      reflexivity.
    - rewrite (replace_char_removes ":" "_" _ eq_refl). reflexivity. }
  destruct Hsafe as [Hslash Hcolon].
  cut (result = Semantic.os_path_join save_path name
       /\ (exists data, after !! result = Some data)
       /\ (forall path, path <> result -> after !! path = files w !! path)).
  { intros (H1 & H2 & H3). auto. }
  subst after. revert Hret.
  destruct (get_paper_details_run E self pid w)
    as (evs & request & w1 & _ & Hrun & _ & Hfiles1 & _ & _ & _).
  cbv zeta in Hrun.
  remember (match request with
            | Ret (Some r) =>
                Ret (match json_body r with
                     | Some data => Semantic._parse_paper E data
                     | None => None
                     end)
            | Ret None => Ret None
            | Raise e => Raise e
            end) as o eqn:Ho.
  clear Ho request.
  unfold Semantic.download_pdf.
  destruct o as [[paper|]|e].
  2: { rewrite (bind_run _ _ _ _ _ Hrun). cbn [fst ret]. intros H. injection H as <-.
       assert (H : is_error ("Error: Could not find paper " ++ pid) = true)
         by reflexivity.
       congruence. }
  2: { rewrite (bind_raised _ _ _ _ _ Hrun). discriminate. }
  rewrite (bind_run _ _ _ _ _ Hrun).
  destruct (negb (truthy (pdf_url paper))).
  { cbn [fst ret]. intros H. injection H as <-.
    assert (H : is_error ("Error: No PDF URL available for paper " ++ pid) = true)
      by reflexivity.
    congruence. }
  cbv zeta. fold safe_id. fold name.
  set (pdf_path := Semantic.os_path_join save_path name).
  destruct (env_mkdir E (trace w1) save_path) as [e|] eqn:Hmkdir.
  { rewrite (bind_raised _ _ _ (log (EvMkdir save_path) w1) e)
      by (unfold mkdir; rewrite Hmkdir; reflexivity).
    discriminate. }
  rewrite (bind_run _ _ _ (log (EvMkdir save_path) w1) tt)
    by (unfold mkdir; rewrite Hmkdir; reflexivity).
  set (w2 := log (EvMkdir save_path) w1).
  assert (Hfiles2 : files w2 = files w) by exact Hfiles1.
  pose proof (curl_success_needs_large_file E (pdf_url paper) pdf_path w2) as Hcurl.
  pose proof (download_with_curl_frame E (pdf_url paper) pdf_path w2) as Hframe.
  cbv zeta in Hcurl.
  destruct (Semantic._download_with_curl E (pdf_url paper) pdf_path w2)
    as [[downloaded|e] w3] eqn:Hrun3; cbn [fst snd] in Hcurl, Hframe.
  2: { rewrite (bind_raised _ _ _ _ _ Hrun3). discriminate. }
  rewrite (bind_run _ _ _ _ _ Hrun3).
  destruct downloaded.
  { cbn [fst snd ret]. intros H. injection H as <-.
    destruct (Hcurl eq_refl) as (data & Hdata & _).
    split; [reflexivity|]. split; [eauto|].
    intros path Hne. rewrite (Hframe path Hne), Hfiles2. reflexivity. }
  destruct (download_attempts_run E self (pdf_url paper) pdf_path
              (Semantic.range (Semantic.max_retries self)) w3)
    as (o & w4 & Hrun4 & Hframe4 & _ & Ho).
  destruct o as [[path|]|e].
  - rewrite (bind_run _ _ _ _ _ Hrun4). cbn [fst snd ret]. intros H. injection H as <-.
    destruct Ho as (-> & r & tr & _ & Hdata).
    split; [reflexivity|]. split; [eauto|].
    intros path Hne. rewrite (Hframe4 path Hne), (Hframe path Hne), Hfiles2.
    reflexivity.
  - rewrite (bind_run _ _ _ _ _ Hrun4). cbn [fst snd ret]. intros H. injection H as <-.
    assert (H : is_error ("Error downloading PDF: All methods failed for "
                          ++ py_str E (pdf_url paper)) = true) by reflexivity.
    congruence.
  - rewrite (bind_raised _ _ _ _ _ Hrun4). discriminate.
Qed.

Lemma semantic_download_names_file_witness :
  let out := Semantic.download_pdf Scenario.library (Semantic.init None None 30 3)
               "DOI:10.18653/v1/N18-3011" "/tmp/papers" Scenario.start in
  let result := "/tmp/papers/semantic_DOI_10.18653_v1_N18-3011.pdf" in
  result = Semantic.os_path_join "/tmp/papers"
             ("semantic_" ++ Py.replace ":" "_"
                               (Py.replace "/" "_" "DOI:10.18653/v1/N18-3011")
              ++ ".pdf")
  /\ Py.contains "/" ("semantic_" ++ Py.replace ":" "_"
                                       (Py.replace "/" "_" "DOI:10.18653/v1/N18-3011")
                      ++ ".pdf") = false
  /\ Py.contains ":" ("semantic_" ++ Py.replace ":" "_"
                                       (Py.replace "/" "_" "DOI:10.18653/v1/N18-3011")
                      ++ ".pdf") = false
  /\ (exists data, files (snd out) !! result = Some data)
  /\ (forall path, path <> result ->
        files (snd out) !! path = files Scenario.start !! path).
Proof.
  apply (semantic_download_names_file Scenario.library (Semantic.init None None 30 3)
           "DOI:10.18653/v1/N18-3011" "/tmp/papers" Scenario.start
           "/tmp/papers/semantic_DOI_10.18653_v1_N18-3011.pdf").
  - vm_compute. reflexivity.
  - reflexivity.
Defined.

(** ** A download that keeps being refused *)







(** ** The public operations of [SciHubFetcher] *)



(** ** The API is down *)

(** When every request fails and the retries stay within the limits of the
    interpreter, [download_pdf] and [read_paper] of [SemanticSearcher] both
    end in the same state with the same string, "Error: Could not find paper
    <id>", after the first metadata request and [max_retries] retries.
    Nothing but those requests, clock readings and sleeps is recorded: no
    directory is created, [curl] is not run, the converter is not called,
    and the files are as they were. *)
Theorem semantic_paper_api_down (E : Env) (self : Semantic.searcher)
    (pid save_path : string) (w : world) :
  Retry.always_failing E ->
  Retry.within_limits E self ->
  let message := "Error: Could not find paper " ++ pid in
  let out := Semantic.read_paper E self pid save_path w in
  exists evs,
    Semantic.download_pdf E self pid save_path w = (Ret message, snd out)
    /\ fst out = Ret message
    /\ trace (snd out) = (evs ++ trace w)%list
    /\ files (snd out) = files w
    /\ Forall (Retry.request_event
                 (Semantic.BASE_URL ++ "/" ++ "paper/" ++ pid)
                 [("fields", PStr (Py.join "," Semantic.DEFAULT_FIELDS))]) evs
    /\ Backoff.attempts evs = S (Z.to_nat (Semantic.max_retries self)).
Proof.
  intros Hfail Hlimits message out.
  destruct (make_request_failing_run E self ("paper/" ++ pid)
              [("fields", PStr (Py.join "," Semantic.DEFAULT_FIELDS))] Hfail Hlimits
              (Z.to_nat (Semantic.max_retries self)) 0 w ltac:(f_equal; lia))
    as (evs & w' & Hrun & Htrace & Hattempts & _ & _).
  destruct (make_request_run_bounded E self ("paper/" ++ pid)
              [("fields", PStr (Py.join "," Semantic.DEFAULT_FIELDS))]
              (Z.to_nat (Semantic.max_retries self)) 0 w ltac:(lia) ltac:(lia))
    as (evs2 & o2 & w2 & Hrun2 & Htrace2 & Hfiles2 & Hevents2 & _).
  rewrite Hrun in Hrun2. injection Hrun2 as <- <-.
  assert (evs2 = evs) as ->.
  { rewrite Htrace in Htrace2. exact (eq_sym (app_inv_tail _ _ _ Htrace2)). }
  assert (Hdetails : Semantic.get_paper_details E self pid w = (Ret None, w')).
  { unfold Semantic.get_paper_details. cbv zeta. rewrite (bind_run _ _ _ _ _ Hrun).
    reflexivity. }
  assert (Hdownload : Semantic.download_pdf E self pid save_path w = (Ret message, w')).
  { unfold Semantic.download_pdf. rewrite (bind_run _ _ _ _ _ Hdetails). reflexivity. }
  assert (Hread : out = (Ret message, w')).
  { subst out. unfold Semantic.read_paper. rewrite (bind_run _ _ _ _ _ Hdownload).
    assert (Herror : is_error message = true) by reflexivity.
    rewrite Herror. reflexivity. }
  exists evs. rewrite Hread. cbn [fst snd].
  repeat (split; [assumption || reflexivity|]). exact Hattempts.
Qed.

Lemma semantic_paper_api_down_witness :
  let out := Semantic.read_paper Scenario.offline (Semantic.init None None 30 3)
               "ARXIV:1805.02262" "/tmp/papers" Scenario.start in
  exists evs,
    Semantic.download_pdf Scenario.offline (Semantic.init None None 30 3)
      "ARXIV:1805.02262" "/tmp/papers" Scenario.start
    = (Ret ("Error: Could not find paper " ++ "ARXIV:1805.02262"), snd out)
    /\ fst out = Ret ("Error: Could not find paper " ++ "ARXIV:1805.02262")
    /\ trace (snd out) = (evs ++ trace Scenario.start)%list
    /\ files (snd out) = files Scenario.start
    /\ Forall (Retry.request_event
                 (Semantic.BASE_URL ++ "/" ++ "paper/" ++ "ARXIV:1805.02262")
                 [("fields", PStr (Py.join "," Semantic.DEFAULT_FIELDS))]) evs
    /\ Backoff.attempts evs = 4%nat.
Proof.
  exact (semantic_paper_api_down Scenario.offline (Semantic.init None None 30 3)
           "ARXIV:1805.02262" "/tmp/papers" Scenario.start offline_always_failing
           offline_within_limits).
Defined.

(** ** The request of a search *)

(** [search] asks only [BASE_URL/paper/search], with the limit capped at 100
    and the year filter present exactly when a non-empty year was given, at
    least once and at most [1 + max_retries] times, and touches no file.  No
    exception of [requests] leaves it.  When the retries stay within the
    limits of the interpreter, an exception that leaves it is either one the
    network raised, or the one raised by slicing the [data] field of the
    answer, when that is neither an array nor a string. *)
Theorem search_request (E : Env) (self : Semantic.searcher) (query : string)
    (year : option string) (max_results : Z) (w : world) :
  let params := Semantic.search_params query year max_results in
  let u := Semantic.BASE_URL ++ "/" ++ "paper/search" in
  let request := Semantic._make_request E self "paper/search" params 0 w in
  let out := Semantic.search E self query year max_results w in
  (exists evs,
     trace (snd out) = (evs ++ trace w)%list
     /\ files (snd out) = files w
     /\ Forall (Retry.request_event u params) evs
     /\ (1 <= Backoff.attempts evs <= S (Z.to_nat (Semantic.max_retries self)))%nat)
  /\ (forall e, fst out = Raise e -> is_RequestException e = false)
  /\ (Retry.within_limits E self ->
      forall e, fst out = Raise e ->
        (exists tr, env_get E tr u params = Raise e)
        \/ (exists r data results,
              fst request = Ret (Some r)
              /\ Semantic.response_json r = Ret data
              /\ py_get data "data" (PList []) = Ret results
              /\ py_slice_to max_results results = Raise e))
  /\ (exists limit, In ("limit", PInt limit) params
                    /\ limit <= 100 /\ limit <= max_results)
  /\ (forall y, In ("year", y) params
                <-> exists s, year = Some s /\ Py.nonempty s = true /\ y = PStr s).
Proof.
  intros params u request out.
  destruct (make_request_run_bounded E self "paper/search" params
              (Z.to_nat (Semantic.max_retries self)) 0 w ltac:(lia) ltac:(lia))
    as (evs & o & w' & Hrun & Htrace & Hfiles & Hevents & Hattempts & Hraise).
  assert (Hout : exists o', out = (o', w')
                 /\ forall e, o' = Raise e ->
                      is_RequestException e = false
                      /\ ((exists tr, env_get E tr u params = Raise e)
                          \/ (exists r data results,
                                o = Ret (Some r)
                                /\ Semantic.response_json r = Ret data
                                /\ py_get data "data" (PList []) = Ret results
                                /\ py_slice_to max_results results = Raise e)
                          \/ (exn_cls e = RecursionError
                              /\ env_stack_room E < Semantic.max_retries self)
                          \/ (exn_cls e = OverflowError
                              /\ (TIME_SLEEP_MAX < 2 ^ Semantic.max_retries self)%Q))).
  { subst out. unfold Semantic.search. cbv zeta. fold params.
    destruct o as [[r|]|e].
    - rewrite (bind_run _ _ _ _ _ Hrun).
      destruct (negb (response_ok r)); [eexists; split; [reflexivity|discriminate]|].
      destruct (Semantic.response_json r) as [data|e] eqn:Hjson; cbn [obind];
        [|eexists; split; [reflexivity|discriminate]].
      destruct (py_get data "data" (PList [])) as [results|e] eqn:Hdata;
        [|eexists; split; [reflexivity|discriminate]].
      unfold bind, lift, ret.
      destruct (py_slice_to max_results results) as [sliced|e0] eqn:Hslice.
      + assert (Hiter : exists items, py_iter sliced = Ret items).
        { destruct results as [| | |s|l|d]; cbn [py_slice_to] in Hslice;
            try discriminate Hslice; injection Hslice as <-; cbn [py_iter]; eauto. }
        destruct Hiter as [items ->].
        eexists. split; [reflexivity|discriminate].
      + eexists. split; [reflexivity|]. intros e He. injection He as <-. split.
        * destruct results as [| | |s|l|d]; cbn [py_slice_to] in Hslice;
            try discriminate Hslice; injection Hslice as <-; reflexivity.
        * right. left. exists r, data, results. auto.
    - rewrite (bind_run _ _ _ _ _ Hrun). eexists. split; [reflexivity|discriminate].
    - rewrite (bind_raised _ _ _ _ _ Hrun). eexists. split; [reflexivity|].
      intros e' He'. injection He' as <-.
      destruct (Hraise e eq_refl) as [He [Hanswer|Hdeep]];
        (split; [exact He|]); [left; exact Hanswer | right; right; exact Hdeep]. }
  destruct Hout as (o' & -> & Ho'). subst request. rewrite Hrun. cbn [fst snd].
  split; [exists evs; auto|]. split; [intros e ->; exact (proj1 (Ho' e eq_refl))|].
  split.
  { intros [Hroom Hsleep] e ->.
    destruct (Ho' e eq_refl) as [_ [Hanswer|[Hslice|[[_ Hdeep]|[_ Hbig]]]]];
      [auto | auto | lia | lra]. }
  split.
  - exists (Z.min max_results 100). split; [|lia].
    unfold params, Semantic.search_params. apply in_or_app. left. cbn [In]. auto.
  - intros y. unfold params, Semantic.search_params. rewrite in_app_iff. split.
    + intros [Hin|Hin].
      * cbn [In] in Hin. destruct Hin as [H|[H|[H|[]]]]; discriminate H.
      * destruct year as [s|]; [|destruct Hin].
        destruct (Py.nonempty s) eqn:Hs; [|destruct Hin].
        destruct Hin as [H|[]]. injection H as <-. eauto.
    + intros (s & -> & Hs & ->). right. rewrite Hs. left. reflexivity.
Qed.
